(** * Blazemark: the incremental build pipeline of [blazemark.py]

    A shallow embedding of the static-site generator's core: front-matter
    parsing, change detection against the hash cache, the render worker,
    the plugin hook chain, taxonomy aggregation and the output writer,
    followed by the properties stated for them. *)

From Stdlib Require Import ZArith Ascii String List Bool Lia Permutation Sorted.
From stdpp Require Import base option list gmap strings.

Import ListNotations.
Local Open Scope string_scope.
Local Open Scope list_scope.
Local Open Scope Z_scope.

(** ** Strings, as [str] uses them *)

Module Str.

(** The line feed character, the only character [lstrip('\n')] removes. *)
Definition LF : ascii := ascii_of_nat 10.

(** The double quote, spelled by code. *)
Definition DQUOTE : ascii := ascii_of_nat 34.

(** [s.startswith(p)] *)
Definition startswith (s p : string) : bool := String.prefix p s.

Fixpoint drop (n : nat) (s : string) : string :=
  match n, s with
  | O, _ => s
  | S _, EmptyString => EmptyString
  | S n', String _ s' => drop n' s'
  end.

(** The text before and after the leftmost occurrence of [sep] in [s],
    when there is one. *)
Fixpoint partition (sep s : string) : option (string * string) :=
  if String.prefix sep s then Some (EmptyString, drop (String.length sep) s)
  else match s with
       | EmptyString => None
       | String c s' =>
           match partition sep s' with
           | Some (a, b) => Some (String c a, b)
           | None => None
           end
       end.

(** [s.split(sep, maxsplit)] for a non-empty separator: at most
    [maxsplit] cuts, taken from the left, occurrences not overlapping. *)
Fixpoint split (sep : string) (maxsplit : nat) (s : string) : list string :=
  match maxsplit with
  | O => [s]
  | S n =>
      match partition sep s with
      | None => [s]
      | Some (a, b) => a :: split sep n b
      end
  end.

(** [s.lstrip('\n')] *)
Fixpoint lstrip_lf (s : string) : string :=
  match s with
  | String c s' => if Ascii.eqb c LF then lstrip_lf s' else s
  | EmptyString => s
  end.

(** [s.rfind('.')]: the index of the last dot. *)
Fixpoint rfind_dot (s : string) : option nat :=
  match s with
  | EmptyString => None
  | String c s' =>
      match rfind_dot s' with
      | Some i => Some (S i)
      | None => if Ascii.eqb c "."%char then Some O else None
      end
  end.

Fixpoint take (n : nat) (s : string) : string :=
  match n, s with
  | O, _ => EmptyString
  | S _, EmptyString => EmptyString
  | S n', String c s' => String c (take n' s')
  end.

(** The last component of a POSIX path: what follows the last slash. *)
Fixpoint basename (s : string) : string :=
  match s with
  | EmptyString => EmptyString
  | String c s' =>
      if Ascii.eqb c "/"%char then basename s'
      else match partition "/" s' with
           | Some (_, _) => basename s'
           | None => s
           end
  end.

(** [Path(p).stem]: the final component without its last suffix; a name
    that starts with its only dot, or ends with a dot, has no suffix. *)
Definition stem (p : string) : string :=
  let name := basename p in
  match rfind_dot name with
  | Some i =>
      if (0 <? i)%nat && (S i <? String.length name)%nat then take i name
      else name
  | None => name
  end.

End Str.

(** ** Metadata values

    What [yaml.safe_load] yields for a front-matter block, restricted to
    the shapes the data model names: a mapping from string keys to scalars
    and flat lists of scalars.  Floats, nested collections and
    timezone-aware timestamps are outside this fragment. *)

Inductive scalar : Type :=
| SNone
| SBool (b : bool)
| SInt (z : Z)
| SStr (s : string)
| SDate (y m d : Z)
| SDateTime (y m d hh mi ss : Z).

Inductive value : Type :=
| VScalar (x : scalar)
| VList (l : list scalar).

(** A [dict] with string keys, in insertion order, keys unique. *)
Definition meta : Type := list (string * value).

(** The object a YAML document loads to: a mapping, or anything else. *)
Inductive pyobj : Type :=
| PMap (m : meta)
| PVal (v : value).

(** The exceptions the pipeline can see.  [LibError] stands for whatever
    an opaque collaborator (YAML, markdown, templates, a plugin) raises. *)
Inductive exn : Type :=
| TypeError
| AttributeError
| ValueError
| KeyError
| LibError (msg : string).

Coercion VScalar : scalar >-> value.

Module Py.

(** Truth value testing, [bool(x)]. *)
Definition scalar_truthy (x : scalar) : bool :=
  match x with
  | SNone => false
  | SBool b => b
  | SInt z => negb (z =? 0)
  | SStr s => negb (String.eqb s "")
  | SDate _ _ _ => true
  | SDateTime _ _ _ _ _ _ => true
  end.

Definition truthy (v : value) : bool :=
  match v with
  | VScalar x => scalar_truthy x
  | VList l => match l with [] => false | _ :: _ => true end
  end.

Definition obj_truthy (o : pyobj) : bool :=
  match o with
  | PMap m => match m with [] => false | _ :: _ => true end
  | PVal v => truthy v
  end.

(** [bool] is a subclass of [int]: [True] counts as 1, [False] as 0. *)
Definition as_num (x : scalar) : option Z :=
  match x with
  | SBool b => Some (if b then 1 else 0)
  | SInt z => Some z
  | _ => None
  end.

Definition lex3 (a b : Z * Z * Z) : bool :=
  let '(a1, a2, a3) := a in
  let '(b1, b2, b3) := b in
  (a1 <? b1) || ((a1 =? b1) && ((a2 <? b2) || ((a2 =? b2) && (a3 <? b3)))).

(** [x == y] on scalars. *)
Definition scalar_eq (x y : scalar) : bool :=
  match as_num x, as_num y with
  | Some a, Some b => a =? b
  | _, _ =>
      match x, y with
      | SNone, SNone => true
      | SStr s, SStr t => String.eqb s t
      | SDate y1 m1 d1, SDate y2 m2 d2 => (y1 =? y2) && (m1 =? m2) && (d1 =? d2)
      | SDateTime y1 m1 d1 h1 i1 s1, SDateTime y2 m2 d2 h2 i2 s2 =>
          (y1 =? y2) && (m1 =? m2) && (d1 =? d2)
          && (h1 =? h2) && (i1 =? i2) && (s1 =? s2)
      | _, _ => false
      end
  end.

(** [x < y] on scalars; [None] is the [TypeError] of an unordered pair.
    A [date] and a [datetime] do not compare, nor does [None] with
    anything. *)
Definition scalar_lt (x y : scalar) : option bool :=
  match as_num x, as_num y with
  | Some a, Some b => Some (a <? b)
  | _, _ =>
      match x, y with
      | SStr s, SStr t => Some (String.ltb s t)
      | SDate y1 m1 d1, SDate y2 m2 d2 => Some (lex3 (y1, m1, d1) (y2, m2, d2))
      | SDateTime y1 m1 d1 h1 i1 s1, SDateTime y2 m2 d2 h2 i2 s2 =>
          Some (lex3 (y1, m1, d1) (y2, m2, d2)
                || ((y1 =? y2) && (m1 =? m2) && (d1 =? d2)
                    && lex3 (h1, i1, s1) (h2, i2, s2)))
      | _, _ => None
      end
  end.

(** [l1 < l2] on lists: the first position where the elements differ
    decides, and a proper prefix is smaller. *)
Fixpoint list_lt (l1 l2 : list scalar) : option bool :=
  match l1, l2 with
  | [], [] => Some false
  | [], _ :: _ => Some true
  | _ :: _, [] => Some false
  | a :: l1', b :: l2' => if scalar_eq a b then list_lt l1' l2' else scalar_lt a b
  end.

(** [v < w] *)
Definition lt (v w : value) : option bool :=
  match v, w with
  | VScalar x, VScalar y => scalar_lt x y
  | VList l1, VList l2 => list_lt l1 l2
  | _, _ => None
  end.

(** [d.get(k)]: the value under the first (only) occurrence of [k]. *)
Fixpoint get (d : meta) (k : string) : option value :=
  match d with
  | [] => None
  | (k', v) :: d' => if String.eqb k k' then Some v else get d' k
  end.

(** [d.get(k, default)] *)
Definition get_or (d : meta) (k : string) (default : value) : value :=
  match get d k with
  | Some v => v
  | None => default
  end.

(** [d[k] = v] on a copy: an existing key keeps its place. *)
Fixpoint set (d : meta) (k : string) (v : value) : meta :=
  match d with
  | [] => [(k, v)]
  | (k', v') :: d' =>
      if String.eqb k k' then (k', v) :: d' else (k', v') :: set d' k v
  end.

(** [x in l] for a list [l] of scalars. *)
Definition scalar_in (x : scalar) (l : list scalar) : bool :=
  existsb (scalar_eq x) l.

(** [t in s] for strings: [t] occurs in [s] as a substring. *)
Definition substring_of (t s : string) : bool :=
  match Str.partition t s with
  | Some _ => true
  | None => false
  end.

(** Insertion of [x] into a list already in the order of [sorted], so
    that [x] stays ahead of every element it does not have to follow;
    [before x y] tells that [y] must come before [x]. *)
Fixpoint insert_by {A : Type} (before : A -> A -> option bool)
    (x : A) (l : list A) : option (list A) :=
  match l with
  | [] => Some [x]
  | y :: l' =>
      match before x y with
      | None => None
      | Some true =>
          match insert_by before x l' with
          | Some r => Some (y :: r)
          | None => None
          end
      | Some false => Some (x :: l)
      end
  end.

Fixpoint sort_by {A : Type} (before : A -> A -> option bool)
    (l : list A) : option (list A) :=
  match l with
  | [] => Some []
  | x :: l' =>
      match sort_by before l' with
      | Some r => insert_by before x r
      | None => None
      end
  end.

(** [sorted(l, key=key, reverse=reverse)]: a stable sort that only asks
    [<] of the keys; [None] when a comparison raises [TypeError].  With
    [reverse] the larger key comes first and equal keys still keep their
    order.  Wherever every two keys compare, any stable sort returns this
    list; on two elements exactly one comparison is made. *)
Definition sorted {A : Type} (key : A -> value) (reverse : bool)
    (l : list A) : option (list A) :=
  sort_by (fun x y => if reverse then lt (key x) (key y)
                      else lt (key y) (key x)) l.

End Py.

(** ** Results, records and the collaborators outside the repository *)

(** What a call gives: a value, or the exception it raised. *)
Inductive res (A : Type) : Type :=
| Ok (a : A)
| Raise (e : exn).

Arguments Ok {A} a.
Arguments Raise {A} e.

(** What the program prints, message by message. *)
Inductive log_entry : Type :=
| LogFrontMatterError (e : exn)
| LogPluginError (plugin_class hook : string) (e : exn)
| LogCleaned
| LogBuildDone (output_dir : string).

(** [Post], the dataclass handed to the [on_after_render] hooks. *)
Record Post : Type := mkPost {
  post_src : string;
  post_slug : value;
  post_title : value;
  post_date : value;
  post_content : value;
  post_meta : meta;
  post_url : string
}.

(** The dictionary a render worker returns. *)
Record render_result : Type := mkResult {
  res_src : string;
  res_slug : value;
  res_html : string;
  res_meta : meta;
  res_url : string
}.

(** An entry of [raw_post_list]: [{"meta": ..., "url": ...}]. *)
Record listing : Type := mkListing {
  l_meta : meta;
  l_url : string
}.

(** An entry of the cache's ["posts"] mapping, as [build] writes it. *)
Record cache_entry : Type := mkEntry {
  e_mtime : Z;
  e_hash : string;
  e_output : string
}.

(** A markdown file of the content tree. *)
Record source : Type := mkSource {
  src_path : string;
  src_text : string;
  src_mtime : Z
}.

(** The content tree as [glob] lists it, in no particular order. *)
Record content : Type := mkContent {
  glob_posts : list source;
  glob_pages : option (list source)
}.

(** A theme directory: its four templates, each a function from the
    variables [render] is called with to the page (or the exception of a
    failing render), itself the outcome of [get_template] (the exception
    of a missing template), and its static files by relative path.  A
    page's [page] variable is a function of the other variables and is
    left to the template. *)
Record theme : Type := mkTheme {
  post_html : res (value -> string -> meta -> meta -> res string);
  index_html :
    res (list listing -> meta -> list scalar -> list scalar -> res string);
  tags_html :
    res (option scalar -> list listing -> meta -> option (list scalar)
         -> res string);
  category_html :
    res (option scalar -> list listing -> meta -> option (list scalar)
         -> res string);
  static_files : list (string * string)
}.

(** The libraries and the machine the program runs on.  [plugin_state]
    is whatever the loaded plugin objects keep between hook calls. *)
Class Platform : Type := {
  plugin_state : Type;
  sha1_hexdigest : string -> string;
  yaml_safe_load : string -> res pyobj;
  github_flavored_markdown_to_html : string -> res string;
  py_str : value -> string;
  cpu_count : Z;
  now_year : Z
}.

(** The files on disk between runs and the memory of one run. *)
Record state `{Platform} : Type := mkState {
  cache : gmap string cache_entry;
  cache_file : option (gmap string cache_entry);
  public : gmap string string;
  console : list log_entry;
  plugins_mem : plugin_state
}.

(** A plugin instance.  A hook returns the plugins' memory after the call
    together with its result; [on_build_finished] may also write into the
    output tree. *)
Record Plugin `{Platform} : Type := mkPlugin {
  class_name : string;
  on_after_render : plugin_state -> Post -> string -> plugin_state * res string;
  on_build_finished :
    meta -> gmap string cache_entry -> content ->
    plugin_state -> gmap string string ->
    plugin_state * gmap string string * res unit
}.

(** The base class: hooks that do nothing. *)
Definition base_plugin `{Platform} (name : string) : Plugin := {|
  class_name := name;
  on_after_render := fun w _ html => (w, Ok html);
  on_build_finished := fun _ _ _ w tree => (w, tree, Ok tt)
|}.

(** A [Blazemark] object after [__init__], its cache apart. *)
Record Blazemark `{Platform} : Type := mkBlazemark {
  config : meta;
  theme_dir : theme;
  plugins : list Plugin;
  workers : Z
}.

(** A future of the pool: the worker's prints and its outcome. *)
Definition future : Type := list log_entry * res render_result.

(** [as_completed]: the futures in the order they finish, some
    rearrangement of the order they were submitted in. *)
Record schedule : Type := mkSchedule {
  as_completed :> list future -> list future;
  as_completed_perm : forall l, Permutation (as_completed l) l
}.

(** ** Paths *)

Definition OUTPUT_DIR : string := "public".

(** [a / b] on paths whose segments are already normalised: an absolute
    right operand replaces the left one, an empty one adds nothing. *)
Definition path_join (a b : string) : string :=
  if String.eqb b "" then a
  else if Str.startswith b "/" then b
  else a +:+ "/" +:+ b.

(** [Path(p).relative_to(OUTPUT_DIR).as_posix()] *)
Definition relative_to_output (p : string) : res string :=
  if Str.startswith p (OUTPUT_DIR +:+ "/")
  then Ok (Str.drop (String.length OUTPUT_DIR + 1) p)
  else if String.eqb p OUTPUT_DIR then Ok "."
  else Raise ValueError.

(** ** Small helpers *)

(** [compute_hash(s)]: the SHA-1 digest of the text, in hexadecimal. *)
Definition compute_hash `{Platform} (s : string) : string := sha1_hexdigest s.

(** [safe_slug(path)] *)
Definition safe_slug (path : string) : string := Str.stem path.

(** ** Front matter *)

(** [parse_front_matter(text)], with what it prints. *)
Definition parse_front_matter `{Platform} (text : string)
  : (pyobj * string) * list log_entry :=
  if Str.startswith text "---" then
    match Str.split "---" 2 text with
    | _ :: block :: rest :: _ =>
        let '(meta_, printed) :=
          match yaml_safe_load block with
          | Ok o => (if Py.obj_truthy o then o else PMap [], [])
          | Raise e => (PMap [], [LogFrontMatterError e])
          end in
        ((meta_, Str.lstrip_lf rest), printed)
    | _ => ((PMap [], text), [])
    end
  else ((PMap [], text), []).

(** [meta.get]: only a mapping has it. *)
Definition as_dict (o : pyobj) : res meta :=
  match o with
  | PMap m => Ok m
  | PVal _ => Raise AttributeError
  end.

(** ** The render worker *)

Definition is_alnum (c : ascii) : bool :=
  let n := nat_of_ascii c in
  ((48 <=? n) && (n <=? 57) || (65 <=? n) && (n <=? 90)
   || (97 <=? n) && (n <=? 122))%nat.

(** The longest run of [[a-zA-Z0-9]] at the head of [s], and what follows. *)
Fixpoint span_alnum (s : string) : string * string :=
  match s with
  | String c s' =>
      if is_alnum c then let '(a, b) := span_alnum s' in (String c a, b)
      else (EmptyString, s)
  | EmptyString => (EmptyString, EmptyString)
  end.

Definition pre_lang_open : string := "<pre lang=" +:+ String Str.DQUOTE "".
Definition pre_lang_close : string := String Str.DQUOTE "><code>".

(** A match of [<pre lang="([a-zA-Z0-9]+)"><code>] at the head of [s]:
    the captured language and the length of the match. *)
Definition match_pre_lang (s : string) : option (string * nat) :=
  if Str.startswith s pre_lang_open then
    let '(lang, rest) := span_alnum (Str.drop (String.length pre_lang_open) s) in
    if negb (String.eqb lang "") && Str.startswith rest pre_lang_close
    then Some (lang, (String.length pre_lang_open + String.length lang
                      + String.length pre_lang_close)%nat)
    else None
  else None.

(** The [re.sub] of the worker: every match, left to right, becomes
    [<pre><code class="language-LANG">]; [skip] characters of a match
    are still to be passed over. *)
Fixpoint sub_pre_lang (skip : nat) (s : string) : string :=
  match s with
  | EmptyString => EmptyString
  | String c s' =>
      match skip with
      | S k => sub_pre_lang k s'
      | O =>
          match match_pre_lang s with
          | Some (lang, n) =>
              ("<pre><code class=" +:+ String Str.DQUOTE "language-" +:+ lang
               +:+ String Str.DQUOTE ">") +:+ sub_pre_lang (Nat.pred n) s'
          | None => String c (sub_pre_lang O s')
          end
      end
  end.

(** [f"{v}"]: a string as it is, anything else through [str]. *)
Definition format_value `{Platform} (v : value) : string :=
  match v with
  | VScalar (SStr s) => s
  | _ => py_str v
  end.

(** [Path(p).read_text()] over the content tree. *)
Definition all_sources (c : content) : list source :=
  glob_posts c ++ match glob_pages c with Some l => l | None => [] end.

Fixpoint find_source (l : list source) (p : string) : option source :=
  match l with
  | [] => None
  | f :: l' => if String.eqb (src_path f) p then Some f else find_source l' p
  end.

Definition read_file (c : content) (p : string) : res string :=
  match find_source (all_sources c) p with
  | Some f => Ok (src_text f)
  | None => Raise (LibError "FileNotFoundError")
  end.

(** [meta.get("slug") or src_path.stem] *)
Definition resolve_slug (m : meta) (src : string) : value :=
  match Py.get m "slug" with
  | Some v => if Py.truthy v then v else VScalar (SStr (Str.stem src))
  | None => VScalar (SStr (Str.stem src))
  end.

(** [render_post_worker((src, theme_dir, site_meta))] *)
Definition render_post_worker `{Platform} (c : content)
    (args : string * theme * meta) : future :=
  let '(src, theme_dir_, site_meta) := args in
  match read_file c src with
  | Raise e => ([], Raise e)
  | Ok text =>
      let '((meta_, body), printed) := parse_front_matter text in
      (printed,
       match as_dict meta_ with
       | Raise e => Raise e
       | Ok m =>
           let slug := resolve_slug m src in
           let title := Py.get_or m "title" slug in
           match github_flavored_markdown_to_html body with
           | Raise e => Raise e
           | Ok html_body =>
               let html_body := sub_pre_lang O html_body in
               match post_html theme_dir_ with
               | Raise e => Raise e
               | Ok tpl =>
                   match tpl title html_body m site_meta with
                   | Raise e => Raise e
                   | Ok out_html =>
                       Ok {| res_src := src;
                             res_slug := slug;
                             res_html := out_html;
                             res_meta :=
                               Py.set m "content_raw" (VScalar (SStr body));
                             res_url :=
                               "/" +:+ format_value slug +:+ "/index.html" |}
                   end
               end
           end
       end)
  end.

(** ** The build as a computation over [state] that may raise *)

Definition M `{Platform} (A : Type) : Type := state -> res A * state.

Definition ret `{Platform} {A : Type} (a : A) : M A := fun s => (Ok a, s).

Definition bind `{Platform} {A B : Type} (m : M A) (k : A -> M B) : M B :=
  fun s =>
    match m s with
    | (Ok a, s') => k a s'
    | (Raise e, s') => (Raise e, s')
    end.

Definition raise `{Platform} {A : Type} (e : exn) : M A :=
  fun s => (Raise e, s).

Definition lift `{Platform} {A : Type} (r : res A) : M A := fun s => (r, s).

Declare Scope build_scope.
Delimit Scope build_scope with build.
Notation "'let!' x ':=' m 'in' k" := (bind m (fun x => k))
  (at level 10, x name, m at level 100, k at level 200) : build_scope.
Notation "'let!' ' p ':=' m 'in' k" := (bind m (fun x => let 'p := x in k))
  (at level 10, p pattern, m at level 100, k at level 200) : build_scope.
Notation "m ;; k" := (bind m (fun _ => k))
  (at level 100, k at level 200, right associativity) : build_scope.
Local Open Scope build_scope.

Definition get_cache `{Platform} : M (gmap string cache_entry) :=
  fun s => (Ok (cache s), s).

(** [print(...)] *)
Definition print `{Platform} (l : list log_entry) : M unit :=
  fun s => (Ok tt, {| cache := cache s; cache_file := cache_file s;
                      public := public s; console := console s ++ l;
                      plugins_mem := plugins_mem s |}).

(** [write_file(p, t)]: the parent directories are made as needed. *)
Definition write_file `{Platform} (p t : string) : M unit :=
  fun s => (Ok tt, {| cache := cache s; cache_file := cache_file s;
                      public := <[p := t]> (public s); console := console s;
                      plugins_mem := plugins_mem s |}).

(** [self.cache.setdefault("posts", {})[src] = entry] *)
Definition cache_store `{Platform} (src : string) (e : cache_entry) : M unit :=
  fun s => (Ok tt, {| cache := <[src := e]> (cache s);
                      cache_file := cache_file s;
                      public := public s; console := console s;
                      plugins_mem := plugins_mem s |}).

(** [self._save_cache()] *)
Definition _save_cache `{Platform} : M unit :=
  fun s => (Ok tt, {| cache := cache s; cache_file := Some (cache s);
                      public := public s; console := console s;
                      plugins_mem := plugins_mem s |}).

(** A loop that carries its local variables from one round to the next. *)
Fixpoint for_each `{Platform} {A B : Type} (l : list A) (acc : B)
    (body : B -> A -> M B) : M B :=
  match l with
  | [] => ret acc
  | x :: l' => let! acc' := body acc x in for_each l' acc' body
  end.

(** ** Discovery *)

Fixpoint insert_source (f : source) (l : list source) : list source :=
  match l with
  | [] => [f]
  | g :: l' =>
      if String.ltb (src_path g) (src_path f) then g :: insert_source f l'
      else f :: l
  end.

(** [sorted(paths)]: by path, ascending. *)
Definition sorted_sources (l : list source) : list source :=
  fold_right insert_source [] l.

(** [self.discover_posts_and_pages()] *)
Definition discover_posts_and_pages (c : content) : list source * list source :=
  (sorted_sources (glob_posts c),
   match glob_pages c with
   | Some l => sorted_sources l
   | None => []
   end).

(** [self._optimal_workers()] *)
Definition _optimal_workers `{Platform} (c : content) : Z :=
  let cpu := cpu_count in
  let n_posts := Z.of_nat (length (glob_posts c)) in
  Z.min cpu (Z.max 2 n_posts).

(** [self._load_cache()]: a missing or unreadable file is an empty cache. *)
Definition _load_cache (file : option (gmap string cache_entry))
  : gmap string cache_entry :=
  match file with
  | Some c => c
  | None => ∅
  end.

(** [Blazemark(theme=None, workers=workers)]: the object, and the state
    its run starts in. *)
Definition Blazemark_init `{Platform} (cfg : meta) (th : theme)
    (loaded : list Plugin) (workers_arg : option Z) (c : content) : Blazemark :=
  {| config := cfg;
     theme_dir := th;
     plugins := loaded;
     workers := match workers_arg with
                | Some w => if w =? 0 then _optimal_workers c else w
                | None => _optimal_workers c
                end |}.

Definition start `{Platform} (fresh : plugin_state)
    (file : option (gmap string cache_entry)) (tree : gmap string string)
  : state :=
  {| cache := _load_cache file; cache_file := file; public := tree;
     console := []; plugins_mem := fresh |}.

(** [self.clean()] *)
Definition clean `{Platform} : M unit :=
  fun s => (Ok tt, {| cache := cache s; cache_file := None; public := ∅;
                      console := console s ++ [LogCleaned];
                      plugins_mem := plugins_mem s |}).

(** ** [Blazemark.build] *)

(** The arguments of one render task. *)
Definition task : Type := (string * theme * meta)%type.

(** [site_meta], built from the configuration. *)
Definition site_meta_of `{Platform} (cfg : meta) : meta :=
  [ ("title", Py.get_or cfg "title" (VScalar (SStr "Blazemark Blog")));
    ("subtitle", Py.get_or cfg "subtitle" (VScalar (SStr "")));
    ("description", Py.get_or cfg "description" (VScalar (SStr "")));
    ("author", Py.get_or cfg "author" (VScalar (SStr "")));
    ("url", Py.get_or cfg "url" (VScalar (SStr "")));
    ("language", Py.get_or cfg "language" (VScalar (SStr "en")));
    ("year", VScalar (SInt now_year)) ].

(** [meta.get("draft", False)], as a condition. *)
Definition is_draft (m : meta) : bool :=
  Py.truthy (Py.get_or m "draft" (VScalar (SBool false))).

(** [force or not cached or cached["hash"] != h], with [h] the hash of
    the file's text and [cached] the entry under its path. *)
Definition needs_render `{Platform} (force : bool)
    (posts : gmap string cache_entry) (f : source) : bool :=
  force ||
  match posts !! src_path f with
  | None => true
  | Some cached => negb (String.eqb (e_hash cached) (compute_hash (src_text f)))
  end.

(** One round of the loop over [all_files]. *)
Definition select_step `{Platform} (bm : Blazemark) (force : bool)
    (site_meta : meta) (tasks : list task) (f : source) : M (list task) :=
  let '((meta_, _), printed) := parse_front_matter (src_text f) in
  print printed ;;
  let! m := lift (as_dict meta_) in
  if is_draft m && negb force then ret tasks
  else
    let! posts := get_cache in
    if needs_render force posts f
    then ret (tasks ++ [(src_path f, theme_dir bm, site_meta)])
    else ret tasks.

Definition select_tasks `{Platform} (bm : Blazemark) (force : bool)
    (site_meta : meta) (all_files : list source) : M (list task) :=
  for_each all_files [] (select_step bm force site_meta).

(** One round of the loop over [as_completed(futures)]:
    [results.append(fut.result())]. *)
Definition collect_step `{Platform} (results : list render_result)
    (fut : future) : M (list render_result) :=
  print (fst fut) ;;
  let! r := lift (snd fut) in
  ret (results ++ [r]).

(** The pool: nothing is started without tasks, and a pool of no workers
    is refused. *)
Definition render_all `{Platform} (bm : Blazemark) (c : content)
    (sched : schedule) (tasks : list task) : M (list render_result) :=
  match tasks with
  | [] => ret []
  | _ :: _ =>
      if workers bm <=? 0 then raise ValueError
      else for_each (sched (map (render_post_worker c) tasks)) [] collect_step
  end.

(** The [Post] built for a hook call; a result without its raw body has
    no ["content_raw"] to read. *)
Definition post_of (r : render_result) : res Post :=
  match Py.get (res_meta r) "content_raw" with
  | Some body =>
      Ok {| post_src := res_src r;
            post_slug := res_slug r;
            post_title := Py.get_or (res_meta r) "title" (res_slug r);
            post_date := Py.get_or (res_meta r) "published" (VScalar (SStr ""));
            post_content := body;
            post_meta := res_meta r;
            post_url := res_url r |}
  | None => Raise KeyError
  end.

(** One round of the loop over [self.plugins], around [res["html"]]. *)
Definition after_render_step `{Platform} (r : render_result)
    (html : string) (p : Plugin) : M string :=
  fun s =>
    match post_of r with
    | Raise e =>
        (Ok html,
         {| cache := cache s; cache_file := cache_file s; public := public s;
            console := console s
                       ++ [LogPluginError (class_name p) "on_after_render" e];
            plugins_mem := plugins_mem s |})
    | Ok post =>
        match on_after_render p (plugins_mem s) post html with
        | (w, Ok html') =>
            (Ok html',
             {| cache := cache s; cache_file := cache_file s;
                public := public s; console := console s; plugins_mem := w |})
        | (w, Raise e) =>
            (Ok html,
             {| cache := cache s; cache_file := cache_file s;
                public := public s;
                console := console s
                           ++ [LogPluginError (class_name p) "on_after_render" e];
                plugins_mem := w |})
        end
    end.

Definition run_after_render `{Platform} (bm : Blazemark) (r : render_result)
  : M string :=
  for_each (plugins bm) (res_html r) (after_render_step r).

(** The local variables the loop over [results] fills. *)
Record harvest : Type := mkHarvest {
  raw_post_list : list listing;
  all_tags : list scalar;
  all_categories : list scalar
}.

(** A path segment must be a string. *)
Definition as_str (v : value) : res string :=
  match v with
  | VScalar (SStr s) => Ok s
  | _ => Raise TypeError
  end.

(** The names a [tags] or [category] field declares: a string stands for
    the list of itself, a list for its elements, and nothing else can be
    iterated. *)
Definition declared_names (v : value) : res (list scalar) :=
  match v with
  | VScalar (SStr s) => Ok [SStr s]
  | VList l => Ok l
  | VScalar _ => Raise TypeError
  end.

(** A [set] of scalars, listed in the order its members first came. *)
Definition set_add (s : list scalar) (x : scalar) : list scalar :=
  if Py.scalar_in x s then s else s ++ [x].

(** [s.update(xs)] *)
Definition set_update (s xs : list scalar) : list scalar :=
  fold_left set_add xs s.

Definition stat_mtime (c : content) (p : string) : res Z :=
  match find_source (all_sources c) p with
  | Some f => Ok (src_mtime f)
  | None => Raise (LibError "FileNotFoundError")
  end.

(** One round of the loop over [results]. *)
Definition result_step `{Platform} (bm : Blazemark) (c : content)
    (force : bool) (acc : harvest) (r : render_result) : M harvest :=
  let! slug := lift (as_str (res_slug r)) in
  let out_path := path_join (path_join OUTPUT_DIR slug) "index.html" in
  let! html := run_after_render bm r in
  if negb (is_draft (res_meta r)) || force then
    write_file out_path html ;;
    let src := res_src r in
    let! mtime := lift (stat_mtime c src) in
    let! text := lift (read_file c src) in
    cache_store src {| e_mtime := mtime;
                       e_hash := compute_hash text;
                       e_output := out_path |} ;;
    let! rel := lift (relative_to_output out_path) in
    let raw := raw_post_list acc
               ++ [{| l_meta := res_meta r; l_url := "/" +:+ rel |}] in
    let! tags := lift (declared_names
                         (Py.get_or (res_meta r) "tags" (VList []))) in
    let tags_ := set_update (all_tags acc) tags in
    let! categories := lift (declared_names
                               (Py.get_or (res_meta r) "category" (VList []))) in
    ret {| raw_post_list := raw;
           all_tags := tags_;
           all_categories := set_update (all_categories acc) categories |}
  else ret acc.

(** [self.copy_static()] *)
Definition copy_static `{Platform} (bm : Blazemark) : M unit :=
  for_each (static_files (theme_dir bm)) tt
    (fun _ item =>
       write_file (path_join (path_join OUTPUT_DIR "static") (fst item)) (snd item)).

(** The sort key of the home index: [p['meta'].get('date', datetime(1970, 1, 1))]. *)
Definition date_key (p : listing) : value :=
  Py.get_or (l_meta p) "date" (VScalar (SDateTime 1970 1 1 0 0 0)).

Definition or_type_error {A : Type} (o : option A) : res A :=
  match o with
  | Some a => Ok a
  | None => Raise TypeError
  end.

(** [sorted(raw_post_list, key=..., reverse=True)] *)
Definition post_list_of (raw : list listing) : res (list listing) :=
  or_type_error (Py.sorted date_key true raw).

(** [sorted(all_tags)], [sorted(all_categories)] *)
Definition sorted_names (names : list scalar) : res (list scalar) :=
  or_type_error (Py.sorted VScalar false names).

(** The home index: template, sort, render, write. *)
Definition write_index `{Platform} (bm : Blazemark) (site_meta : meta)
    (h : harvest) : M unit :=
  let! index_tpl := lift (index_html (theme_dir bm)) in
  let! post_list := lift (post_list_of (raw_post_list h)) in
  let! tags := lift (sorted_names (all_tags h)) in
  let! categories := lift (sorted_names (all_categories h)) in
  let! html := lift (index_tpl post_list site_meta tags categories) in
  write_file (path_join OUTPUT_DIR "index.html") html.

(** [name in v], for [v] the field a document declares: membership in a
    list, and for a string the search of a substring, which only a
    string can be looked for in. *)
Definition py_in (name : scalar) (v : value) : res bool :=
  match v with
  | VList l => Ok (Py.scalar_in name l)
  | VScalar (SStr s) =>
      match name with
      | SStr t => Ok (Py.substring_of t s)
      | _ => Raise TypeError
      end
  | VScalar _ => Raise TypeError
  end.

(** [[p for p in raw_post_list if name in p["meta"].get(field, [])]] *)
Fixpoint posts_for (field : string) (name : scalar) (raw : list listing)
  : res (list listing) :=
  match raw with
  | [] => Ok []
  | p :: raw' =>
      match py_in name (Py.get_or (l_meta p) field (VList [])) with
      | Raise e => Raise e
      | Ok b =>
          match posts_for field name raw' with
          | Raise e => Raise e
          | Ok l => Ok (if b then p :: l else l)
          end
      end
  end.

(** Where the page of a tag or category goes. *)
Definition taxonomy_path (dir name : string) : string :=
  path_join (path_join (path_join OUTPUT_DIR dir) name) "index.html".

(** One round of the loop over [all_tags] (or [all_categories]). *)
Definition taxonomy_step `{Platform}
    (tpl : option scalar -> list listing -> meta -> option (list scalar)
           -> res string)
    (field dir : string) (site_meta : meta) (raw : list listing)
    (_ : unit) (name : scalar) : M unit :=
  let! members := lift (posts_for field name raw) in
  let! seg := lift (as_str (VScalar name)) in
  let! html := lift (tpl (Some name) members site_meta None) in
  write_file (taxonomy_path dir seg) html.

(** The pages of every name, then the index page of the names. *)
Definition write_taxonomy `{Platform}
    (get_template : res (option scalar -> list listing -> meta
                         -> option (list scalar) -> res string))
    (field dir : string) (site_meta : meta) (raw : list listing)
    (names : list scalar) : M unit :=
  let! tpl := lift get_template in
  for_each names tt (taxonomy_step tpl field dir site_meta raw) ;;
  let! sorted_ := lift (sorted_names names) in
  let! html := lift (tpl None [] site_meta (Some sorted_)) in
  write_file (path_join (path_join OUTPUT_DIR dir) "index.html") html.

(** One round of the closing loop over [self.plugins]. *)
Definition build_finished_step `{Platform} (bm : Blazemark) (c : content)
    (_ : unit) (p : Plugin) : M unit :=
  fun s =>
    match on_build_finished p (config bm) (cache s) c (plugins_mem s) (public s) with
    | (w, tree, Ok _) =>
        (Ok tt,
         {| cache := cache s; cache_file := cache_file s; public := tree;
            console := console s; plugins_mem := w |})
    | (w, tree, Raise e) =>
        (Ok tt,
         {| cache := cache s; cache_file := cache_file s; public := tree;
            console := console s
                       ++ [LogPluginError (class_name p) "on_build_finished" e];
            plugins_mem := w |})
    end.

(** [Blazemark.build(force)] *)
Definition build `{Platform} (bm : Blazemark) (c : content)
    (sched : schedule) (force : bool) : M unit :=
  let site_meta := site_meta_of (config bm) in
  let '(posts_list, pages_list) := discover_posts_and_pages c in
  let all_files := posts_list ++ pages_list in
  let! tasks := select_tasks bm force site_meta all_files in
  let! results := render_all bm c sched tasks in
  let! h := for_each results
              {| raw_post_list := []; all_tags := []; all_categories := [] |}
              (result_step bm c force) in
  copy_static bm ;;
  write_index bm site_meta h ;;
  write_taxonomy (tags_html (theme_dir bm)) "tags" "tag" site_meta
    (raw_post_list h) (all_tags h) ;;
  write_taxonomy (category_html (theme_dir bm)) "category" "category" site_meta
    (raw_post_list h) (all_categories h) ;;
  _save_cache ;;
  print [LogBuildDone OUTPUT_DIR] ;;
  for_each (plugins bm) tt (build_finished_step bm c).

(** The [build] command of [main]: a fresh object, its cache read from
    the file, then [build]. *)
Definition main_build `{Platform} (cfg : meta) (th : theme)
    (loaded : list Plugin) (fresh : plugin_state) (c : content)
    (sched : schedule) (force : bool)
    (file : option (gmap string cache_entry)) (tree : gmap string string)
  : res unit * state :=
  build (Blazemark_init cfg th loaded None c) c sched force
        (start fresh file tree).

(** ** A small site to run the pipeline on

    Stand-ins for the collaborators: PyYAML tabulated on the metadata
    blocks of the sample documents, a digest that is the text itself
    (injective, as SHA-1 is on these samples), a markdown converter that
    leaves the body as it is, and templates that list what they are given. *)

Module Sample.

Definition nl : string := String Str.LF "".

(** [yaml.safe_load] on the blocks of the sample documents. *)
Definition yaml_table : list (string * res pyobj) :=
  [ (nl +:+ "title: A" +:+ nl +:+ "date: 2024-01-01" +:+ nl,
     Ok (PMap [("title", VScalar (SStr "A")); ("date", VScalar (SDate 2024 1 1))]));
    (nl +:+ "title: B" +:+ nl +:+ "date: 2024-01-01" +:+ nl,
     Ok (PMap [("title", VScalar (SStr "B")); ("date", VScalar (SDate 2024 1 1))]));
    (nl +:+ "title: C" +:+ nl,
     Ok (PMap [("title", VScalar (SStr "C"))]));
    (nl +:+ "tags: [py]" +:+ nl,
     Ok (PMap [("tags", VList [SStr "py"])]));
    (nl +:+ "tags: python" +:+ nl,
     Ok (PMap [("tags", VScalar (SStr "python"))]));
    (nl +:+ "draft: true" +:+ nl,
     Ok (PMap [("draft", VScalar (SBool true))]));
    (nl +:+ "draft: false" +:+ nl,
     Ok (PMap [("draft", VScalar (SBool false))]));
    (nl +:+ "slug: ''" +:+ nl,
     Ok (PMap [("slug", VScalar (SStr ""))]));
    (nl +:+ "slug: intro" +:+ nl,
     Ok (PMap [("slug", VScalar (SStr "intro"))]));
    (nl +:+ "[" +:+ nl,
     Raise (LibError "while parsing a flow node")) ].

Fixpoint lookup_block (t : list (string * res pyobj)) (block : string)
  : res pyobj :=
  match t with
  | [] => Raise (LibError "block not tabulated")
  | (b, r) :: t' => if String.eqb b block then r else lookup_block t' block
  end.

Definition platform : Platform := {|
  plugin_state := unit;
  sha1_hexdigest := fun s => s;
  yaml_safe_load := lookup_block yaml_table;
  github_flavored_markdown_to_html := fun body => Ok body;
  py_str := fun _ => "";
  cpu_count := 4;
  now_year := 2026
|}.

(** The URLs of a list of documents, each followed by a semicolon. *)
Fixpoint urls (l : list listing) : string :=
  match l with
  | [] => ""
  | p :: l' => l_url p +:+ ";" +:+ urls l'
  end.

Definition site_theme : theme := {|
  post_html := Ok (fun _ content _ _ => Ok ("<article>" +:+ content +:+ "</article>"));
  index_html := Ok (fun posts _ _ _ => Ok ("index:" +:+ urls posts));
  tags_html := Ok (fun _ posts _ _ => Ok ("tag:" +:+ urls posts));
  category_html := Ok (fun _ posts _ _ => Ok ("category:" +:+ urls posts));
  static_files := []
|}.

(** A theme whose post template fails on one body. *)
Definition fragile_theme : theme := {|
  post_html := Ok (fun _ content _ _ =>
                     if String.eqb content "beta"
                     then Raise (LibError "TemplateError")
                     else Ok ("<article>" +:+ content +:+ "</article>"));
  index_html := index_html site_theme;
  tags_html := tags_html site_theme;
  category_html := category_html site_theme;
  static_files := []
|}.

Definition front (block body : string) : string :=
  "---" +:+ nl +:+ block +:+ nl +:+ "---" +:+ nl +:+ body.

Definition doc_a : source :=
  {| src_path := "content/a.md";
     src_text := front ("title: A" +:+ nl +:+ "date: 2024-01-01") "alpha";
     src_mtime := 100 |}.

Definition doc_b : source :=
  {| src_path := "content/b.md";
     src_text := front ("title: B" +:+ nl +:+ "date: 2024-01-01") "beta";
     src_mtime := 101 |}.

Definition doc_py_list : source :=
  {| src_path := "content/one.md";
     src_text := front "tags: [py]" "one";
     src_mtime := 102 |}.

Definition doc_py_scalar : source :=
  {| src_path := "content/two.md";
     src_text := front "tags: python" "two";
     src_mtime := 103 |}.

Definition doc_draft : source :=
  {| src_path := "content/wip.md";
     src_text := front "draft: true" "soon";
     src_mtime := 104 |}.

Definition doc_undrafted : source :=
  {| src_path := "content/wip.md";
     src_text := front "draft: false" "soon";
     src_mtime := 105 |}.

Definition doc_empty_slug : source :=
  {| src_path := "content/hello-world.md";
     src_text := front "slug: ''" "hi";
     src_mtime := 106 |}.

Definition doc_slug : source :=
  {| src_path := "content/first.md";
     src_text := front "slug: intro" "hi";
     src_mtime := 107 |}.

Definition bad_front_matter : string := front "[" "hello".

Definition site (posts : list source) : content :=
  {| glob_posts := posts; glob_pages := None |}.

(** Futures collected in the order they were submitted. *)
Definition in_order : schedule :=
  {| as_completed := fun l => l;
     as_completed_perm := fun l => Permutation_refl l |}.

(** Futures collected last submitted first. *)
Definition last_first : schedule :=
  {| as_completed := @rev future;
     as_completed_perm := fun l => Permutation_sym (Permutation_rev l) |}.

(** [python blazemark.py build] on an output tree and cache file. *)
Definition run (th : theme) (c : content) (sched : schedule) (force : bool)
    (file : option (gmap string cache_entry)) (tree : gmap string string)
  : res unit * state (H := platform) :=
  main_build (H := platform) [] th [] tt c sched force file tree.

(** A plugin whose hook always raises, and one that appends a footer. *)
Definition broken_plugin : Plugin (H := platform) := {|
  class_name := "BrokenPlugin";
  on_after_render := fun w _ _ => (w, Raise (LibError "boom"));
  on_build_finished := fun _ _ _ w tree => (w, tree, Ok tt)
|}.

Definition footer_plugin : Plugin (H := platform) := {|
  class_name := "FooterPlugin";
  on_after_render := fun w _ html => (w, Ok (html +:+ "<footer/>"));
  on_build_finished := fun _ _ _ w tree => (w, tree, Ok tt)
|}.

(** What the worker returns for [doc_a] and [doc_b] under [site_theme]. *)
Definition result_a : render_result :=
  {| res_src := "content/a.md";
     res_slug := VScalar (SStr "a");
     res_html := "<article>alpha</article>";
     res_meta := [("title", VScalar (SStr "A"));
                  ("date", VScalar (SDate 2024 1 1));
                  ("content_raw", VScalar (SStr "alpha"))];
     res_url := "/a/index.html" |}.

Definition result_b : render_result :=
  {| res_src := "content/b.md";
     res_slug := VScalar (SStr "b");
     res_html := "<article>beta</article>";
     res_meta := [("title", VScalar (SStr "B"));
                  ("date", VScalar (SDate 2024 1 1));
                  ("content_raw", VScalar (SStr "beta"))];
     res_url := "/b/index.html" |}.

Definition post_a : Post :=
  {| post_src := "content/a.md";
     post_slug := VScalar (SStr "a");
     post_title := VScalar (SStr "A");
     post_date := VScalar (SStr "");
     post_content := VScalar (SStr "alpha");
     post_meta := res_meta result_a;
     post_url := "/a/index.html" |}.

(** The object [main] builds for a site, and a first run's state. *)
Definition generator (th : theme) (c : content) : Blazemark (H := platform) :=
  Blazemark_init (H := platform) [] th [] None c.

Definition first_run : state (H := platform) :=
  start (H := platform) tt None ∅.

End Sample.

(** ** A second sample site

    The sample platform with a few more metadata blocks tabulated. *)

Module Site.

Import Sample.

Definition yaml_blocks : list (string * res pyobj) :=
  Sample.yaml_table ++
  [ (nl +:+ "- a" +:+ nl +:+ "- b" +:+ nl,
     Ok (PVal (VList [SStr "a"; SStr "b"])));
    (nl +:+ "tags: [py, web]" +:+ nl +:+ "category: notes" +:+ nl,
     Ok (PMap [("tags", VList [SStr "py"; SStr "web"]);
               ("category", VScalar (SStr "notes"))]));
    (nl +:+ "title: A" +:+ nl +:+ "date: 2024-06-01" +:+ nl,
     Ok (PMap [("title", VScalar (SStr "A"));
               ("date", VScalar (SDate 2024 6 1))]));
    (nl +:+ "slug: 7" +:+ nl,
     Ok (PMap [("slug", VScalar (SInt 7))])) ].

Definition site_platform : Platform := {|
  plugin_state := unit;
  sha1_hexdigest := fun s => s;
  yaml_safe_load := lookup_block yaml_blocks;
  github_flavored_markdown_to_html := fun body => Ok body;
  py_str := fun _ => "";
  cpu_count := 4;
  now_year := 2026
|}.

(** A document whose metadata block is a YAML sequence. *)
Definition doc_sequence : source :=
  {| src_path := "content/seq.md";
     src_text := front ("- a" +:+ nl +:+ "- b") "body";
     src_mtime := 200 |}.

Definition doc_tagged : source :=
  {| src_path := "content/tagged.md";
     src_text := front ("tags: [py, web]" +:+ nl +:+ "category: notes") "text";
     src_mtime := 201 |}.

(** [doc_a] after an edit of its date. *)
Definition doc_a_edited : source :=
  {| src_path := "content/a.md";
     src_text := front ("title: A" +:+ nl +:+ "date: 2024-06-01") "alpha";
     src_mtime := 202 |}.

(** A document whose slug is a number. *)
Definition doc_numeric_slug : source :=
  {| src_path := "content/n.md";
     src_text := front "slug: 7" "seven";
     src_mtime := 203 |}.

Definition site_generator (th : theme) (c : content)
  : Blazemark (H := site_platform) :=
  Blazemark_init (H := site_platform) [] th [] None c.

Definition site_start : state (H := site_platform) :=
  start (H := site_platform) tt None ∅.

Definition site_run (th : theme) (c : content) (sched : schedule) (force : bool)
    (file : option (gmap string cache_entry)) (tree : gmap string string)
  : res unit * state (H := site_platform) :=
  main_build (H := site_platform) [] th [] tt c sched force file tree.

End Site.

(** ** The phases of [build] after the write loop *)

(** Lines 250 to 323 of [build]: the static files, the home index, the
    tag pages and the category pages. *)
Definition render_pages `{Platform} (bm : Blazemark) (site_meta : meta)
    (h : harvest) : M unit :=
  copy_static bm ;;
  write_index bm site_meta h ;;
  write_taxonomy (tags_html (theme_dir bm)) "tags" "tag" site_meta
    (raw_post_list h) (all_tags h) ;;
  write_taxonomy (category_html (theme_dir bm)) "category" "category" site_meta
    (raw_post_list h) (all_categories h).

(** Lines 325 to 334: the cache file, the closing message, the
    [on_build_finished] hooks. *)
Definition finish `{Platform} (bm : Blazemark) (c : content) : M unit :=
  _save_cache ;;
  print [LogBuildDone OUTPUT_DIR] ;;
  for_each (plugins bm) tt (build_finished_step bm c).

(** A cache entry that describes the file now found under its path: the
    hash of its text and its modification time. *)
Definition fresh_entry `{Platform} (c : content) (p : string)
    (e : cache_entry) : Prop :=
  exists f, find_source (all_sources c) p = Some f
            /\ e_hash e = compute_hash (src_text f)
            /\ e_mtime e = src_mtime f.

(** A computation that removes no file from the output tree, whatever
    its outcome. *)
Definition keeps_pages `{Platform} {A : Type} (m : M A) : Prop :=
  forall s out s', m s = (out, s') -> dom (public s) ⊆ dom (public s').

(** A plugin whose [on_build_finished] hook removes no file from the
    output tree. *)
Definition hook_keeps_pages `{Platform} (p : Plugin) : Prop :=
  forall cfg posts c w tree,
    dom tree ⊆ dom (snd (fst (on_build_finished p cfg posts c w tree))).

(** Where the page of a document with the slug [slug] goes. *)
Definition page_path (slug : string) : string :=
  path_join (path_join OUTPUT_DIR slug) "index.html".

(** The slug the worker resolves for a file. *)
Definition slug_of_file `{Platform} (f : source) : value :=
  match fst (fst (parse_front_matter (src_text f))) with
  | PMap m => resolve_slug m (src_path f)
  | PVal _ => VScalar (SStr (Str.stem (src_path f)))
  end.


(** ** [Blazemark.get_posts] *)

(** The dictionary [get_posts] builds for a document. *)
Record post_entry : Type := mkPostEntry {
  gp_title : value;
  gp_date : value;
  gp_category : value;
  gp_tags : value;
  gp_url : string;
  gp_content : value
}.

Definition post_entry_of (m : meta) (url : string) : post_entry :=
  {| gp_title := Py.get_or m "title" (VScalar (SStr ""));
     gp_date := Py.get_or m "date" (VScalar (SStr ""));
     gp_category := Py.get_or m "category" (VScalar (SStr ""));
     gp_tags := Py.get_or m "tags" (VList []);
     gp_url := url;
     gp_content := Py.get_or m "content_raw" (VScalar (SStr "")) |}.

(** One round of the loop over [self.cache["posts"].items()]. *)
Definition get_posts_step `{Platform} (c : content) (include_drafts : bool)
    (posts : list post_entry) (item : string * cache_entry)
  : M (list post_entry) :=
  let '(s, info) := item in
  let! text := lift (read_file c s) in
  let '((meta_, _), printed) := parse_front_matter text in
  print printed ;;
  let! m := lift (as_dict meta_) in
  if is_draft m && negb include_drafts then ret posts
  else
    let! rel := lift (relative_to_output (e_output info)) in
    ret (posts ++ [post_entry_of m ("/" +:+ rel)]).

(** [self.get_posts(include_drafts)], over [items], the entries of the
    cache in the order the dictionary yields them (the order of
    insertion, which the map of the state does not record). *)
Definition get_posts `{Platform} (c : content)
    (items : list (string * cache_entry)) (include_drafts : bool)
  : M (list post_entry) :=
  for_each items [] (get_posts_step c include_drafts).

(** An entry of the cache that [get_posts] can list: a file is found
    under its path, the front matter of the file is a mapping, and its
    output path lies under the output directory. *)
Definition listable `{Platform} (c : content) (p : string) (e : cache_entry)
    (m : meta) (rel : string) : Prop :=
  exists f, find_source (all_sources c) p = Some f
            /\ fst (fst (parse_front_matter (src_text f))) = PMap m
            /\ relative_to_output (e_output e) = Ok rel.
(** ** Vocabulary of the properties *)

(** The draft flag the orchestrator reads off a file: the truth value of
    [draft] in its front matter. *)
Definition front_matter_draft `{Platform} (f : source) : bool :=
  match fst (fst (parse_front_matter (src_text f))) with
  | PMap m => is_draft m
  | PVal _ => false
  end.

(** The front matter of [f] is a mapping (or absent), so that [meta.get]
    can be asked of it. *)
Definition has_mapping `{Platform} (f : source) : Prop :=
  exists m, fst (fst (parse_front_matter (src_text f))) = PMap m.

(** The task submitted for a file. *)
Definition task_of `{Platform} (bm : Blazemark) (site_meta : meta)
    (f : source) : task :=
  (src_path f, theme_dir bm, site_meta).

(** The two tests of the selection loop together. *)
Definition selected `{Platform} (force : bool)
    (posts : gmap string cache_entry) (f : source) : bool :=
  negb (front_matter_draft f && negb force) && needs_render force posts f.

(** Two states that differ at most in what was printed. *)
Definition same_but_console `{Platform} (s s' : state) : Prop :=
  cache s' = cache s /\ cache_file s' = cache_file s
  /\ public s' = public s /\ plugins_mem s' = plugins_mem s.

(** The hook chain as the specification words it: a left fold over the
    plugins in registration order, carrying the HTML, the plugins' memory
    and the messages printed; a hook that raises leaves the HTML as it
    received it and adds a message. *)
Definition hook_fold_step `{Platform} (post : Post)
    (acc : string * plugin_state * list log_entry) (p : Plugin)
  : string * plugin_state * list log_entry :=
  let '(html, w, printed) := acc in
  match on_after_render p w post html with
  | (w', Ok html') => (html', w', printed)
  | (w', Raise e) =>
      (html, w', printed ++ [LogPluginError (class_name p) "on_after_render" e])
  end.

Definition after_render_fold `{Platform} (post : Post) (ps : list Plugin)
    (html : string) (w : plugin_state)
  : string * plugin_state * list log_entry :=
  fold_left (hook_fold_step post) ps (html, w, []).

(** The test of the write phase: [not res["meta"].get("draft", False) or force]. *)
Definition written (force : bool) (r : render_result) : bool :=
  negb (is_draft (res_meta r)) || force.

(** Two sort keys neither of which is smaller than the other. *)
Definition tied (k k' : value) : bool :=
  match Py.lt k k', Py.lt k' k with
  | Some false, Some false => true
  | _, _ => false
  end.

(** [all_files]: the posts, then the pages, each group in path order. *)
Definition discovered (c : content) : list source :=
  let '(posts_list, pages_list) := discover_posts_and_pages c in
  posts_list ++ pages_list.

(** A computation that leaves the cache and the cache file alone,
    whatever its outcome. *)
Definition keeps_cache `{Platform} {A : Type} (m : M A) : Prop :=
  forall s out s',
    m s = (out, s') -> cache s' = cache s /\ cache_file s' = cache_file s.

(** ** Proof tools *)

(** Boolean tests on integers, turned into propositions for [lia]. *)
Ltac zbool :=
  repeat match goal with
  | H : _ = false |- _ => apply not_true_iff_false in H
  | |- _ = false => apply not_true_iff_false
  end;
  repeat (rewrite ?orb_true_iff, ?andb_true_iff, ?Z.ltb_lt, ?Z.eqb_eq in * );
  try lia.

(** Case analysis on every boolean in sight. *)
Ltac split_bools :=
  repeat match goal with b : bool |- _ => destruct b end.

(** * Properties *)

(** ** The string helpers on examples *)

Example stem_md : Str.stem "content/hello-world.md" = "hello-world".
Proof. reflexivity. Qed.

Example stem_dotfile : Str.stem "content/.md" = ".md".
Proof. reflexivity. Qed.

Example split_twice : Str.split "---" 2 "---a---b---c" = [""; "a"; "b---c"].
Proof. reflexivity. Qed.

Example split_unclosed : Str.split "---" 2 "---a" = [""; "a"].
Proof. reflexivity. Qed.

Example sub_pre_lang_example :
  sub_pre_lang O (pre_lang_open +:+ "py" +:+ pre_lang_close +:+ "x")
  = "<pre><code class=" +:+ String Str.DQUOTE "language-py"
    +:+ String Str.DQUOTE ">x".
Proof. reflexivity. Qed.

(** ** Front matter (C4) *)

Section FrontMatter.
Context `{Platform}.

Lemma parse_front_matter_no_delimiter (text : string) :
  Str.startswith text "---" = false ->
  parse_front_matter text = ((PMap [], text), []).
Proof. intros Hs. unfold parse_front_matter. now rewrite Hs. Qed.

Lemma parse_front_matter_unclosed (text : string) :
  (length (Str.split "---" 2 text) < 3)%nat ->
  parse_front_matter text = ((PMap [], text), []).
Proof.
  intros Hlen. unfold parse_front_matter.
  destruct (Str.startswith text "---"); [|reflexivity].
  destruct (Str.split "---" 2 text) as [|a [|b [|c l]]]; simpl in Hlen;
    try reflexivity; lia.
Qed.

Lemma parse_front_matter_bad_block (text pre block rest : string) (e : exn) :
  Str.startswith text "---" = true ->
  Str.split "---" 2 text = [pre; block; rest] ->
  yaml_safe_load block = Raise e ->
  parse_front_matter text
  = ((PMap [], Str.lstrip_lf rest), [LogFrontMatterError e]).
Proof.
  intros Hs Hsplit Hload. unfold parse_front_matter.
  now rewrite Hs, Hsplit, Hload.
Qed.

(** C4, as the code has it: a text that does not open with the
    delimiter, or never closes it, comes back whole with empty metadata
    and nothing printed; a block that fails to load gives empty metadata,
    one printed message, and as body what follows the closing delimiter
    with its leading line feeds removed.  The function is total: no
    failure of the loader escapes it. *)
Theorem parse_front_matter_fallback (text : string) :
  (Str.startswith text "---" = false \/
   (length (Str.split "---" 2 text) < 3)%nat ->
   parse_front_matter text = ((PMap [], text), []))
  /\ (forall pre block rest e,
        Str.startswith text "---" = true ->
        Str.split "---" 2 text = [pre; block; rest] ->
        yaml_safe_load block = Raise e ->
        parse_front_matter text
        = ((PMap [], Str.lstrip_lf rest), [LogFrontMatterError e])).
Proof.
  split.
  - intros [Hs | Hlen].
    + now apply parse_front_matter_no_delimiter.
    + now apply parse_front_matter_unclosed.
  - intros pre block rest e. apply parse_front_matter_bad_block.
Qed.

End FrontMatter.

(** The fallback at work on a document whose block is an unclosed flow
    sequence. *)
Lemma parse_front_matter_fallback_witness :
  parse_front_matter (H := Sample.platform) Sample.bad_front_matter
  = ((PMap [], "hello"),
     [LogFrontMatterError (LibError "while parsing a flow node")]).
Proof.
  exact (proj2 (parse_front_matter_fallback (H := Sample.platform)
                  Sample.bad_front_matter)
           "" (Sample.nl +:+ "[" +:+ Sample.nl) (Sample.nl +:+ "hello")
           (LibError "while parsing a flow node")
           eq_refl eq_refl eq_refl).
Defined.

(** C4 as stated fails: the block of this document does not load, and
    the body returned is not the original text. *)
Lemma parse_front_matter_body_not_original :
  yaml_safe_load (Platform := Sample.platform)
    (Sample.nl +:+ "[" +:+ Sample.nl)
  = Raise (LibError "while parsing a flow node")
  /\ snd (fst (parse_front_matter (H := Sample.platform)
                 Sample.bad_front_matter)) = "hello"
  /\ Sample.bad_front_matter <> "hello".
Proof. repeat split. discriminate. Qed.

(** ** Slug resolution (C10) *)

Section Worker.
Context `{Platform}.

Lemma resolve_slug_cases (m : meta) (src : string) :
  (forall v, Py.get m "slug" = Some v -> Py.truthy v = true ->
             resolve_slug m src = v)
  /\ (forall v, Py.get m "slug" = Some v -> Py.truthy v = false ->
                resolve_slug m src = VScalar (SStr (Str.stem src)))
  /\ (Py.get m "slug" = None ->
      resolve_slug m src = VScalar (SStr (Str.stem src))).
Proof.
  unfold resolve_slug. repeat split.
  - intros v -> ->. reflexivity.
  - intros v -> ->. reflexivity.
  - intros ->. reflexivity.
Qed.

(** What a successful worker returns, field by field. *)
Lemma render_post_worker_ok (c : content) (src : string) (th : theme)
    (site_meta : meta) (printed : list log_entry) (r : render_result) :
  render_post_worker c (src, th, site_meta) = (printed, Ok r) ->
  exists text m body,
    read_file c src = Ok text
    /\ parse_front_matter text = ((PMap m, body), printed)
    /\ res_src r = src
    /\ res_slug r = resolve_slug m src
    /\ res_meta r = Py.set m "content_raw" (VScalar (SStr body)).
Proof.
  unfold render_post_worker.
  destruct (read_file c src) as [text|e] eqn:Hread; [|discriminate].
  destruct (parse_front_matter text) as [[o body] pr] eqn:Hparse.
  destruct o as [m|v]; simpl; [|discriminate].
  destruct (github_flavored_markdown_to_html body) as [html|e]; [|discriminate].
  destruct (post_html th) as [tpl|e]; [|discriminate].
  destruct (tpl _ _ _ _) as [out|e]; [|discriminate].
  intros Heq. injection Heq as <- <-.
  exists text, m, body. simpl. auto.
Qed.

(** C10: in every result of the worker the slug is the front matter's
    [slug] when that value is truthy, and the stem of the file name when
    the field is present but falsy (the empty string, for one) or absent. *)
Theorem worker_slug_falsy_falls_back (c : content) (src : string)
    (th : theme) (site_meta : meta) (text body : string) (m : meta)
    (printed out : list log_entry) (r : render_result) :
  read_file c src = Ok text ->
  parse_front_matter text = ((PMap m, body), printed) ->
  render_post_worker c (src, th, site_meta) = (out, Ok r) ->
  (forall v, Py.get m "slug" = Some v -> Py.truthy v = false ->
             res_slug r = VScalar (SStr (Str.stem src)))
  /\ (forall v, Py.get m "slug" = Some v -> Py.truthy v = true ->
                res_slug r = v)
  /\ (Py.get m "slug" = None -> res_slug r = VScalar (SStr (Str.stem src))).
Proof.
  intros Hread Hparse Hrun.
  destruct (render_post_worker_ok _ _ _ _ _ _ Hrun)
    as (text' & m' & body' & Hread' & Hparse' & _ & Hslug & _).
  rewrite Hread in Hread'. injection Hread' as <-.
  rewrite Hparse in Hparse'. injection Hparse' as <- <- <-.
  rewrite Hslug.
  destruct (resolve_slug_cases m src) as (Ht & Hf & Hn).
  repeat split; eauto.
Qed.

End Worker.

(** A document whose [slug] is the empty string is rendered under the
    stem of its file name. *)
Lemma worker_slug_falsy_falls_back_witness :
  exists r,
    render_post_worker (H := Sample.platform)
      (Sample.site [Sample.doc_empty_slug])
      ("content/hello-world.md", Sample.site_theme, []) = ([], Ok r)
    /\ res_slug r = VScalar (SStr "hello-world").
Proof.
  eexists. split; [reflexivity|].
  exact (proj1 (worker_slug_falsy_falls_back (H := Sample.platform)
                  (Sample.site [Sample.doc_empty_slug])
                  "content/hello-world.md" Sample.site_theme []
                  (src_text Sample.doc_empty_slug) "hi"
                  [("slug", VScalar (SStr ""))] [] [] _
                  eq_refl eq_refl eq_refl)
           (VScalar (SStr "")) eq_refl eq_refl).
Defined.

Example worker_slug_truthy_wins :
  exists r,
    render_post_worker (H := Sample.platform)
      (Sample.site [Sample.doc_slug])
      ("content/first.md", Sample.site_theme, []) = ([], Ok r)
    /\ res_slug r = VScalar (SStr "intro").
Proof. eexists. split; reflexivity. Qed.

(** ** The size of the pool (C8) *)

(** C8, as the code has it: without a [workers] argument the pool is
    sized to the smaller of the CPU count and the larger of 2 and the
    number of top-level posts; so it never exceeds the CPU count, and
    never exceeds that larger number. *)
Theorem optimal_workers_bounds `{Platform} (cfg : meta) (th : theme)
    (loaded : list Plugin) (c : content) :
  let n_posts := Z.of_nat (length (glob_posts c)) in
  let bm := Blazemark_init cfg th loaded None c in
  workers bm = Z.min cpu_count (Z.max 2 n_posts)
  /\ workers bm <= cpu_count
  /\ workers bm <= Z.max 2 n_posts.
Proof.
  simpl. unfold _optimal_workers. lia.
Qed.

(** C8 as stated fails: with four CPUs and a single document the pool
    has two workers. *)
Lemma optimal_workers_exceed_documents :
  Z.of_nat (length (all_sources (Sample.site [Sample.doc_a])))
  < workers (Blazemark_init (H := Sample.platform) [] Sample.site_theme []
               None (Sample.site [Sample.doc_a])).
Proof. reflexivity. Qed.

(** ** Change detection (C5) *)

Section Selection.
Context `{Platform}.

Lemma same_but_console_refl (s : state) : same_but_console s s.
Proof. repeat split. Qed.

Lemma same_but_console_trans (s1 s2 s3 : state) :
  same_but_console s1 s2 -> same_but_console s2 s3 -> same_but_console s1 s3.
Proof.
  unfold same_but_console. intros (a & b & c & d) (a' & b' & c' & d').
  repeat split; congruence.
Qed.

Lemma print_same (l : list log_entry) (s : state) :
  exists s', print l s = (Ok tt, s') /\ same_but_console s s'.
Proof. eexists. split; [reflexivity|]. repeat split. Qed.

Lemma select_step_spec (bm : Blazemark) (force : bool) (site_meta : meta)
    (tasks : list task) (f : source) (s : state) :
  has_mapping f ->
  exists s',
    select_step bm force site_meta tasks f s
    = (Ok (if selected force (cache s) f
           then tasks ++ [task_of bm site_meta f] else tasks), s')
    /\ same_but_console s s'.
Proof.
  intros [m Hm]. unfold select_step, selected, front_matter_draft.
  destruct (parse_front_matter (src_text f)) as [[o body] printed].
  simpl in Hm. subst o. simpl.
  eexists. unfold bind, print, lift, get_cache, ret. simpl.
  destruct (is_draft m && negb force); simpl.
  - split; [reflexivity|]. repeat split.
  - destruct (needs_render force (cache s) f);
      (split; [reflexivity|]; repeat split).
Qed.

Lemma select_loop_spec (bm : Blazemark) (force : bool) (site_meta : meta)
    (files : list source) :
  Forall has_mapping files ->
  forall (acc : list task) (s : state),
  exists s',
    for_each files acc (select_step bm force site_meta) s
    = (Ok (acc ++ map (task_of bm site_meta)
                    (List.filter (selected force (cache s)) files)), s')
    /\ same_but_console s s'.
Proof.
  induction 1 as [|f files Hf Hfiles IH]; intros acc s.
  - exists s. simpl. rewrite app_nil_r. split; [reflexivity|].
    apply same_but_console_refl.
  - destruct (select_step_spec bm force site_meta acc f s Hf)
      as (s1 & Hstep & Hsame).
    cbn [for_each]. unfold bind at 1. rewrite Hstep.
    destruct (IH (if selected force (cache s) f
                  then acc ++ [task_of bm site_meta f] else acc) s1)
      as (s2 & Hloop & Hsame2).
    exists s2. split; [|eapply same_but_console_trans; eassumption].
    rewrite Hloop. destruct Hsame as (Hc & _). rewrite Hc.
    cbn [List.filter].
    destruct (selected force (cache s) f); cbn [map].
    + now rewrite <- app_assoc.
    + reflexivity.
Qed.

Lemma select_tasks_spec (bm : Blazemark) (force : bool) (site_meta : meta)
    (files : list source) (s : state) :
  Forall has_mapping files ->
  exists s',
    select_tasks bm force site_meta files s
    = (Ok (map (task_of bm site_meta)
             (List.filter (selected force (cache s)) files)), s')
    /\ same_but_console s s'.
Proof.
  intros Hfiles. unfold select_tasks.
  destruct (select_loop_spec bm force site_meta files Hfiles [] s)
    as (s' & Heq & Hsame).
  exists s'. split; assumption.
Qed.

Lemma selected_iff (force : bool) (posts : gmap string cache_entry)
    (f : source) :
  selected force posts f = true <->
  force = true \/
  (front_matter_draft f = false /\
   (posts !! src_path f = None \/
    exists e, posts !! src_path f = Some e
              /\ e_hash e <> compute_hash (src_text f))).
Proof.
  unfold selected, needs_render.
  destruct force; simpl.
  - rewrite andb_false_r. simpl. split; auto.
  - rewrite andb_true_r.
    destruct (front_matter_draft f); simpl.
    + split; [discriminate|]. intros [Hf | [Hd _]]; discriminate.
    + destruct (posts !! src_path f) as [e|] eqn:Hlook.
      * destruct (String.eqb_spec (e_hash e) (compute_hash (src_text f)))
          as [Heq | Hne]; simpl.
        -- split; [discriminate|].
           intros [Hf | [_ [Hn | (e' & He' & Hne)]]]; try discriminate.
           injection He' as <-. contradiction.
        -- split; [|reflexivity]. intros _. right. split; [reflexivity|].
           right. exists e. split; [reflexivity | assumption].
      * split; [|reflexivity]. intros _. right. split; [reflexivity|].
        now left.
Qed.

Lemma same_path_same_file (files : list source) (f g : source) :
  NoDup (map src_path files) -> In f files -> In g files ->
  src_path f = src_path g -> f = g.
Proof.
  induction files as [|h files IH]; simpl; [contradiction|].
  intros Hnd Hf Hg Hpath. apply NoDup_cons in Hnd as [Hnotin Hnd].
  destruct Hf as [<- | Hf], Hg as [<- | Hg].
  - reflexivity.
  - exfalso. apply Hnotin. rewrite Hpath.
    apply list_elem_of_In, in_map, Hg.
  - exfalso. apply Hnotin. rewrite <- Hpath.
    apply list_elem_of_In, in_map, Hf.
  - now apply IH.
Qed.

(** C5, as the code has it: among the discovered files (each under its
    own path, each with a mapping for front matter) a file is submitted
    for rendering if and only if the force flag is set, or it is not a
    draft and either has no cache entry under its path or has one whose
    hash differs from the hash of its full text.  A draft without the
    force flag is passed over before the cache is consulted. *)
Theorem select_tasks_iff (bm : Blazemark) (force : bool) (site_meta : meta)
    (files : list source) (s : state) :
  Forall has_mapping files ->
  NoDup (map src_path files) ->
  exists tasks s',
    select_tasks bm force site_meta files s = (Ok tasks, s')
    /\ forall f, In f files ->
         (In (task_of bm site_meta f) tasks <->
          force = true \/
          (front_matter_draft f = false /\
           (cache s !! src_path f = None \/
            exists e, cache s !! src_path f = Some e
                      /\ e_hash e <> compute_hash (src_text f)))).
Proof.
  intros Hmap Hnd.
  destruct (select_tasks_spec bm force site_meta files s Hmap)
    as (s' & Heq & _).
  eexists _, s'. split; [exact Heq|].
  intros f Hf. rewrite <- selected_iff. rewrite in_map_iff. split.
  - intros (g & Htask & Hg). apply filter_In in Hg as [Hg Hsel].
    assert (g = f) as ->; [|assumption].
    apply (same_path_same_file files); auto.
    unfold task_of in Htask. congruence.
  - intros Hsel. exists f. split; [reflexivity|].
    apply filter_In. auto.
Qed.

End Selection.

(** ** The hook chain (C6) *)

Section Hooks.
Context `{Platform}.

Lemma hook_fold_printed (post : Post) (ps : list Plugin) :
  forall (html : string) (w : plugin_state) (l0 : list log_entry),
    fold_left (hook_fold_step post) ps (html, w, l0)
    = let '(html', w', l) := fold_left (hook_fold_step post) ps (html, w, []) in
      (html', w', l0 ++ l).
Proof.
  induction ps as [|p ps IH]; intros html w l0; simpl.
  - now rewrite app_nil_r.
  - destruct (on_after_render p w post html) as [w1 [h1|e]].
    + apply IH.
    + rewrite (IH html w1 (l0 ++ _)), (IH html w1 [_]).
      destruct (fold_left _ ps (html, w1, [])) as [[h' w'] l].
      now rewrite <- app_assoc.
Qed.

Lemma after_render_loop (r : render_result) (post : Post) (ps : list Plugin) :
  post_of r = Ok post ->
  forall (html : string) (s : state),
  exists s',
    for_each ps html (after_render_step r) s
    = (Ok (fst (fst (after_render_fold post ps html (plugins_mem s)))), s')
    /\ cache s' = cache s /\ cache_file s' = cache_file s
    /\ public s' = public s
    /\ plugins_mem s' = snd (fst (after_render_fold post ps html (plugins_mem s)))
    /\ console s' = console s
                    ++ snd (after_render_fold post ps html (plugins_mem s)).
Proof.
  intros Hpost. unfold after_render_fold.
  induction ps as [|p ps IH]; intros html s.
  - exists s. simpl. rewrite app_nil_r. repeat split.
  - cbn [for_each fold_left]. unfold bind at 1.
    unfold after_render_step at 1, hook_fold_step at 2 4 6. rewrite Hpost.
    destruct (on_after_render p (plugins_mem s) post html) as [w1 [h1|e]].
    + match goal with
      | |- context [for_each ps h1 _ ?s1] =>
          destruct (IH h1 s1) as (s' & Heq & Hc & Hf & Hp & Hw & Hl)
      end.
      exists s'. simpl in *. rewrite Heq. repeat split; assumption.
    + match goal with
      | |- context [for_each ps html _ ?s1] =>
          destruct (IH html s1) as (s' & Heq & Hc & Hf & Hp & Hw & Hl)
      end.
      exists s'. simpl in *. rewrite Heq.
      rewrite (hook_fold_printed post ps html w1 [_]).
      destruct (fold_left _ ps (html, w1, [])) as [[h' w'] l].
      simpl in *. rewrite Hl, <- app_assoc. repeat split; assumption.
Qed.

(** C6: over the result of a worker the loop of [on_after_render] calls
    is the left fold of the plugins in registration order: it never
    raises, each plugin is called on the HTML its predecessor left, a
    plugin that raises leaves the HTML as it received it and gets a
    message printed, and the plugins after it are still called.  With two
    plugins: the second one is called on the first one's output, and on
    the original HTML when the first one raised. *)
Theorem after_render_is_left_fold (bm : Blazemark) (r : render_result)
    (post : Post) (s : state) :
  post_of r = Ok post ->
  (exists s',
     run_after_render bm r s
     = (Ok (fst (fst (after_render_fold post (plugins bm) (res_html r)
                        (plugins_mem s)))), s')
     /\ plugins_mem s'
        = snd (fst (after_render_fold post (plugins bm) (res_html r)
                      (plugins_mem s)))
     /\ console s'
        = console s ++ snd (after_render_fold post (plugins bm) (res_html r)
                              (plugins_mem s))
     /\ cache s' = cache s /\ public s' = public s)
  /\ (forall A B w1 html1,
        plugins bm = [A; B] ->
        on_after_render A (plugins_mem s) post (res_html r) = (w1, Ok html1) ->
        fst (run_after_render bm r s)
        = Ok (match snd (on_after_render B w1 post html1) with
              | Ok html2 => html2
              | Raise _ => html1
              end))
  /\ (forall A B w1 e,
        plugins bm = [A; B] ->
        on_after_render A (plugins_mem s) post (res_html r) = (w1, Raise e) ->
        fst (run_after_render bm r s)
        = Ok (match snd (on_after_render B w1 post (res_html r)) with
              | Ok html2 => html2
              | Raise _ => res_html r
              end)
        /\ In (LogPluginError (class_name A) "on_after_render" e)
             (console (snd (run_after_render bm r s)))).
Proof.
  intros Hpost. unfold run_after_render.
  destruct (after_render_loop r post (plugins bm) Hpost (res_html r) s)
    as (s' & Heq & Hc & Hf & Hp & Hw & Hl).
  split; [|split].
  - exists s'. repeat split; assumption.
  - intros A B w1 html1 Hps HA. rewrite Heq, Hps. simpl.
    unfold after_render_fold. simpl. rewrite HA.
    unfold hook_fold_step.
    now destruct (on_after_render B w1 post html1) as [w2 [h2|e2]].
  - intros A B w1 e Hps HA. rewrite Heq. simpl. rewrite Hl, Hps.
    unfold after_render_fold. simpl. rewrite HA. split.
    + unfold hook_fold_step.
      now destruct (on_after_render B w1 post (res_html r)) as [w2 [h2|e2]].
    + apply in_or_app. right. unfold hook_fold_step.
      destruct (on_after_render B w1 post (res_html r)) as [w2 [h2|e2]];
        simpl; auto.
Qed.

(** Every result of the worker carries its raw body, so the [Post] of a
    hook call can be built from it. *)
Lemma get_set_same (m : meta) (k : string) (v : value) :
  Py.get (Py.set m k v) k = Some v.
Proof.
  induction m as [|[k' v'] m IH]; simpl.
  - now rewrite String.eqb_refl.
  - destruct (String.eqb k k') eqn:Hk; simpl; rewrite Hk; auto.
Qed.

Lemma worker_result_has_post (c : content) (t : task)
    (printed : list log_entry) (r : render_result) :
  render_post_worker c t = (printed, Ok r) -> exists post, post_of r = Ok post.
Proof.
  destruct t as [[src th] site_meta]. intros Hrun.
  destruct (render_post_worker_ok _ _ _ _ _ _ Hrun)
    as (text & m & body & _ & _ & _ & _ & Hmeta).
  unfold post_of. rewrite Hmeta, get_set_same. eauto.
Qed.

End Hooks.

(** ** The order of the home index (C3) *)

(** *** Python's [<] on metadata values is a strict weak order wherever
    it is defined *)

Lemma ltb_asym (s t : string) : String.ltb s t = true -> String.ltb t s = false.
Proof.
  unfold String.ltb. rewrite (String.compare_antisym t s).
  destruct (String.compare s t); simpl; congruence.
Qed.

Lemma ltb_false_leb (s t : string) : String.ltb s t = false <-> String.leb t s = true.
Proof.
  unfold String.ltb, String.leb. rewrite (String.compare_antisym t s).
  destruct (String.compare s t); simpl; split; congruence.
Qed.

Lemma ltb_negtrans (s t u : string) :
  String.ltb s t = false -> String.ltb t u = false -> String.ltb s u = false.
Proof.
  rewrite !ltb_false_leb. intros H1 H2.
  apply Is_true_true. apply Is_true_true in H1, H2.
  eapply (transitivity (R := String.le)); eassumption.
Qed.

Lemma scalar_lt_asym a b : Py.scalar_lt a b = Some true -> Py.scalar_lt b a = Some false.
Proof.
  destruct a, b; split_bools; cbv [Py.scalar_lt Py.scalar_eq Py.as_num];
    try discriminate; intros [=]; f_equal;
   try (unfold Py.lex3 in *; zbool; fail).
  now apply ltb_asym.
Qed.

Lemma scalar_eq_sym a b : Py.scalar_eq a b = Py.scalar_eq b a.
Proof.
  destruct a, b; split_bools; cbv [Py.scalar_lt Py.scalar_eq Py.as_num]; try reflexivity;
    try (apply eq_true_iff_eq; zbool; fail).
  apply String.eqb_sym.
Qed.

Lemma scalar_eq_lt_l a b c :
  Py.scalar_eq a b = true ->
  Py.scalar_lt a c = Py.scalar_lt b c /\ Py.scalar_lt c a = Py.scalar_lt c b
  /\ Py.scalar_eq a c = Py.scalar_eq b c.
Proof.
  destruct a, b; split_bools; cbv [Py.scalar_lt Py.scalar_eq Py.as_num];
    try discriminate; intros Heq;
    try (apply String.eqb_eq in Heq; subst; auto; fail);
    destruct c; split_bools; cbv [Py.scalar_lt Py.scalar_eq Py.as_num];
    repeat split; try reflexivity;
    try (try apply (f_equal (@Some bool)); apply eq_true_iff_eq;
         unfold Py.lex3 in *; zbool; fail).
Qed.

Lemma scalar_gt_trans a b c :
  Py.scalar_lt a b = Some false -> Py.scalar_lt b c = Some false ->
  Py.scalar_lt a c = Some false.
Proof.
  destruct a, b; split_bools; cbv [Py.scalar_lt Py.scalar_eq Py.as_num];
    try discriminate; intros [=];
    destruct c; split_bools; cbv [Py.scalar_lt Py.scalar_eq Py.as_num];
    try discriminate; intros [=]; f_equal;
    try (unfold Py.lex3 in *; zbool; fail).
  eapply ltb_negtrans; eassumption.
Qed.

Lemma scalar_tie_eq a b :
  Py.scalar_lt a b = Some false -> Py.scalar_lt b a = Some false ->
  Py.scalar_eq a b = true.
Proof.
  destruct a, b; split_bools; cbv [Py.scalar_lt Py.scalar_eq Py.as_num];
    try discriminate; intros [=] [=];
    try (unfold Py.lex3 in *; zbool; fail).
  apply String.eqb_eq. apply String.leb_antisym; now apply ltb_false_leb.
Qed.

Lemma list_lt_asym l1 : forall l2,
  Py.list_lt l1 l2 = Some true -> Py.list_lt l2 l1 = Some false.
Proof.
  induction l1 as [|a l1 IH]; intros [|b l2]; simpl; try discriminate; auto.
  rewrite (scalar_eq_sym b a).
  destruct (Py.scalar_eq a b); [apply IH | apply scalar_lt_asym].
Qed.

Lemma list_gt_trans l1 : forall l2 l3,
  Py.list_lt l1 l2 = Some false -> Py.list_lt l2 l3 = Some false ->
  Py.list_lt l1 l3 = Some false.
Proof.
  induction l1 as [|a l1 IH]; intros [|b l2] [|c l3]; simpl;
    try discriminate; auto.
  destruct (Py.scalar_eq a b) eqn:Eab.
  - destruct (scalar_eq_lt_l a b c Eab) as (H1 & _ & H3). rewrite H3, H1.
    destruct (Py.scalar_eq b c); [apply IH | auto].
  - destruct (Py.scalar_eq b c) eqn:Ebc.
    + destruct (scalar_eq_lt_l b c a Ebc) as (_ & H2 & H3).
      rewrite (scalar_eq_sym a c), <- H3, (scalar_eq_sym b a), Eab, <- H2.
      auto.
    + intros Hab Hbc.
      destruct (Py.scalar_eq a c) eqn:Eac.
      * exfalso. destruct (scalar_eq_lt_l a c b Eac) as (H1 & _ & _).
        rewrite H1 in Hab.
        pose proof (scalar_tie_eq b c Hbc Hab). congruence.
      * eapply scalar_gt_trans; eassumption.
Qed.

Lemma py_lt_asym v w : Py.lt v w = Some true -> Py.lt w v = Some false.
Proof.
  destruct v, w; simpl; try discriminate;
    [apply scalar_lt_asym | apply list_lt_asym].
Qed.

Lemma py_gt_trans u v w :
  Py.lt u v = Some false -> Py.lt v w = Some false -> Py.lt u w = Some false.
Proof.
  destruct u, v; simpl; try discriminate; destruct w; simpl; try discriminate;
    [apply scalar_gt_trans | apply list_gt_trans].
Qed.

Section Sorting.
Context {A : Type} (before : A -> A -> option bool).
Hypothesis before_asym :
  forall x y, before x y = Some true -> before y x = Some false.
Hypothesis before_trans :
  forall x y z, before x y = Some false -> before y z = Some false ->
                before x z = Some false.

Lemma insert_by_total x l :
  (forall y, In y l -> before x y <> None) ->
  exists r, Py.insert_by before x l = Some r.
Proof.
  induction l as [|y l IH]; simpl; intros Hcmp; [eauto|].
  destruct (before x y) as [[|]|] eqn:Hxy.
  - destruct IH as [r ->]; eauto.
  - eauto.
  - exfalso. apply (Hcmp y); auto.
Qed.

Lemma insert_by_perm x l r :
  Py.insert_by before x l = Some r -> Permutation r (x :: l).
Proof.
  revert r. induction l as [|y l IH]; simpl; intros r.
  - intros [= <-]. reflexivity.
  - destruct (before x y) as [[|]|]; try discriminate.
    + destruct (Py.insert_by before x l) as [r'|]; try discriminate.
      intros [= <-]. rewrite (IH r' eq_refl). apply perm_swap.
    + intros [= <-]. reflexivity.
Qed.

Lemma sort_by_perm l : forall r,
  Py.sort_by before l = Some r -> Permutation r l.
Proof.
  induction l as [|x l IH]; simpl; intros r.
  - intros [= <-]. reflexivity.
  - destruct (Py.sort_by before l) as [r0|]; try discriminate.
    intros Hins. apply insert_by_perm in Hins. rewrite Hins.
    constructor. now apply IH.
Qed.

Lemma sort_by_total l :
  (forall x y, In x l -> In y l -> before x y <> None) ->
  exists r, Py.sort_by before l = Some r.
Proof.
  induction l as [|x l IH]; simpl; intros Hcmp; [eauto|].
  destruct IH as [r0 Hr0]; [intros; apply Hcmp; auto|].
  rewrite Hr0. apply insert_by_total.
  intros y Hy. apply Hcmp; auto. right.
  eapply Permutation_in; [apply (sort_by_perm _ _ Hr0) | exact Hy].
Qed.

Lemma insert_by_sorted x l r :
  StronglySorted (fun a b => before a b = Some false) l ->
  Py.insert_by before x l = Some r ->
  StronglySorted (fun a b => before a b = Some false) r.
Proof.
  revert r. induction l as [|y l IH]; simpl; intros r Hs.
  - intros [= <-]. repeat constructor.
  - apply StronglySorted_inv in Hs as [Hs Hy].
    destruct (before x y) as [[|]|] eqn:Hxy; try discriminate.
    + destruct (Py.insert_by before x l) as [r'|] eqn:Hins; try discriminate.
      intros [= <-]. constructor; [now apply IH|].
      apply List.Forall_forall. intros z Hz.
      eapply Permutation_in in Hz; [|apply (insert_by_perm _ _ _ Hins)].
      destruct Hz as [<- | Hz].
      * now apply before_asym.
      * rewrite List.Forall_forall in Hy. now apply Hy.
    + intros [= <-]. constructor; [now constructor|].
      constructor; [exact Hxy|].
      rewrite List.Forall_forall in Hy |- *. intros z Hz.
      eapply before_trans; [exact Hxy | now apply Hy].
Qed.

Lemma sort_by_sorted l : forall r,
  Py.sort_by before l = Some r ->
  StronglySorted (fun a b => before a b = Some false) r.
Proof.
  induction l as [|x l IH]; simpl; intros r.
  - intros [= <-]. constructor.
  - destruct (Py.sort_by before l) as [r0|]; try discriminate.
    apply insert_by_sorted. now apply IH.
Qed.

Lemma insert_by_filter (P : A -> bool) x l r :
  (forall y, In y l -> P x = true -> P y = true -> before x y = Some false) ->
  Py.insert_by before x l = Some r ->
  List.filter P r = List.filter P (x :: l).
Proof.
  revert r. induction l as [|y l IH]; simpl; intros r Htie.
  - now intros [= <-].
  - destruct (before x y) as [[|]|] eqn:Hxy; try discriminate.
    + destruct (Py.insert_by before x l) as [r'|] eqn:Hins; try discriminate.
      intros [= <-]. simpl. rewrite (IH r'); auto. simpl.
      destruct (P x) eqn:Px; [|reflexivity].
      destruct (P y) eqn:Py; [|reflexivity].
      specialize (Htie y (or_introl eq_refl) eq_refl Py). congruence.
    + now intros [= <-].
Qed.

Lemma sort_by_filter (P : A -> bool) l :
  (forall x y, In x l -> In y l -> P x = true -> P y = true ->
               before x y = Some false) ->
  forall r, Py.sort_by before l = Some r -> List.filter P r = List.filter P l.
Proof.
  induction l as [|x l IH]; simpl; intros Htie r.
  - now intros [= <-].
  - destruct (Py.sort_by before l) as [r0|] eqn:Hr0; try discriminate.
    intros Hins. rewrite (insert_by_filter P x r0 r); auto.
    + simpl. rewrite (IH (fun a b Ha Hb => Htie a b (or_intror Ha) (or_intror Hb)) r0 eq_refl).
      reflexivity.
    + intros y Hy. apply Htie; auto. right.
      eapply Permutation_in; [apply (sort_by_perm _ _ Hr0) | exact Hy].
Qed.

End Sorting.

(** *** The loop over the results *)

Section Harvest.
Context `{Platform}.

(** The hooks touch only the plugins' memory and the console, and the
    loop over them always comes back with some HTML. *)
Lemma run_after_render_frame (ps : list Plugin) (r : render_result) :
  forall (html : string) (s : state),
  exists html' s',
    for_each ps html (after_render_step r) s = (Ok html', s')
    /\ cache s' = cache s /\ cache_file s' = cache_file s
    /\ public s' = public s.
Proof.
  induction ps as [|p ps IH]; intros html s.
  - exists html, s. repeat split.
  - cbn [for_each]. unfold bind at 1, after_render_step at 1.
    destruct (post_of r) as [post|e].
    + destruct (on_after_render p (plugins_mem s) post html) as [w [h1|e]];
        match goal with
        | |- context [for_each ps ?h _ ?s1] =>
            destruct (IH h s1) as (html' & s' & Heq & Hc & Hf & Hp)
        end; exists html', s'; rewrite Heq; repeat split; assumption.
    + match goal with
      | |- context [for_each ps ?h _ ?s1] =>
          destruct (IH h s1) as (html' & s' & Heq & Hc & Hf & Hp)
      end. exists html', s'. rewrite Heq. repeat split; assumption.
Qed.

(** One round of the write phase: the cache file is not touched; the
    cache changes at most under the source of a result that passes the
    draft test; and a round that completes adds that result's metadata
    to [raw_post_list], or nothing. *)
Lemma result_step_inv (bm : Blazemark) (c : content) (force : bool)
    (acc : harvest) (r : render_result) (s s' : state) (out : res harvest) :
  result_step bm c force acc r s = (out, s') ->
  cache_file s' = cache_file s
  /\ (cache s' = cache s
      \/ (written force r = true
          /\ exists e, cache s' = <[res_src r := e]> (cache s)))
  /\ (forall acc', out = Ok acc' ->
        map l_meta (raw_post_list acc')
        = map l_meta (raw_post_list acc)
          ++ (if written force r then [res_meta r] else [])).
Proof.
  unfold result_step, written, run_after_render.
  unfold bind at 1. unfold lift at 1.
  destruct (as_str (res_slug r)) as [slug|e].
  2:{ intros [= <- <-]. repeat split; auto. discriminate. }
  unfold bind at 1.
  destruct (run_after_render_frame (plugins bm) r (res_html r) s)
    as (html & s1 & -> & Hc & Hf & Hp).
  destruct (negb (is_draft (res_meta r)) || force) eqn:Hw.
  2:{ intros [= <- <-]. repeat split; auto.
      intros acc' [= <-]. now rewrite app_nil_r. }
  unfold bind at 1. unfold write_file at 1.
  unfold bind at 1. unfold lift at 1.
  destruct (stat_mtime c (res_src r)) as [mtime|e].
  2:{ intros [= <- <-]. simpl. repeat split; auto. discriminate. }
  unfold bind at 1. unfold lift at 1.
  destruct (read_file c (res_src r)) as [text|e].
  2:{ intros [= <- <-]. simpl. repeat split; auto. discriminate. }
  unfold bind at 1. unfold cache_store at 1.
  unfold bind at 1. unfold lift at 1.
  destruct (relative_to_output _) as [rel|e].
  2:{ intros [= <- <-]. simpl. rewrite Hc. repeat split; eauto. discriminate. }
  unfold bind at 1. unfold lift at 1.
  destruct (declared_names (Py.get_or (res_meta r) "tags" _)) as [tags|e].
  2:{ intros [= <- <-]. simpl. rewrite Hc. repeat split; eauto. discriminate. }
  unfold bind at 1. unfold lift at 1.
  destruct (declared_names (Py.get_or (res_meta r) "category" _)) as [cats|e].
  2:{ intros [= <- <-]. simpl. rewrite Hc. repeat split; eauto. discriminate. }
  unfold ret. intros [= <- <-]. simpl. rewrite Hc. repeat split; eauto.
  intros acc' [= <-]. simpl. now rewrite map_app.
Qed.

(** The whole loop: [raw_post_list] lists the results that pass the
    draft test in the order they were collected, and the cache changes
    only under the sources of such results. *)
Lemma harvest_loop (bm : Blazemark) (c : content) (force : bool)
    (results : list render_result) :
  forall (acc : harvest) (s s' : state) (out : res harvest),
    for_each results acc (result_step bm c force) s = (out, s') ->
    cache_file s' = cache_file s
    /\ (forall p, cache s' !! p = cache s !! p
                  \/ exists r, In r results /\ written force r = true
                               /\ res_src r = p)
    /\ (forall h, out = Ok h ->
          map l_meta (raw_post_list h)
          = map l_meta (raw_post_list acc)
            ++ map res_meta (List.filter (written force) results)).
Proof.
  induction results as [|r results IH]; intros acc s s' out.
  - intros [= <- <-]. repeat split; auto.
    intros h [= <-]. simpl. now rewrite app_nil_r.
  - cbn [for_each]. unfold bind at 1.
    destruct (result_step bm c force acc r s) as [[acc1|e] s1] eqn:Hstep;
      destruct (result_step_inv _ _ _ _ _ _ _ _ Hstep) as (Hf1 & Hc1 & Hraw1).
    + intros Hloop.
      destruct (IH _ _ _ _ Hloop) as (Hf2 & Hc2 & Hraw2).
      split; [congruence|]. split.
      * intros p. destruct (Hc2 p) as [Hsame | (r' & Hin & Hw & Hsrc)].
        -- rewrite Hsame.
           destruct Hc1 as [-> | (Hw & e & ->)]; [now left|].
           destruct (decide (res_src r = p)) as [Heq | Hne].
           ++ right. exists r. simpl. auto.
           ++ left. now apply lookup_insert_ne.
        -- right. exists r'. simpl. auto.
      * intros h Hh. rewrite (Hraw2 h Hh), (Hraw1 acc1 eq_refl).
        rewrite <- app_assoc. f_equal. cbn [List.filter].
        now destruct (written force r).
    + intros [= <- <-]. split; [assumption|]. split; [|discriminate].
      intros p. destruct Hc1 as [-> | (Hw & e' & ->)]; [now left|].
      destruct (decide (res_src r = p)) as [Heq | Hne].
      * right. exists r. simpl. auto.
      * left. now apply lookup_insert_ne.
Qed.

(** C3, as the code has it.  The list behind the home index holds the
    results that pass the draft test in the order their renders were
    collected (the order of completion, not of discovery).  Whenever the
    sort keys of that list (the declared [date], or the datetime
    1970-01-01 00:00:00 for a document without one) compare with each
    other, the sort succeeds, and the home-index list is a rearrangement
    of the list in which no document has a smaller key than a later one,
    documents with tied keys keeping the order of collection. *)
Theorem home_index_sorted_stable (bm : Blazemark) (c : content)
    (force : bool) (results : list render_result) (s s' : state)
    (h : harvest) :
  for_each results
    {| raw_post_list := []; all_tags := []; all_categories := [] |}
    (result_step bm c force) s = (Ok h, s') ->
  (forall p q, In p (raw_post_list h) -> In q (raw_post_list h) ->
               Py.lt (date_key p) (date_key q) <> None) ->
  map l_meta (raw_post_list h)
  = map res_meta (List.filter (written force) results)
  /\ exists post_list,
       post_list_of (raw_post_list h) = Ok post_list
       /\ Permutation post_list (raw_post_list h)
       /\ StronglySorted
            (fun p q => Py.lt (date_key p) (date_key q) = Some false)
            post_list
       /\ forall k,
            List.filter (fun p => tied (date_key p) k) post_list
            = List.filter (fun p => tied (date_key p) k) (raw_post_list h).
Proof.
  intros Hloop Hcmp. split.
  - destruct (harvest_loop _ _ _ _ _ _ _ _ Hloop) as (_ & _ & Hraw).
    now rewrite (Hraw h eq_refl).
  - set (before := fun p q : listing => Py.lt (date_key p) (date_key q)).
    assert (Hasym : forall x y, before x y = Some true -> before y x = Some false)
      by (intros x y; apply py_lt_asym).
    assert (Htrans : forall x y z, before x y = Some false ->
                     before y z = Some false -> before x z = Some false)
      by (intros x y z; apply py_gt_trans).
    destruct (sort_by_total before (raw_post_list h) Hcmp) as [l Hl].
    exists l. unfold post_list_of, Py.sorted. fold before. rewrite Hl.
    split; [reflexivity|]. split; [|split].
    + eapply sort_by_perm; eassumption.
    + eapply sort_by_sorted; eassumption.
    + intros k. eapply sort_by_filter; [|eassumption].
      intros x y _ _ Hx Hy. unfold tied in Hx, Hy. unfold before.
      destruct (Py.lt (date_key x) k) as [[|]|] eqn:Hxk; try discriminate.
      destruct (Py.lt k (date_key x)) as [[|]|]; try discriminate.
      destruct (Py.lt (date_key y) k) as [[|]|]; try discriminate.
      destruct (Py.lt k (date_key y)) as [[|]|] eqn:Hky; try discriminate.
      eapply py_gt_trans; eassumption.
Qed.

End Harvest.

(** ** A failing render (C2) *)

Section Failure.
Context `{Platform}.

(** The loop over the completed futures prints and nothing else; it
    raises as soon as a future holds an exception, and otherwise returns
    the results in the order of the futures. *)
Lemma collect_loop (futs : list future) :
  forall (acc : list render_result) (s : state),
  exists out s',
    for_each futs acc collect_step s = (out, s')
    /\ same_but_console s s'
    /\ ((exists fut e, In fut futs /\ snd fut = Raise e) ->
        exists e, out = Raise e)
    /\ (forall results, out = Ok results ->
          exists rs, results = acc ++ rs /\ map snd futs = map Ok rs).
Proof.
  induction futs as [|[printed o] futs IH]; intros acc s.
  - exists (Ok acc), s. split; [reflexivity|].
    split; [apply same_but_console_refl|]. split.
    + intros (fut & e & [] & _).
    + intros results [= <-]. exists []. now rewrite app_nil_r.
  - cbn [for_each]. unfold bind at 1, collect_step at 1.
    unfold bind at 1, print at 1. unfold bind at 1, lift at 1. simpl.
    destruct o as [r|e].
    + unfold ret at 1.
      match goal with
      | |- context [for_each futs ?a _ ?s1] =>
          destruct (IH a s1) as (out & s' & Heq & Hsame & Hfail & Hok)
      end.
      exists out, s'. split; [exact Heq|]. split; [|split].
      * destruct Hsame as (a & b & d & f). repeat split; assumption.
      * intros (fut & e & [<- | Hin] & Hraise); [discriminate|].
        apply Hfail. eauto.
      * intros results Hres. destruct (Hok results Hres) as (rs & -> & Hrs).
        exists (r :: rs). rewrite <- app_assoc. simpl. now rewrite Hrs.
    + eexists (Raise e), _. split; [reflexivity|].
      split; [repeat split|]. split; [eauto|discriminate].
Qed.

(** The pool as a whole. *)
Lemma render_all_spec (bm : Blazemark) (c : content) (sched : schedule)
    (tasks : list task) (s : state) :
  exists out s',
    render_all bm c sched tasks s = (out, s')
    /\ same_but_console s s'
    /\ ((exists t e, In t tasks /\ snd (render_post_worker c t) = Raise e) ->
        exists e, out = Raise e)
    /\ (forall results, out = Ok results ->
          forall r, In r results ->
            exists t printed, In t tasks
                              /\ render_post_worker c t = (printed, Ok r)).
Proof.
  unfold render_all. destruct tasks as [|t0 tasks].
  - exists (Ok []), s. split; [reflexivity|].
    split; [apply same_but_console_refl|]. split.
    + intros (t & e & [] & _).
    + intros results [= <-] r [].
  - destruct (workers bm <=? 0).
    + exists (Raise ValueError), s. split; [reflexivity|].
      split; [apply same_but_console_refl|]. split; [eauto|discriminate].
    + set (futs := sched (map (render_post_worker c) (t0 :: tasks))).
      assert (Hperm : Permutation futs (map (render_post_worker c) (t0 :: tasks)))
        by apply as_completed_perm.
      destruct (collect_loop futs [] s) as (out & s' & Heq & Hsame & Hfail & Hok).
      exists out, s'. split; [exact Heq|]. split; [exact Hsame|]. split.
      * intros (t & e & Hin & Hraise). apply Hfail.
        exists (render_post_worker c t), e. split; [|exact Hraise].
        eapply Permutation_in; [symmetry; exact Hperm|]. now apply in_map.
      * intros results Hres r Hr.
        destruct (Hok results Hres) as (rs & -> & Hrs). simpl in Hr.
        assert (Hin : In (Ok r) (map snd futs))
          by (rewrite Hrs; now apply in_map).
        apply in_map_iff in Hin as ([printed o] & Ho & Hin). simpl in Ho.
        subst o. eapply Permutation_in in Hin; [|exact Hperm].
        apply in_map_iff in Hin as (t & Ht & Hin). eauto.
Qed.

(** The selection loop prints and nothing else, whatever its outcome;
    the tasks it returns are tasks of selected files. *)
Lemma select_loop_sound (bm : Blazemark) (force : bool) (site_meta : meta)
    (files : list source) :
  forall (acc : list task) (s s' : state) (out : res (list task)),
    for_each files acc (select_step bm force site_meta) s = (out, s') ->
    same_but_console s s'
    /\ (forall tasks, out = Ok tasks ->
          forall t, In t tasks ->
            In t acc
            \/ exists f, In f files /\ t = task_of bm site_meta f
                         /\ selected force (cache s) f = true).
Proof.
  induction files as [|f files IH]; intros acc s s' out.
  - intros [= <- <-]. split; [apply same_but_console_refl|].
    intros tasks [= <-] t Ht. now left.
  - cbn [for_each]. unfold bind at 1.
    destruct (select_step bm force site_meta acc f s) as [[acc1|e1] s2] eqn:Hstep.
    + assert (Hone : same_but_console s s2
                     /\ acc1 = if selected force (cache s) f
                               then acc ++ [task_of bm site_meta f] else acc).
      { clear -Hstep. unfold select_step, selected, front_matter_draft in *.
        destruct (parse_front_matter (src_text f)) as [[o body] printed].
        unfold bind, print, lift, get_cache, ret in Hstep. simpl in *.
        destruct o as [m|v]; simpl in *; [|discriminate].
        destruct (is_draft m && negb force); simpl;
          [|destruct (needs_render force _ f)];
          inversion Hstep; subst; repeat split. }
      destruct Hone as [Hs2 Hacc1]. intros Hloop.
      destruct (IH _ _ _ _ Hloop) as [Hs' Htasks].
      split; [eapply same_but_console_trans; eassumption|].
      intros tasks Hout t Ht.
      destruct Hs2 as (Hc & _). rewrite Hc in Htasks.
      destruct (Htasks tasks Hout t Ht) as [Hin | (g & Hg & -> & Hsel)].
      * subst acc1. destruct (selected force (cache s) f) eqn:Hsel; auto.
        apply in_app_or in Hin as [Hin | [<- | []]]; auto.
        right. exists f. simpl. auto.
      * right. exists g. simpl. auto.
    + intros [= <- <-]. split; [|discriminate].
      clear -Hstep. unfold select_step in Hstep.
      destruct (parse_front_matter (src_text f)) as [[o body] printed].
      unfold bind, print, lift, get_cache, ret in Hstep. simpl in Hstep.
      destruct (as_dict o) as [m|e]; simpl in Hstep.
      * destruct (is_draft m && negb force);
          [|destruct (needs_render force _ f)]; discriminate.
      * inversion Hstep; subst; repeat split.
Qed.

Lemma select_tasks_frame (bm : Blazemark) (force : bool) (site_meta : meta)
    (files : list source) (s s' : state) (out : res (list task)) :
  select_tasks bm force site_meta files s = (out, s') ->
  same_but_console s s'.
Proof. intros Hsel. now apply select_loop_sound in Hsel. Qed.

(** C2, as the code has it: nothing stands between a worker's exception
    and [build].  When the render of a submitted document raises, the
    build raises too, before any hook is called and before anything is
    written: the output tree, the cache, the cache file and the plugins'
    memory are as they were, for the failing document and for every
    other one. *)
Theorem render_failure_aborts_build (bm : Blazemark) (c : content)
    (sched : schedule) (force : bool) (s s1 : state) (tasks : list task)
    (t : task) (e : exn) :
  select_tasks bm force (site_meta_of (config bm)) (discovered c) s
  = (Ok tasks, s1) ->
  In t tasks ->
  snd (render_post_worker c t) = Raise e ->
  exists e' s',
    build bm c sched force s = (Raise e', s')
    /\ public s' = public s /\ cache s' = cache s
    /\ cache_file s' = cache_file s /\ plugins_mem s' = plugins_mem s.
Proof.
  intros Hsel Hin Hraise. unfold build. unfold discovered in Hsel.
  destruct (discover_posts_and_pages c) as [posts_list pages_list].
  unfold bind at 1. rewrite Hsel.
  assert (Hs1 : same_but_console s s1)
    by (eapply select_tasks_frame; exact Hsel).
  unfold bind at 1.
  destruct (render_all_spec bm c sched tasks s1)
    as (out & s2 & -> & Hs2 & Hfail & _).
  destruct Hfail as [e' ->]; [eauto|].
  exists e', s2.  split; [reflexivity|].
  destruct (same_but_console_trans _ _ _ Hs1 Hs2) as (a & b & d & f).
  auto.
Qed.

End Failure.

(** ** Drafts and the cache (C9) *)

Section Drafts.
Context `{Platform}.

Lemma keeps_ret {A : Type} (a : A) : keeps_cache (ret a).
Proof. intros s out s' [= <- <-]. auto. Qed.

Lemma keeps_lift {A : Type} (r : res A) : keeps_cache (lift r).
Proof. intros s out s' [= <- <-]. auto. Qed.

Lemma keeps_print (l : list log_entry) : keeps_cache (print l).
Proof. intros s out s' [= <- <-]. auto. Qed.

Lemma keeps_write_file (p t : string) : keeps_cache (write_file p t).
Proof. intros s out s' [= <- <-]. auto. Qed.

Lemma keeps_bind {A B : Type} (m : M A) (k : A -> M B) :
  keeps_cache m -> (forall a, keeps_cache (k a)) -> keeps_cache (bind m k).
Proof.
  intros Hm Hk s out s'. unfold bind.
  destruct (m s) as [[a|e] s1] eqn:Hms.
  - intros Hks. destruct (Hm _ _ _ Hms) as [Hc Hf].
    destruct (Hk _ _ _ _ Hks) as [Hc' Hf']. split; congruence.
  - intros [= <- <-]. eapply Hm, Hms.
Qed.

Lemma keeps_for_each {A B : Type} (l : list A) (body : B -> A -> M B) :
  (forall acc x, keeps_cache (body acc x)) ->
  forall acc, keeps_cache (for_each l acc body).
Proof.
  intros Hbody. induction l as [|x l IH]; intros acc; cbn [for_each].
  - apply keeps_ret.
  - apply keeps_bind; auto.
Qed.

Lemma keeps_copy_static (bm : Blazemark) : keeps_cache (copy_static bm).
Proof.
  unfold copy_static. apply keeps_for_each. intros. apply keeps_write_file.
Qed.

Lemma keeps_write_index (bm : Blazemark) (site_meta : meta) (h : harvest) :
  keeps_cache (write_index bm site_meta h).
Proof.
  unfold write_index.
  repeat (apply keeps_bind; [apply keeps_lift | intros ?]).
  apply keeps_write_file.
Qed.

Lemma keeps_write_taxonomy get_template (field dir : string)
    (site_meta : meta) (raw : list listing) (names : list scalar) :
  keeps_cache (write_taxonomy get_template field dir site_meta raw names).
Proof.
  unfold write_taxonomy.
  apply keeps_bind; [apply keeps_lift | intros tpl].
  apply keeps_bind.
  - apply keeps_for_each. intros acc name. unfold taxonomy_step.
    repeat (apply keeps_bind; [apply keeps_lift | intros ?]).
    apply keeps_write_file.
  - intros _.
    repeat (apply keeps_bind; [apply keeps_lift | intros ?]).
    apply keeps_write_file.
Qed.

Lemma keeps_build_finished (bm : Blazemark) (c : content) :
  keeps_cache (for_each (plugins bm) tt (build_finished_step bm c)).
Proof.
  apply keeps_for_each. intros [] p s out s'. unfold build_finished_step.
  destruct (on_build_finished p _ _ _ _ _) as [[w tree] [u|e]];
    intros [= <- <-]; auto.
Qed.

Lemma insert_source_in (f g : source) (l : list source) :
  In g (insert_source f l) -> g = f \/ In g l.
Proof.
  induction l as [|h l IH]; simpl.
  - intros [<- | []]. now left.
  - destruct (String.ltb (src_path h) (src_path f)); simpl.
    + intros [<- | Hin]; auto. destruct (IH Hin); auto.
    + intros [<- | [<- | Hin]]; auto.
Qed.

Lemma sorted_sources_in (g : source) (l : list source) :
  In g (sorted_sources l) -> In g l.
Proof.
  induction l as [|f l IH]; simpl; [auto|].
  intros Hin. apply insert_source_in in Hin as [-> | Hin]; auto.
Qed.

Lemma discovered_in (c : content) (f : source) :
  In f (discovered c) -> In f (all_sources c).
Proof.
  unfold discovered, discover_posts_and_pages, all_sources.
  intros Hin. apply in_app_or in Hin as [Hin | Hin]; apply in_or_app.
  - left. now apply sorted_sources_in.
  - right. destruct (glob_pages c); [now apply sorted_sources_in | destruct Hin].
Qed.

(** What a build without the force flag does to the cache: an entry
    changes only under the path of a file that is not a draft. *)
Lemma build_cache_changes (bm : Blazemark) (c : content) (sched : schedule)
    (s s' : state) (out : res unit) :
  build bm c sched false s = (out, s') ->
  (cache_file s' = cache_file s \/ cache_file s' = Some (cache s'))
  /\ forall p,
       cache s' !! p = cache s !! p
       \/ exists f, In f (all_sources c) /\ src_path f = p
                    /\ front_matter_draft f = false.
Proof.
  unfold build. pose proof (discovered_in c) as Hdisc. unfold discovered in Hdisc.
  destruct (discover_posts_and_pages c) as [posts_list pages_list].
  unfold bind at 1.
  destruct (select_tasks bm false _ _ s) as [[tasks|e] s1] eqn:Hsel.
  2:{ intros [= <- <-].
      destruct (select_tasks_frame _ _ _ _ _ _ _ Hsel) as (Hc & Hf & _).
      rewrite Hc, Hf. auto. }
  unfold select_tasks in Hsel.
  destruct (select_loop_sound _ _ _ _ _ _ _ _ Hsel) as [(Hc1 & Hf1 & _) Htasks].
  specialize (Htasks tasks eq_refl).
  unfold bind at 1.
  destruct (render_all_spec bm c sched tasks s1)
    as (rout & s2 & -> & (Hc2 & Hf2 & _) & _ & Hres).
  destruct rout as [results|e].
  2:{ intros [= <- <-]. rewrite Hc2, Hf2, Hc1, Hf1. auto. }
  specialize (Hres results eq_refl).
  unfold bind at 1.
  destruct (for_each results _ (result_step bm c false) s2)
    as [hout s3] eqn:Hloop.
  destruct (harvest_loop _ _ _ _ _ _ _ _ Hloop) as (Hf3 & Hc3 & _).
  assert (Hcache : forall p,
             cache s3 !! p = cache s !! p
             \/ exists f, In f (all_sources c) /\ src_path f = p
                          /\ front_matter_draft f = false).
  { intros p. destruct (Hc3 p) as [-> | (r & Hr & _ & Hsrc)].
    - left. now rewrite Hc2, Hc1.
    - right. destruct (Hres r Hr) as (t & printed & Ht & Hrun).
      destruct (Htasks t Ht) as [[] | (f & Hf & -> & Hselected)].
      exists f. split; [now apply Hdisc|].
      unfold task_of in Hrun.
      destruct (render_post_worker_ok _ _ _ _ _ _ Hrun)
        as (_ & _ & _ & _ & _ & Hrsrc & _).
      split; [congruence|].
      unfold selected in Hselected. apply andb_true_iff in Hselected as [Hd _].
      rewrite andb_true_r in Hd. now apply negb_true_iff in Hd. }
  assert (Hfile3 : cache_file s3 = cache_file s) by congruence.
  destruct hout as [h|e].
  2:{ intros [= <- <-]. rewrite Hfile3. auto. }
  unfold bind at 1.
  destruct (copy_static bm s3) as [[u|e] s4] eqn:H4;
    destruct (keeps_copy_static _ _ _ _ H4) as [Hc4 Hf4].
  2:{ intros [= <- <-]. rewrite Hc4, Hf4, Hfile3. split; [auto|exact Hcache]. }
  unfold bind at 1.
  destruct (write_index bm _ h s4) as [[u5|e] s5] eqn:H5;
    destruct (keeps_write_index _ _ _ _ _ _ H5) as [Hc5 Hf5].
  2:{ intros [= <- <-]. rewrite Hc5, Hf5, Hc4, Hf4, Hfile3.
      split; [auto|exact Hcache]. }
  unfold bind at 1.
  destruct (write_taxonomy (tags_html _) _ _ _ _ _ s5) as [[u6|e] s6] eqn:H6;
    destruct (keeps_write_taxonomy _ _ _ _ _ _ _ _ _ H6) as [Hc6 Hf6].
  2:{ intros [= <- <-]. rewrite Hc6, Hf6, Hc5, Hf5, Hc4, Hf4, Hfile3.
      split; [auto|exact Hcache]. }
  unfold bind at 1.
  destruct (write_taxonomy (category_html _) _ _ _ _ _ s6) as [[u7|e] s7] eqn:H7;
    destruct (keeps_write_taxonomy _ _ _ _ _ _ _ _ _ H7) as [Hc7 Hf7].
  2:{ intros [= <- <-]. rewrite Hc7, Hf7, Hc6, Hf6, Hc5, Hf5, Hc4, Hf4, Hfile3.
      split; [auto|exact Hcache]. }
  unfold bind at 1, _save_cache at 1. unfold bind at 1, print at 1.
  intros Hfin. apply keeps_build_finished in Hfin as [Hc8 Hf8].
  simpl in Hc8, Hf8.
  assert (Hc' : cache s' = cache s3) by congruence.
  split.
  - right. rewrite Hf8. congruence.
  - intros p. rewrite Hc'. apply Hcache.
Qed.

(** C9, as the code has it.  In a build without the force flag a cache
    entry is written only under the path of a document that is not a
    draft: a draft's entry, or its absence, is what it was before.  So a
    draft that had no entry has none after the build, and when the next
    build finds it un-drafted, it submits it for rendering. *)
Theorem draft_keeps_entry_and_renders_when_undrafted
    (cfg : meta) (th : theme) (loaded : list Plugin) (fresh : plugin_state)
    (c : content) (sched : schedule)
    (file : option (gmap string cache_entry)) (tree : gmap string string)
    (out : res unit) (s1 : state) (f : source) :
  NoDup (map src_path (all_sources c)) ->
  main_build cfg th loaded fresh c sched false file tree = (out, s1) ->
  In f (all_sources c) ->
  front_matter_draft f = true ->
  _load_cache (cache_file s1) !! src_path f = _load_cache file !! src_path f
  /\ (_load_cache file !! src_path f = None ->
      forall (bm2 : Blazemark) (site_meta2 : meta) (files2 : list source)
             (f2 : source) (fresh2 : plugin_state)
             (tree2 : gmap string string),
        Forall has_mapping files2 ->
        In f2 files2 ->
        src_path f2 = src_path f ->
        front_matter_draft f2 = false ->
        exists tasks s2,
          select_tasks bm2 false site_meta2 files2
            (start fresh2 (cache_file s1) tree2) = (Ok tasks, s2)
          /\ In (task_of bm2 site_meta2 f2) tasks).
Proof.
  intros Hnd Hbuild Hf Hdraft. unfold main_build in Hbuild.
  apply build_cache_changes in Hbuild as [Hfile Hcache]. simpl in Hfile, Hcache.
  assert (Hkeep : _load_cache (cache_file s1) !! src_path f
                  = _load_cache file !! src_path f).
  { destruct (Hcache (src_path f)) as [Hsame | (g & Hg & Hpath & Hgd)].
    - destruct Hfile as [-> | ->]; [reflexivity | exact Hsame].
    - assert (g = f) by (eapply same_path_same_file; eauto).
      subst g. congruence. }
  split; [exact Hkeep|].
  intros Hnone bm2 site_meta2 files2 f2 fresh2 tree2 Hmap Hin2 Hpath Hd2.
  destruct (select_tasks_spec bm2 false site_meta2 files2
              (start fresh2 (cache_file s1) tree2) Hmap) as (s2 & Heq & _).
  eexists _, s2. split; [exact Heq|].
  apply in_map, filter_In. split; [assumption|].
  apply selected_iff. right. split; [assumption|]. left.
  simpl. rewrite Hpath, Hkeep. exact Hnone.
Qed.

End Drafts.

(** ** The sample site, run *)

Section Runs.
#[local] Existing Instance Sample.platform.

Example worker_result_a :
  render_post_worker (Sample.site [Sample.doc_a; Sample.doc_b])
    ("content/a.md", Sample.site_theme, []) = ([], Ok Sample.result_a).
Proof. reflexivity. Qed.

(** The selection on a document and a draft, without the force flag. *)
Lemma select_tasks_iff_witness :
  let files := [Sample.doc_a; Sample.doc_draft] in
  let bm := Sample.generator Sample.site_theme (Sample.site files) in
  exists tasks s',
    select_tasks bm false [] files Sample.first_run = (Ok tasks, s')
    /\ forall f, In f files ->
         (In (task_of bm [] f) tasks <->
          false = true \/
          (front_matter_draft f = false /\
           (cache Sample.first_run !! src_path f = None \/
            exists e, cache Sample.first_run !! src_path f = Some e
                      /\ e_hash e <> compute_hash (src_text f)))).
Proof.
  apply (select_tasks_iff (H := Sample.platform)).
  - repeat constructor; eexists; reflexivity.
  - repeat constructor; simpl; intros Hin;
      repeat (apply elem_of_cons in Hin as [Hin | Hin]; [discriminate|]);
      now apply not_elem_of_nil in Hin.
Defined.

(** C5 as stated fails: this draft has no cache entry, the force flag is
    not set, and it is not submitted for rendering. *)
Lemma draft_without_entry_not_selected :
  cache Sample.first_run !! src_path Sample.doc_draft = None
  /\ fst (select_tasks
            (Sample.generator Sample.site_theme (Sample.site [Sample.doc_draft]))
            false [] [Sample.doc_draft] Sample.first_run)
     = Ok [].
Proof. split; reflexivity. Qed.

(** The hook chain with a plugin that raises ahead of one that appends:
    the second is called on the HTML as the worker left it. *)
Lemma after_render_is_left_fold_witness :
  let bm := Blazemark_init [] Sample.site_theme
              [Sample.broken_plugin; Sample.footer_plugin] None
              (Sample.site [Sample.doc_a]) in
  fst (run_after_render bm Sample.result_a Sample.first_run)
  = Ok "<article>alpha</article><footer/>"
  /\ In (LogPluginError "BrokenPlugin" "on_after_render" (LibError "boom"))
       (console (snd (run_after_render bm Sample.result_a Sample.first_run))).
Proof.
  exact (proj2 (proj2 (after_render_is_left_fold
                         (Blazemark_init [] Sample.site_theme
                            [Sample.broken_plugin; Sample.footer_plugin] None
                            (Sample.site [Sample.doc_a]))
                         Sample.result_a Sample.post_a Sample.first_run
                         eq_refl))
           Sample.broken_plugin Sample.footer_plugin tt (LibError "boom")
           eq_refl eq_refl).
Defined.

Example after_render_chain_in_order :
  fst (run_after_render
         (Blazemark_init [] Sample.site_theme
            [Sample.footer_plugin; Sample.footer_plugin] None
            (Sample.site [Sample.doc_a]))
         Sample.result_a Sample.first_run)
  = Ok "<article>alpha</article><footer/><footer/>".
Proof. reflexivity. Qed.

(** C3 as stated fails: two documents with the same date, found in the
    order a, b; the render of b is collected first, and the home index
    lists b before a. *)
Lemma home_index_ties_follow_collection :
  let c := Sample.site [Sample.doc_b; Sample.doc_a] in
  let r := Sample.run Sample.site_theme c Sample.last_first false None ∅ in
  map src_path (discovered c) = ["content/a.md"; "content/b.md"]
  /\ Py.get (res_meta Sample.result_a) "date"
     = Py.get (res_meta Sample.result_b) "date"
  /\ fst r = Ok tt
  /\ public (snd r) !! "public/index.html"
     = Some "index:/b/index.html;/a/index.html;".
Proof. vm_compute. repeat split. Qed.

(** The sort of the home index on the two results, b collected first. *)
Lemma home_index_sorted_stable_witness :
  let bm := Sample.generator Sample.site_theme
              (Sample.site [Sample.doc_a; Sample.doc_b]) in
  let c := Sample.site [Sample.doc_a; Sample.doc_b] in
  let loop := for_each [Sample.result_b; Sample.result_a]
                {| raw_post_list := []; all_tags := []; all_categories := [] |}
                (result_step bm c false) Sample.first_run in
  exists h,
    fst loop = Ok h
    /\ map l_url (raw_post_list h) = ["/b/index.html"; "/a/index.html"]
    /\ exists post_list,
         post_list_of (raw_post_list h) = Ok post_list
         /\ Permutation post_list (raw_post_list h)
         /\ StronglySorted
              (fun p q => Py.lt (date_key p) (date_key q) = Some false)
              post_list
         /\ forall k,
              List.filter (fun p => tied (date_key p) k) post_list
              = List.filter (fun p => tied (date_key p) k) (raw_post_list h).
Proof.
  eexists. split; [reflexivity|]. split; [reflexivity|].
  refine (proj2 (home_index_sorted_stable
                   (Sample.generator Sample.site_theme
                      (Sample.site [Sample.doc_a; Sample.doc_b]))
                   (Sample.site [Sample.doc_a; Sample.doc_b]) false
                   [Sample.result_b; Sample.result_a] Sample.first_run
                   _ _ eq_refl _)).
  intros p q [<- | [<- | []]] [<- | [<- | []]]; discriminate.
Defined.

(** A document without a date beside a dated one: the comparison of a
    [datetime] with a [date] raises, and the sort with it. *)
Example undated_beside_dated_raises :
  post_list_of
    [ {| l_meta := [("title", VScalar (SStr "C"))]; l_url := "/c/index.html" |};
      {| l_meta := res_meta Sample.result_a; l_url := "/a/index.html" |} ]
  = Raise TypeError.
Proof. reflexivity. Qed.

(** C2 as stated fails: the render of b raises; a renders on its own,
    yet the build raises and a is not written. *)
Lemma failing_render_stops_the_build :
  let c := Sample.site [Sample.doc_a; Sample.doc_b] in
  let r := Sample.run Sample.fragile_theme c Sample.in_order false None ∅ in
  snd (render_post_worker c ("content/b.md", Sample.fragile_theme,
                             site_meta_of []))
  = Raise (LibError "TemplateError")
  /\ (exists ra, snd (render_post_worker c ("content/a.md", Sample.fragile_theme,
                                           site_meta_of [])) = Ok ra)
  /\ fst r = Raise (LibError "TemplateError")
  /\ public (snd r) !! "public/a/index.html" = None
  /\ console (snd r) = [].
Proof.
  repeat split; try reflexivity. eexists. reflexivity.
Qed.

Lemma render_failure_aborts_build_witness :
  let c := Sample.site [Sample.doc_a; Sample.doc_b] in
  let bm := Sample.generator Sample.fragile_theme c in
  exists e' s',
    build bm c Sample.in_order false Sample.first_run = (Raise e', s')
    /\ public s' = public Sample.first_run
    /\ cache s' = cache Sample.first_run
    /\ cache_file s' = cache_file Sample.first_run
    /\ plugins_mem s' = plugins_mem Sample.first_run.
Proof.
  refine (render_failure_aborts_build
            (Sample.generator Sample.fragile_theme
               (Sample.site [Sample.doc_a; Sample.doc_b]))
            (Sample.site [Sample.doc_a; Sample.doc_b])
            Sample.in_order false Sample.first_run Sample.first_run
            [("content/a.md", Sample.fragile_theme, site_meta_of []);
             ("content/b.md", Sample.fragile_theme, site_meta_of [])]
            ("content/b.md", Sample.fragile_theme, site_meta_of [])
            (LibError "TemplateError") _ _ _).
  - reflexivity.
  - simpl. right. left. reflexivity.
  - reflexivity.
Defined.

(** C9 as stated fails: a draft is built, then un-drafted and built
    again; the second build submits it and writes its page. *)
Lemma undrafted_document_is_rendered :
  let r1 := Sample.run Sample.site_theme (Sample.site [Sample.doc_draft])
              Sample.in_order false None ∅ in
  let r2 := Sample.run Sample.site_theme (Sample.site [Sample.doc_undrafted])
              Sample.in_order false (cache_file (snd r1)) (public (snd r1)) in
  fst r1 = Ok tt
  /\ public (snd r1) !! "public/wip/index.html" = None
  /\ _load_cache (cache_file (snd r1)) !! "content/wip.md" = None
  /\ map (fun t : task => fst (fst t))
       (match fst (select_tasks
                     (Sample.generator Sample.site_theme
                        (Sample.site [Sample.doc_undrafted]))
                     false [] [Sample.doc_undrafted]
                     (start tt (cache_file (snd r1)) (public (snd r1)))) with
        | Ok tasks => tasks
        | Raise _ => []
        end)
     = ["content/wip.md"]
  /\ fst r2 = Ok tt
  /\ public (snd r2) !! "public/wip/index.html" = Some "<article>soon</article>".
Proof. vm_compute. repeat split. Qed.

Lemma draft_keeps_entry_and_renders_when_undrafted_witness :
  let c := Sample.site [Sample.doc_draft] in
  let r1 := main_build [] Sample.site_theme [] tt c Sample.in_order false
              None ∅ in
  _load_cache (cache_file (snd r1)) !! src_path Sample.doc_draft
  = _load_cache None !! src_path Sample.doc_draft
  /\ (_load_cache None !! src_path Sample.doc_draft = None ->
      forall (bm2 : Blazemark) (site_meta2 : meta) (files2 : list source)
             (f2 : source) (fresh2 : plugin_state)
             (tree2 : gmap string string),
        Forall has_mapping files2 ->
        In f2 files2 ->
        src_path f2 = src_path Sample.doc_draft ->
        front_matter_draft f2 = false ->
        exists tasks s2,
          select_tasks bm2 false site_meta2 files2
            (start fresh2 (cache_file (snd r1)) tree2) = (Ok tasks, s2)
          /\ In (task_of bm2 site_meta2 f2) tasks).
Proof.
  refine (draft_keeps_entry_and_renders_when_undrafted
            [] Sample.site_theme [] tt (Sample.site [Sample.doc_draft])
            Sample.in_order None ∅ _ _ Sample.doc_draft _ _ _ eq_refl).
  - repeat constructor. intros Hin. now apply not_elem_of_nil in Hin.
  - apply surjective_pairing.
  - simpl. now left.
Defined.

(** C1 on two documents: the first build lists both on the home index;
    the second, with nothing changed, submits no document, leaves the
    cache file as it was, and writes a home index that lists none. *)
Theorem second_build_empties_home_index :
  let c := Sample.site [Sample.doc_a; Sample.doc_b] in
  let r1 := Sample.run Sample.site_theme c Sample.in_order false None ∅ in
  let r2 := Sample.run Sample.site_theme c Sample.in_order false
              (cache_file (snd r1)) (public (snd r1)) in
  fst r1 = Ok tt /\ fst r2 = Ok tt
  /\ public (snd r1) !! "public/index.html"
     = Some "index:/a/index.html;/b/index.html;"
  /\ public (snd r2) !! "public/index.html" = Some "index:"
  /\ fst (select_tasks (Sample.generator Sample.site_theme c) false
            (site_meta_of []) (discovered c)
            (start tt (cache_file (snd r1)) (public (snd r1))))
     = Ok []
  /\ cache_file (snd r2) = cache_file (snd r1).
Proof. vm_compute. repeat split. Qed.

(** C7 on two documents, one declaring the tag [py] in a list, the other
    the single tag [python]: the page of [py] lists both. *)
Theorem scalar_tag_matched_as_substring :
  let c := Sample.site [Sample.doc_py_list; Sample.doc_py_scalar] in
  let r := Sample.run Sample.site_theme c Sample.in_order false None ∅ in
  declared_names (VList [SStr "py"]) = Ok [SStr "py"]
  /\ declared_names (VScalar (SStr "python")) = Ok [SStr "python"]
  /\ fst r = Ok tt
  /\ public (snd r) !! taxonomy_path "tag" "py"
     = Some "tag:/one/index.html;/two/index.html;"
  /\ public (snd r) !! taxonomy_path "tag" "python"
     = Some "tag:/two/index.html;".
Proof. vm_compute. repeat split. Qed.

End Runs.

(** * Further properties of the code *)

(** ** Front matter: what the parser keeps *)

Lemma append_cons (c : ascii) (a b : string) :
  String c a +:+ b = String c (a +:+ b).
Proof. reflexivity. Qed.

Lemma append_nil (b : string) : "" +:+ b = b.
Proof. reflexivity. Qed.

Lemma prefix_drop (sep s : string) :
  String.prefix sep s = true -> s = sep +:+ Str.drop (String.length sep) s.
Proof.
  revert sep. induction s as [|d s IH]; intros [|c sep]; simpl;
    try reflexivity; try discriminate.
  destruct (ascii_dec c d) as [->|]; [|discriminate].
  intros Hp. rewrite append_cons. f_equal. now apply IH.
Qed.

Lemma prefix_app_false (sep x y : string) :
  String.prefix sep (x +:+ y) = false -> String.prefix sep x = false.
Proof.
  revert sep. induction x as [|d x IH]; intros [|c sep];
    rewrite ?append_cons, ?append_nil; simpl; try reflexivity.
  - destruct y; discriminate.
  - discriminate.
  - destruct (ascii_dec c d); [apply IH | reflexivity].
Qed.

Lemma partition_spec (sep s a b : string) :
  sep <> "" ->
  Str.partition sep s = Some (a, b) ->
  s = a +:+ sep +:+ b /\ Str.partition sep a = None.
Proof.
  intros Hsep. revert a b.
  induction s as [|c s IH]; intros a b.
  - simpl. destruct sep; [congruence | discriminate].
  - cbn [Str.partition].
    destruct (String.prefix sep (String c s)) eqn:Hp.
    + intros [= <- <-]. split; [rewrite append_nil; now apply prefix_drop|].
      destruct sep; [congruence | reflexivity].
    + destruct (Str.partition sep s) as [[a' b']|] eqn:Hpart; [|discriminate].
      intros [= <- <-]. destruct (IH a' b' eq_refl) as [Hs Ha'].
      split; [rewrite append_cons; now rewrite <- Hs|].
      cbn [Str.partition]. rewrite Ha'.
      rewrite Hs, <- append_cons in Hp.
      now rewrite (prefix_app_false _ _ _ Hp).
Qed.

Lemma prefix_cons (c d : ascii) (s t : string) :
  String.prefix (String c s) (String d t)
  = if ascii_dec c d then String.prefix s t else false.
Proof. reflexivity. Qed.

Lemma lstrip_lf_stripped (s : string) :
  Str.startswith (Str.lstrip_lf s) (String Str.LF "") = false.
Proof.
  induction s as [|c s IH]; [reflexivity|].
  cbn [Str.lstrip_lf]. destruct (Ascii.eqb c Str.LF) eqn:Hc; [exact IH|].
  unfold Str.startswith. rewrite prefix_cons.
  destruct (ascii_dec Str.LF c) as [<-|]; [|reflexivity].
  now rewrite Ascii.eqb_refl in Hc.
Qed.

Lemma partition_prefix (sep s : string) :
  String.prefix sep s = true ->
  Str.partition sep s = Some ("", Str.drop (String.length sep) s).
Proof. intros Hp. destruct s; cbn [Str.partition]; now rewrite Hp. Qed.

(** X1: [parse_front_matter] either returns the text whole with empty
    metadata, or has cut it at its first two delimiters: the text is the
    delimiter, the block handed to the YAML loader (which holds no
    delimiter), the delimiter again and the rest; the body is the rest
    without its leading line feeds, so it never begins with one. *)
Theorem parse_front_matter_decomposes `{Platform} (text : string) :
  parse_front_matter text = ((PMap [], text), [])
  \/ exists block rest,
       text = "---" +:+ block +:+ "---" +:+ rest
       /\ Str.partition "---" block = None
       /\ Str.startswith (Str.lstrip_lf rest) (String Str.LF "") = false
       /\ parse_front_matter text
          = match yaml_safe_load block with
            | Ok o => ((if Py.obj_truthy o then o else PMap [],
                        Str.lstrip_lf rest), [])
            | Raise e => ((PMap [], Str.lstrip_lf rest),
                          [LogFrontMatterError e])
            end.
Proof.
  unfold parse_front_matter, Str.startswith.
  destruct (String.prefix "---" text) eqn:Hp; [|now left].
  cbn [Str.split]. rewrite (partition_prefix _ _ Hp).
  remember (Str.drop (String.length "---") text) as tail eqn:Htail.
  destruct (Str.partition "---" tail) as [[block rest]|] eqn:Hpart; [|now left].
  right. exists block, rest.
  destruct (partition_spec "---" tail block rest ltac:(discriminate) Hpart)
    as [Htl Hblock].
  split; [|split; [exact Hblock|split; [apply lstrip_lf_stripped|]]].
  - rewrite (prefix_drop "---" text Hp), <- Htail, Htl. reflexivity.
  - now destruct (yaml_safe_load block).
Qed.

(** ** The render worker: what it leaves alone *)

Lemma partition_none_cons (sep : string) (c : ascii) (s : string) :
  Str.partition sep (String c s) = None ->
  String.prefix sep (String c s) = false /\ Str.partition sep s = None.
Proof.
  cbn [Str.partition].
  destruct (String.prefix sep (String c s)); [discriminate|].
  destruct (Str.partition sep s) as [[a b]|]; [discriminate|]. auto.
Qed.

(** X2: the language-hint substitution of the worker leaves untouched
    any HTML that nowhere holds the opening of a [pre] tag with a [lang]
    attribute ([pre_lang_open]). *)
Theorem sub_pre_lang_without_pre_lang (html : string) :
  Py.substring_of pre_lang_open html = false ->
  sub_pre_lang O html = html.
Proof.
  unfold Py.substring_of.
  induction html as [|c html IH]; [reflexivity|].
  destruct (Str.partition pre_lang_open (String c html)) as [p|] eqn:Hpart;
    [discriminate|].
  intros _. apply partition_none_cons in Hpart as [Hp Hrest].
  cbn [sub_pre_lang]. unfold match_pre_lang, Str.startswith. rewrite Hp.
  f_equal. apply IH. now rewrite Hrest.
Qed.

Lemma sub_pre_lang_without_pre_lang_witness :
  sub_pre_lang O "<p>hello</p>" = "<p>hello</p>".
Proof. exact (sub_pre_lang_without_pre_lang "<p>hello</p>" eq_refl). Defined.

Lemma get_set_other (m : meta) (k k' : string) (v : value) :
  k <> k' -> Py.get (Py.set m k v) k' = Py.get m k'.
Proof.
  intros Hne. induction m as [|[k0 v0] m IH]; simpl.
  - destruct (String.eqb_spec k' k); [congruence | reflexivity].
  - destruct (String.eqb_spec k k0) as [-> | Hk]; simpl.
    + destruct (String.eqb_spec k' k0); [congruence | reflexivity].
    + destruct (String.eqb_spec k' k0); [reflexivity | exact IH].
Qed.

Section WorkerFields.
Context `{Platform}.

(** X3: the metadata a worker returns is the front matter of the file
    with the body stored under [content_raw]: every other key reads as
    in the front matter, a [content_raw] key of the front matter is
    overwritten, the source path is the one submitted, and a string slug
    gives the URL [/slug/index.html]. *)
Theorem worker_result_fields (c : content) (src : string) (th : theme)
    (site_meta : meta) (text body : string) (m : meta)
    (printed out : list log_entry) (r : render_result) :
  read_file c src = Ok text ->
  parse_front_matter text = ((PMap m, body), printed) ->
  render_post_worker c (src, th, site_meta) = (out, Ok r) ->
  res_src r = src
  /\ out = printed
  /\ Py.get (res_meta r) "content_raw" = Some (VScalar (SStr body))
  /\ (forall k, k <> "content_raw" -> Py.get (res_meta r) k = Py.get m k)
  /\ (forall slug, res_slug r = VScalar (SStr slug) ->
                   res_url r = "/" +:+ slug +:+ "/index.html").
Proof.
  intros Hread Hparse. unfold render_post_worker.
  rewrite Hread, Hparse. simpl.
  destruct (github_flavored_markdown_to_html body) as [html|e];
    [|discriminate].
  destruct (post_html th) as [tpl|e]; [|discriminate].
  destruct (tpl _ _ _ _) as [page|e]; [|discriminate].
  intros [= <- <-]. simpl. split; [reflexivity|]. split; [reflexivity|].
  split; [apply get_set_same|]. split.
  - intros k Hk. apply get_set_other. congruence.
  - intros slug ->. reflexivity.
Qed.

End WorkerFields.

Lemma worker_result_fields_witness :
  exists r,
    render_post_worker (H := Sample.platform)
      (Sample.site [Sample.doc_a]) ("content/a.md", Sample.site_theme, [])
    = ([], Ok r)
    /\ Py.get (res_meta r) "content_raw" = Some (VScalar (SStr "alpha"))
    /\ res_url r = "/a/index.html".
Proof.
  eexists. split; [reflexivity|].
  pose proof (worker_result_fields (H := Sample.platform)
                (Sample.site [Sample.doc_a]) "content/a.md"
                Sample.site_theme [] (src_text Sample.doc_a) "alpha"
                [("title", VScalar (SStr "A"));
                 ("date", VScalar (SDate 2024 1 1))] [] [] _
                eq_refl eq_refl eq_refl) as (_ & _ & Hraw & _ & Hurl).
  split; [exact Hraw | exact (Hurl "a" eq_refl)].
Defined.

(** ** Discovery *)

Lemma insert_source_perm (f : source) (l : list source) :
  Permutation (insert_source f l) (f :: l).
Proof.
  induction l as [|g l IH]; simpl; [reflexivity|].
  destruct (String.ltb (src_path g) (src_path f)); [|reflexivity].
  rewrite IH. apply perm_swap.
Qed.

Lemma sorted_sources_perm (l : list source) :
  Permutation (sorted_sources l) l.
Proof.
  induction l as [|f l IH]; simpl; [reflexivity|].
  rewrite insert_source_perm. now constructor.
Qed.

Lemma insert_source_sorted (f : source) (l : list source) :
  StronglySorted (fun a b => String.leb (src_path a) (src_path b) = true) l ->
  StronglySorted (fun a b => String.leb (src_path a) (src_path b) = true)
    (insert_source f l).
Proof.
  induction l as [|g l IH]; simpl; intros Hs.
  - repeat constructor.
  - apply StronglySorted_inv in Hs as [Hs Hg].
    destruct (String.ltb (src_path g) (src_path f)) eqn:Hlt.
    + constructor; [now apply IH|].
      apply List.Forall_forall. intros z Hz.
      eapply Permutation_in in Hz; [|apply insert_source_perm].
      destruct Hz as [<- | Hz].
      * apply ltb_false_leb. now apply ltb_asym.
      * rewrite List.Forall_forall in Hg. now apply Hg.
    + constructor; [now constructor|].
      constructor; [now apply ltb_false_leb|].
      rewrite List.Forall_forall in Hg |- *. intros z Hz.
      apply ltb_false_leb. eapply ltb_negtrans; [|exact Hlt].
      apply ltb_false_leb. now apply Hg.
Qed.

Lemma sorted_sources_sorted (l : list source) :
  StronglySorted (fun a b => String.leb (src_path a) (src_path b) = true)
    (sorted_sources l).
Proof.
  induction l as [|f l IH]; simpl; [constructor|].
  now apply insert_source_sorted.
Qed.

Lemma sorted_by_path_unique (l1 : list source) :
  forall l2,
    NoDup (map src_path l1) ->
    Permutation l1 l2 ->
    StronglySorted (fun a b => String.leb (src_path a) (src_path b) = true) l1 ->
    StronglySorted (fun a b => String.leb (src_path a) (src_path b) = true) l2 ->
    l1 = l2.
Proof.
  induction l1 as [|a1 l1 IH]; intros l2 Hnd Hperm Hs1 Hs2.
  - apply Permutation_nil in Hperm. now subst.
  - destruct l2 as [|a2 l2].
    { apply Permutation_sym, Permutation_nil in Hperm. discriminate. }
    apply StronglySorted_inv in Hs1 as [Hs1 Ha1].
    apply StronglySorted_inv in Hs2 as [Hs2 Ha2].
    rewrite List.Forall_forall in Ha1, Ha2.
    assert (Hin2 : In a2 (a1 :: l1))
      by (eapply Permutation_in; [symmetry; exact Hperm | now left]).
    assert (Hin1 : In a1 (a2 :: l2))
      by (eapply Permutation_in; [exact Hperm | now left]).
    assert (Heq : a1 = a2).
    { destruct Hin2 as [? | Hin2]; [assumption|].
      destruct Hin1 as [? | Hin1]; [congruence|].
      apply (same_path_same_file (a1 :: l1)); auto; [now left | now right|].
      apply String.leb_antisym; auto. }
    subst a2. f_equal. apply IH; auto.
    + simpl in Hnd. now apply NoDup_cons in Hnd as [_ Hnd].
    + eapply Permutation_cons_inv. exact Hperm.
Qed.

(** X4: discovery does not depend on the order in which the directory
    lists its files: the sorted list is a rearrangement of the files, in
    ascending path order, and two listings of the same files (each under
    its own path) give the same list. *)
Theorem discovery_order_is_canonical (l1 l2 : list source) :
  NoDup (map src_path l1) ->
  Permutation l1 l2 ->
  sorted_sources l1 = sorted_sources l2
  /\ Permutation (sorted_sources l1) l1
  /\ StronglySorted (fun a b => String.leb (src_path a) (src_path b) = true)
       (sorted_sources l1).
Proof.
  intros Hnd Hperm. split; [|split].
  - apply sorted_by_path_unique.
    + apply NoDup_ListNoDup. apply NoDup_ListNoDup in Hnd.
      eapply Permutation_NoDup; [|exact Hnd].
      apply Permutation_map. symmetry. apply sorted_sources_perm.
    + rewrite sorted_sources_perm, Hperm. symmetry. apply sorted_sources_perm.
    + apply sorted_sources_sorted.
    + apply sorted_sources_sorted.
  - apply sorted_sources_perm.
  - apply sorted_sources_sorted.
Qed.

Lemma discovery_order_is_canonical_witness :
  sorted_sources [Sample.doc_b; Sample.doc_a]
  = sorted_sources [Sample.doc_a; Sample.doc_b].
Proof.
  refine (proj1 (discovery_order_is_canonical
                   [Sample.doc_b; Sample.doc_a] [Sample.doc_a; Sample.doc_b]
                   _ _)).
  - repeat constructor; simpl; intros Hin;
      repeat (apply elem_of_cons in Hin as [Hin | Hin]; [discriminate|]);
      now apply not_elem_of_nil in Hin.
  - apply perm_swap.
Defined.

(** ** Selection and the pool *)

Section SelectionMore.
Context `{Platform}.

Lemma filter_all_true {A : Type} (P : A -> bool) (l : list A) :
  (forall x, In x l -> P x = true) -> List.filter P l = l.
Proof.
  induction l as [|x l IH]; simpl; intros Hall; [reflexivity|].
  rewrite (Hall x (or_introl eq_refl)). f_equal. apply IH. auto.
Qed.

(** X5: with the force flag every discovered file is submitted, drafts
    and cached files included, in discovery order; nothing but the
    console changes. *)
Theorem force_selects_every_file (bm : Blazemark) (site_meta : meta)
    (files : list source) (s : state) :
  Forall has_mapping files ->
  exists s',
    select_tasks bm true site_meta files s
    = (Ok (map (task_of bm site_meta) files), s')
    /\ same_but_console s s'.
Proof.
  intros Hmap.
  destruct (select_tasks_spec bm true site_meta files s Hmap)
    as (s' & Heq & Hsame).
  exists s'. split; [|exact Hsame]. rewrite Heq.
  rewrite filter_all_true; [reflexivity|].
  intros f _. unfold selected, needs_render.
  now rewrite andb_false_r.
Qed.

(** The selection loop stops at the first file whose front matter is
    not a mapping, with [AttributeError]; it raises nothing else. *)
Lemma select_loop_non_mapping (bm : Blazemark) (force : bool)
    (site_meta : meta) (files : list source) :
  forall (acc : list task) (s : state),
    (exists f v, In f files
                 /\ fst (fst (parse_front_matter (src_text f))) = PVal v) ->
    exists s',
      for_each files acc (select_step bm force site_meta) s
      = (Raise AttributeError, s')
      /\ same_but_console s s'.
Proof.
  induction files as [|f files IH]; intros acc s (g & v & Hin & Hv).
  - destruct Hin.
  - cbn [for_each]. unfold bind at 1.
    destruct (select_step bm force site_meta acc f s) as [[acc1|e] s1] eqn:Hstep.
    + assert (Hs1 : same_but_console s s1).
      { assert (Hone : for_each [f] acc (select_step bm force site_meta) s
                       = (Ok acc1, s1)).
        { cbn [for_each]. unfold bind. rewrite Hstep. reflexivity. }
        now apply select_loop_sound in Hone. }
      destruct Hin as [<- | Hin].
      * exfalso. unfold select_step in Hstep.
        destruct (parse_front_matter (src_text f)) as [[o body] printed].
        simpl in Hv. subst o. discriminate.
      * destruct (IH acc1 s1) as (s' & Heq & Hsame); [eauto|].
        exists s'. split; [exact Heq|].
        eapply same_but_console_trans; eassumption.
    + exists s1.
      assert (Hone : for_each [f] acc (select_step bm force site_meta) s
                     = (Raise e, s1)).
      { cbn [for_each]. unfold bind. rewrite Hstep. reflexivity. }
      apply select_loop_sound in Hone as [Hs1 _].
      split; [|exact Hs1]. f_equal. f_equal.
      unfold select_step in Hstep.
      destruct (parse_front_matter (src_text f)) as [[o body] printed].
      unfold bind, print, lift, get_cache, ret in Hstep. simpl in Hstep.
      destruct o as [m|w]; simpl in Hstep.
      * destruct (is_draft m && negb force);
          [|destruct (needs_render force _ f)]; discriminate.
      * congruence.
Qed.

(** X6: a discovered file whose metadata block loads to something that
    is not a mapping (a YAML sequence or a bare scalar) stops the whole
    build with [AttributeError] while the tasks are being selected:
    nothing is rendered or written, and the cache is left alone. *)
Theorem non_mapping_front_matter_aborts_build (bm : Blazemark)
    (c : content) (sched : schedule) (force : bool) (s : state)
    (f : source) (v : value) :
  In f (discovered c) ->
  fst (fst (parse_front_matter (src_text f))) = PVal v ->
  exists s',
    build bm c sched force s = (Raise AttributeError, s')
    /\ public s' = public s /\ cache s' = cache s
    /\ cache_file s' = cache_file s /\ plugins_mem s' = plugins_mem s.
Proof.
  intros Hin Hv. unfold build. unfold discovered in Hin.
  destruct (discover_posts_and_pages c) as [posts_list pages_list].
  unfold bind at 1, select_tasks.
  destruct (select_loop_non_mapping bm force (site_meta_of (config bm))
              (posts_list ++ pages_list) [] s) as (s' & -> & Hsame); [eauto|].
  exists s'. split; [reflexivity|].
  destruct Hsame as (a & b & d & e). auto.
Qed.

(** The loop over the futures, when none of them holds an exception. *)
Lemma collect_loop_ok (futs : list future) :
  forall (rs : list render_result) (acc : list render_result) (s : state),
    map snd futs = map Ok rs ->
    exists s',
      for_each futs acc collect_step s = (Ok (acc ++ rs), s')
      /\ same_but_console s s'.
Proof.
  induction futs as [|[printed o] futs IH]; intros rs acc s Hrs.
  - destruct rs; [|discriminate]. exists s. simpl. rewrite app_nil_r.
    split; [reflexivity | apply same_but_console_refl].
  - destruct rs as [|r rs]; [discriminate|].
    simpl in Hrs. injection Hrs as -> Hrs.
    cbn [for_each]. unfold bind at 1, collect_step at 1.
    unfold bind at 1, print at 1. unfold bind at 1, lift at 1. simpl.
    match goal with
    | |- context [for_each futs ?a _ ?s1] =>
        destruct (IH rs a s1 Hrs) as (s' & Heq & Hsame)
    end.
    exists s'. rewrite Heq, <- app_assoc. split; [reflexivity|].
    destruct Hsame as (a & b & d & e). repeat split; assumption.
Qed.

Lemma all_ok_results (l : list (res render_result)) :
  Forall (fun o => exists r, o = Ok r) l -> exists rs, l = map Ok rs.
Proof.
  induction 1 as [|o l [r ->] _ [rs ->]].
  - now exists [].
  - now exists (r :: rs).
Qed.

(** X7: when every submitted render succeeds (and the pool has a
    worker), the pool returns one result per task, and the results are
    the workers' results in some order: the order of completion changes
    nothing but the order of the list. *)
Theorem render_all_collects_every_result (bm : Blazemark) (c : content)
    (sched : schedule) (tasks : list task) (s : state) :
  0 < workers bm ->
  Forall (fun t => exists r, snd (render_post_worker c t) = Ok r) tasks ->
  exists results s',
    render_all bm c sched tasks s = (Ok results, s')
    /\ same_but_console s s'
    /\ Permutation (map Ok results)
         (map (fun t => snd (render_post_worker c t)) tasks).
Proof.
  intros Hw Hall. unfold render_all. destruct tasks as [|t0 tasks].
  - exists [], s. split; [reflexivity|].
    split; [apply same_but_console_refl | reflexivity].
  - destruct (Z.leb_spec (workers bm) 0) as [Hle | _]; [lia|].
    set (futs := sched (map (render_post_worker c) (t0 :: tasks))).
    assert (Hperm : Permutation futs (map (render_post_worker c) (t0 :: tasks)))
      by apply as_completed_perm.
    assert (Hok : Forall (fun o => exists r, o = Ok r) (map snd futs)).
    { apply List.Forall_forall. intros o Ho.
      apply in_map_iff in Ho as (fut & <- & Hfut).
      eapply Permutation_in in Hfut; [|exact Hperm].
      apply in_map_iff in Hfut as (t & <- & Ht).
      rewrite List.Forall_forall in Hall. now apply Hall. }
    destruct (all_ok_results _ Hok) as [rs Hrs].
    destruct (collect_loop_ok futs rs [] s Hrs) as (s' & Heq & Hsame).
    exists rs, s'. split; [exact Heq|]. split; [exact Hsame|].
    rewrite <- Hrs, <- (map_map (render_post_worker c) snd).
    now apply Permutation_map.
Qed.

End SelectionMore.

Section SelectionRuns.
#[local] Existing Instance Site.site_platform.

Lemma force_selects_every_file_witness :
  let files := [Sample.doc_a; Sample.doc_draft] in
  let bm := Site.site_generator Sample.site_theme (Sample.site files) in
  exists s',
    select_tasks bm true [] files Site.site_start
    = (Ok (map (task_of bm []) files), s')
    /\ same_but_console Site.site_start s'.
Proof.
  apply (force_selects_every_file (H := Site.site_platform)).
  repeat constructor; eexists; reflexivity.
Defined.

Lemma non_mapping_front_matter_aborts_build_witness :
  let c := Sample.site [Sample.doc_a; Site.doc_sequence] in
  let bm := Site.site_generator Sample.site_theme c in
  exists s',
    build bm c Sample.in_order false Site.site_start
    = (Raise AttributeError, s')
    /\ public s' = public Site.site_start
    /\ cache s' = cache Site.site_start
    /\ cache_file s' = cache_file Site.site_start
    /\ plugins_mem s' = plugins_mem Site.site_start.
Proof.
  refine (non_mapping_front_matter_aborts_build
            (Site.site_generator Sample.site_theme
               (Sample.site [Sample.doc_a; Site.doc_sequence]))
            (Sample.site [Sample.doc_a; Site.doc_sequence])
            Sample.in_order false Site.site_start Site.doc_sequence
            (VList [SStr "a"; SStr "b"]) _ _).
  - simpl. right. left. reflexivity.
  - reflexivity.
Defined.

Lemma render_all_collects_every_result_witness :
  let c := Sample.site [Sample.doc_a; Sample.doc_b] in
  let bm := Site.site_generator Sample.site_theme c in
  let tasks := [("content/a.md", Sample.site_theme, []);
                ("content/b.md", Sample.site_theme, [])] in
  exists results s',
    render_all bm c Sample.last_first tasks Site.site_start = (Ok results, s')
    /\ same_but_console Site.site_start s'
    /\ Permutation (map Ok results)
         (map (fun t => snd (render_post_worker c t)) tasks).
Proof.
  apply (render_all_collects_every_result (H := Site.site_platform)).
  - reflexivity.
  - repeat constructor; eexists; reflexivity.
Defined.

End SelectionRuns.

(** ** The cache across builds *)

Section BuildPhases.
Context `{Platform}.

Lemma bind_assoc {A B C : Type} (m : M A) (k : A -> M B) (k' : B -> M C)
    (s : state) :
  bind (bind m k) k' s = bind m (fun a => bind (k a) k') s.
Proof. unfold bind. destruct (m s) as [[a|e] s1]; reflexivity. Qed.

(** [build], phase by phase. *)
Lemma build_cases (bm : Blazemark) (c : content) (sched : schedule)
    (force : bool) (s s' : state) (out : res unit) :
  build bm c sched force s = (out, s') ->
  exists o1 s1,
    select_tasks bm force (site_meta_of (config bm)) (discovered c) s = (o1, s1)
    /\ match o1 with
       | Raise e => out = Raise e /\ s' = s1
       | Ok tasks =>
           exists o2 s2,
             render_all bm c sched tasks s1 = (o2, s2)
             /\ match o2 with
                | Raise e => out = Raise e /\ s' = s2
                | Ok results =>
                    exists o3 s3,
                      for_each results
                        {| raw_post_list := []; all_tags := [];
                           all_categories := [] |}
                        (result_step bm c force) s2 = (o3, s3)
                      /\ match o3 with
                         | Raise e => out = Raise e /\ s' = s3
                         | Ok h =>
                             exists o4 s4,
                               render_pages bm (site_meta_of (config bm)) h s3
                               = (o4, s4)
                               /\ match o4 with
                                  | Raise e => out = Raise e /\ s' = s4
                                  | Ok _ => finish bm c s4 = (out, s')
                                  end
                         end
                end
       end.
Proof.
  unfold build, discovered.
  destruct (discover_posts_and_pages c) as [posts_list pages_list].
  unfold bind at 1.
  destruct (select_tasks bm force _ _ s) as [[tasks|e] s1].
  2:{ intros [= <- <-]. eexists _, _. split; [reflexivity|]. simpl. auto. }
  intros Hb. eexists _, _. split; [reflexivity|]. revert Hb.
  unfold bind at 1.
  destruct (render_all bm c sched tasks s1) as [[results|e] s2].
  2:{ intros [= <- <-]. eexists _, _. split; [reflexivity|]. simpl. auto. }
  intros Hb. eexists _, _. split; [reflexivity|]. revert Hb.
  unfold bind at 1.
  destruct (for_each results _ (result_step bm c force) s2) as [[h|e] s3].
  2:{ intros [= <- <-]. eexists _, _. split; [reflexivity|]. simpl. auto. }
  intros Hb. eexists _, _. split; [reflexivity|]. revert Hb.
  unfold render_pages, finish.
  unfold bind at 1.
  destruct (copy_static bm s3) as [[u1|e] s4] eqn:H1.
  2:{ intros [= <- <-]. eexists _, _. unfold bind at 1. rewrite H1.
      split; [reflexivity|]. simpl. auto. }
  unfold bind at 1.
  destruct (write_index bm _ h s4) as [[u2|e] s5] eqn:H2.
  2:{ intros [= <- <-]. eexists _, _. unfold bind at 1. rewrite H1.
      unfold bind at 1. rewrite H2. split; [reflexivity|]. simpl. auto. }
  unfold bind at 1.
  destruct (write_taxonomy (tags_html _) _ _ _ _ _ s5) as [[u3|e] s6] eqn:H3.
  2:{ intros [= <- <-]. eexists _, _. unfold bind at 1. rewrite H1.
      unfold bind at 1. rewrite H2. unfold bind at 1. rewrite H3.
      split; [reflexivity|]. simpl. auto. }
  unfold bind at 1.
  destruct (write_taxonomy (category_html _) _ _ _ _ _ s6) as [[u4|e] s7] eqn:H4.
  2:{ intros [= <- <-]. eexists _, _. unfold bind at 1. rewrite H1.
      unfold bind at 1. rewrite H2. unfold bind at 1. rewrite H3.
      rewrite H4. split; [reflexivity|]. simpl. auto. }
  intros Hb. eexists (Ok u4), s7. unfold bind at 1. rewrite H1.
  unfold bind at 1. rewrite H2. unfold bind at 1. rewrite H3.
  rewrite H4. split; [reflexivity|]. exact Hb.
Qed.

Lemma keeps_render_pages (bm : Blazemark) (site_meta : meta) (h : harvest) :
  keeps_cache (render_pages bm site_meta h).
Proof.
  unfold render_pages.
  apply keeps_bind; [apply keeps_copy_static | intros _].
  apply keeps_bind; [apply keeps_write_index | intros _].
  apply keeps_bind; [apply keeps_write_taxonomy | intros _].
  apply keeps_write_taxonomy.
Qed.

(** The loop over the [on_build_finished] hooks always completes. *)
Lemma build_finished_loop (bm : Blazemark) (c : content) (ps : list Plugin) :
  forall (s s' : state) (out : res unit),
    for_each ps tt (build_finished_step bm c) s = (out, s') ->
    out = Ok tt /\ cache s' = cache s /\ cache_file s' = cache_file s.
Proof.
  induction ps as [|p ps IH]; intros s s' out.
  - intros [= <- <-]. auto.
  - cbn [for_each]. unfold bind at 1, build_finished_step at 1.
    destruct (on_build_finished p _ _ _ _ _) as [[w tree] [u|e]];
      intros Hloop; apply IH in Hloop as (-> & -> & ->); auto.
Qed.

(** The closing phase never raises: it stores the cache in its file and
    lets the hooks run, whatever they do. *)
Lemma finish_spec (bm : Blazemark) (c : content) (s s' : state)
    (out : res unit) :
  finish bm c s = (out, s') ->
  out = Ok tt /\ cache s' = cache s /\ cache_file s' = Some (cache s).
Proof.
  unfold finish. unfold bind at 1, _save_cache at 1.
  unfold bind at 1, print at 1.
  intros Hloop. apply build_finished_loop in Hloop as (-> & -> & ->). auto.
Qed.

End BuildPhases.

Section CacheAcrossBuilds.
Context `{Platform}.

Lemma find_source_some (l : list source) (p : string) (g : source) :
  find_source l p = Some g -> In g l /\ src_path g = p.
Proof.
  induction l as [|f l IH]; simpl; [discriminate|].
  destruct (String.eqb_spec (src_path f) p) as [Heq | Hne].
  - intros [= <-]. auto.
  - intros Hg. destruct (IH Hg). auto.
Qed.

Lemma find_source_in (l : list source) (f : source) :
  NoDup (map src_path l) -> In f l -> find_source l (src_path f) = Some f.
Proof.
  intros Hnd Hin.
  destruct (find_source l (src_path f)) as [g|] eqn:Hfind.
  - apply find_source_some in Hfind as [Hg Hpath].
    f_equal. now apply (same_path_same_file l).
  - exfalso. clear Hnd. induction l as [|h l IH]; [destruct Hin|].
    simpl in Hfind. destruct Hin as [-> | Hin].
    + now rewrite String.eqb_refl in Hfind.
    + destruct (String.eqb (src_path h) (src_path f)); [discriminate|].
      now apply IH.
Qed.

Lemma discovered_perm (c : content) :
  Permutation (discovered c) (all_sources c).
Proof.
  unfold discovered, discover_posts_and_pages, all_sources.
  apply Permutation_app; [apply sorted_sources_perm|].
  destruct (glob_pages c); [apply sorted_sources_perm | reflexivity].
Qed.

(** What one round of the write loop does to the cache: nothing, or one
    entry that describes the file under the result's source path. *)
Lemma result_step_cache (bm : Blazemark) (c : content) (force : bool)
    (acc : harvest) (r : render_result) (s s' : state) (out : res harvest) :
  result_step bm c force acc r s = (out, s') ->
  (cache s' = cache s
   \/ exists e, fresh_entry c (res_src r) e
                /\ cache s' = <[res_src r := e]> (cache s))
  /\ (forall acc', out = Ok acc' -> written force r = true ->
        exists e, fresh_entry c (res_src r) e
                  /\ cache s' = <[res_src r := e]> (cache s)).
Proof.
  unfold result_step, written, run_after_render.
  unfold bind at 1. unfold lift at 1.
  destruct (as_str (res_slug r)) as [slug|e].
  2:{ intros [= <- <-]. split; [auto | discriminate]. }
  unfold bind at 1.
  destruct (run_after_render_frame (plugins bm) r (res_html r) s)
    as (html & s1 & -> & Hc & Hf & Hp).
  destruct (negb (is_draft (res_meta r)) || force) eqn:Hw.
  2:{ intros [= <- <-]. split; [auto | discriminate]. }
  unfold bind at 1. unfold write_file at 1.
  unfold bind at 1. unfold lift at 1. unfold stat_mtime, read_file.
  destruct (find_source (all_sources c) (res_src r)) as [f|] eqn:Hfind.
  2:{ intros [= <- <-]. simpl. split; [auto | discriminate]. }
  unfold bind at 1. unfold lift at 1.
  unfold bind at 1. unfold cache_store at 1.
  assert (Hfresh : forall o,
             fresh_entry c (res_src r)
               {| e_mtime := src_mtime f;
                  e_hash := compute_hash (src_text f);
                  e_output := o |}).
  { intros o. exists f. auto. }
  unfold bind at 1. unfold lift at 1.
  destruct (relative_to_output _) as [rel|e].
  2:{ intros [= <- <-]. simpl. rewrite Hc. split; [eauto | discriminate]. }
  unfold bind at 1. unfold lift at 1.
  destruct (declared_names (Py.get_or (res_meta r) "tags" _)) as [tags|e].
  2:{ intros [= <- <-]. simpl. rewrite Hc. split; [eauto | discriminate]. }
  unfold bind at 1. unfold lift at 1.
  destruct (declared_names (Py.get_or (res_meta r) "category" _)) as [cats|e].
  2:{ intros [= <- <-]. simpl. rewrite Hc. split; [eauto | discriminate]. }
  unfold ret. intros [= <- <-]. simpl. rewrite Hc. split; eauto.
Qed.

(** The write loop and the cache: no entry is dropped; an entry that
    changed describes the file under its path; and when the loop
    completes, every result that passed the draft test has such an
    entry under its source path. *)
Lemma harvest_loop_cache (bm : Blazemark) (c : content) (force : bool)
    (results : list render_result) :
  forall (acc : harvest) (s s' : state) (out : res harvest),
    for_each results acc (result_step bm c force) s = (out, s') ->
    (forall p, is_Some (cache s !! p) -> is_Some (cache s' !! p))
    /\ (forall p e, cache s' !! p = Some e ->
                    cache s !! p = Some e \/ fresh_entry c p e)
    /\ (forall h, out = Ok h ->
          forall r, In r results -> written force r = true ->
            exists e, cache s' !! res_src r = Some e
                      /\ fresh_entry c (res_src r) e).
Proof.
  induction results as [|r results IH]; intros acc s s' out.
  - intros [= <- <-]. repeat split; auto. intros h _ r [].
  - cbn [for_each]. unfold bind at 1.
    destruct (result_step bm c force acc r s) as [[acc1|e] s1] eqn:Hstep;
      destruct (result_step_cache _ _ _ _ _ _ _ _ Hstep) as (Hone & Hwr).
    + intros Hloop. destruct (IH _ _ _ _ Hloop) as (Hkeep & Hnew & Hres).
      split; [|split].
      * intros p Hp. apply Hkeep.
        destruct Hone as [-> | (e & _ & ->)]; [assumption|].
        destruct (decide (res_src r = p)) as [<- | Hne].
        -- rewrite lookup_insert_eq. eauto.
        -- now rewrite lookup_insert_ne.
      * intros p e Hp. destruct (Hnew p e Hp) as [Hold | Hfresh]; [|now right].
        destruct Hone as [Heq | (e1 & Hfresh1 & Heq)]; rewrite Heq in Hold;
          [now left|].
        destruct (decide (res_src r = p)) as [<- | Hne].
        -- rewrite lookup_insert_eq in Hold. injection Hold as <-. now right.
        -- rewrite lookup_insert_ne in Hold by assumption. now left.
      * intros h Hh r' [<- | Hin] Hw; [|now apply (Hres h Hh)].
        destruct (Hwr acc1 eq_refl Hw) as (e1 & Hfresh1 & Heq).
        assert (Hsome : is_Some (cache s' !! res_src r)).
        { apply Hkeep. rewrite Heq, lookup_insert_eq. eauto. }
        destruct Hsome as [e' He']. exists e'. split; [exact He'|].
        destruct (Hnew _ _ He') as [Hold | Hfresh]; [|exact Hfresh].
        rewrite Heq, lookup_insert_eq in Hold. now injection Hold as <-.
    + intros [= <- <-]. split; [|split; [|discriminate]].
      * intros p Hp. destruct Hone as [-> | (e1 & _ & ->)]; [assumption|].
        destruct (decide (res_src r = p)) as [<- | Hne].
        -- rewrite lookup_insert_eq. eauto.
        -- now rewrite lookup_insert_ne.
      * intros p e1 Hp. destruct Hone as [Heq | (e2 & Hfresh & Heq)];
          rewrite Heq in Hp; [now left|].
        destruct (decide (res_src r = p)) as [<- | Hne].
        -- rewrite lookup_insert_eq in Hp. injection Hp as <-. now right.
        -- rewrite lookup_insert_ne in Hp by assumption. now left.
Qed.

(** [build] and the cache, whatever the outcome and the force flag. *)
Lemma build_cache_frame (bm : Blazemark) (c : content) (sched : schedule)
    (force : bool) (s s' : state) (out : res unit) :
  build bm c sched force s = (out, s') ->
  (forall p, is_Some (cache s !! p) -> is_Some (cache s' !! p))
  /\ (forall p e, cache s' !! p = Some e ->
                  cache s !! p = Some e \/ fresh_entry c p e)
  /\ match out with
     | Ok _ => cache_file s' = Some (cache s')
     | Raise _ => cache_file s' = cache_file s
     end.
Proof.
  intros Hb. apply build_cases in Hb as (o1 & s1 & Hsel & Hb).
  destruct (select_tasks_frame _ _ _ _ _ _ _ Hsel) as (Hc1 & Hf1 & _).
  destruct o1 as [tasks|e]; [|destruct Hb as [-> ->]; rewrite Hc1; auto].
  destruct Hb as (o2 & s2 & Hren & Hb).
  destruct (render_all_spec bm c sched tasks s1)
    as (o2' & s2' & Hren' & (Hc2 & Hf2 & _) & _).
  rewrite Hren in Hren'. injection Hren' as <- <-.
  destruct o2 as [results|e].
  2:{ destruct Hb as [-> ->]. rewrite Hc2, Hc1, Hf2, Hf1. auto. }
  destruct Hb as (o3 & s3 & Hloop & Hb).
  destruct (harvest_loop_cache _ _ _ _ _ _ _ _ Hloop) as (Hkeep & Hnew & _).
  destruct (harvest_loop _ _ _ _ _ _ _ _ Hloop) as (Hf3 & _ & _).
  rewrite Hc2, Hc1 in Hkeep, Hnew.
  destruct o3 as [h|e]; [|destruct Hb as [-> ->]; repeat split; auto; congruence].
  destruct Hb as (o4 & s4 & Hpages & Hb).
  destruct (keeps_render_pages _ _ _ _ _ _ Hpages) as [Hc4 Hf4].
  destruct o4 as [u|e].
  2:{ destruct Hb as [-> ->]. rewrite Hc4. repeat split; auto. congruence. }
  apply finish_spec in Hb as (-> & Hc5 & Hf5).
  rewrite Hc5, Hc4. repeat split; auto. congruence.
Qed.

(** X8: [build] writes the cache file only when it completes, and then
    it writes the whole cache it holds; a build that raises, at any
    point, leaves the cache file as it found it. *)
Theorem build_saves_cache_only_on_success (bm : Blazemark) (c : content)
    (sched : schedule) (force : bool) (s : state) :
  let r := build bm c sched force s in
  match fst r with
  | Ok _ => cache_file (snd r) = Some (cache (snd r))
  | Raise _ => cache_file (snd r) = cache_file s
  end.
Proof.
  simpl. destruct (build bm c sched force s) as [out s'] eqn:Hb.
  now apply build_cache_frame in Hb as (_ & _ & Hfile).
Qed.

(** X9: [build] never removes a cache entry, with or without the force
    flag and whatever its outcome: every path cached before is cached
    after.  The entry of a path under which the content tree has no
    file any more (a deleted document) stays exactly as it was. *)
Theorem build_never_drops_cache_entries (bm : Blazemark) (c : content)
    (sched : schedule) (force : bool) (s : state) :
  dom (cache s) ⊆ dom (cache (snd (build bm c sched force s)))
  /\ forall p, find_source (all_sources c) p = None ->
               cache (snd (build bm c sched force s)) !! p = cache s !! p.
Proof.
  destruct (build bm c sched force s) as [out s'] eqn:Hb. simpl.
  apply build_cache_frame in Hb as (Hkeep & Hnew & _). split.
  - intros p Hp. apply elem_of_dom. apply Hkeep. now apply elem_of_dom.
  - intros p Hgone.
    destruct (cache s' !! p) as [e|] eqn:Hp.
    + destruct (Hnew p e Hp) as [Hold | (f & Hfind & _)]; [now rewrite Hold|].
      congruence.
    + destruct (cache s !! p) as [e|] eqn:Hold; [|reflexivity].
      destruct (Hkeep p) as [e' He']; [rewrite Hold; eauto|]. congruence.
Qed.

End CacheAcrossBuilds.

Section Incremental.
Context `{Platform}.

(** A selection loop that completes has met mappings only. *)
Lemma select_loop_ok_mapping (bm : Blazemark) (force : bool)
    (site_meta : meta) (files : list source) (acc tasks : list task)
    (s s' : state) :
  for_each files acc (select_step bm force site_meta) s = (Ok tasks, s') ->
  Forall has_mapping files.
Proof.
  intros Hloop. apply List.Forall_forall. intros f Hf. unfold has_mapping.
  destruct (fst (fst (parse_front_matter (src_text f)))) as [m|v] eqn:Hm;
    [eauto|].
  destruct (select_loop_non_mapping bm force site_meta files acc s)
    as (s1 & Heq & _); [eauto|]. congruence.
Qed.

(** The results of a pool that completes are the workers' results. *)
Lemma render_all_ok_perm (bm : Blazemark) (c : content) (sched : schedule)
    (tasks : list task) (s s' : state) (results : list render_result) :
  render_all bm c sched tasks s = (Ok results, s') ->
  Permutation (map Ok results)
    (map (fun t => snd (render_post_worker c t)) tasks).
Proof.
  unfold render_all. destruct tasks as [|t0 tasks].
  - intros [= <- <-]. reflexivity.
  - destruct (workers bm <=? 0); [discriminate|].
    set (futs := sched (map (render_post_worker c) (t0 :: tasks))).
    assert (Hperm : Permutation futs (map (render_post_worker c) (t0 :: tasks)))
      by apply as_completed_perm.
    intros Hloop.
    destruct (collect_loop futs [] s) as (out & s1 & Heq & _ & _ & Hok).
    rewrite Hloop in Heq. injection Heq as <- <-.
    destruct (Hok results eq_refl) as (rs & Hres & Hrs).
    change ([] ++ rs) with rs in Hres. subst results.
    rewrite <- Hrs, <- (map_map (render_post_worker c) snd).
    now apply Permutation_map.
Qed.

Lemma filter_all_false {A : Type} (P : A -> bool) (l : list A) :
  (forall x, In x l -> P x = false) -> List.filter P l = [].
Proof.
  induction l as [|x l IH]; simpl; intros Hall; [reflexivity|].
  rewrite (Hall x (or_introl eq_refl)). apply IH. auto.
Qed.

Lemma is_draft_content_raw (m : meta) (v : value) :
  is_draft (Py.set m "content_raw" v) = is_draft m.
Proof.
  unfold is_draft, Py.get_or. now rewrite get_set_other by discriminate.
Qed.

(** The result of the worker for a file of the tree passes the draft
    test of the write loop exactly when the file is not a draft. *)
Lemma worker_result_of_file (bm : Blazemark) (c : content)
    (site_meta : meta) (f : source) (printed : list log_entry)
    (r : render_result) :
  NoDup (map src_path (all_sources c)) ->
  In f (all_sources c) ->
  render_post_worker c (task_of bm site_meta f) = (printed, Ok r) ->
  res_src r = src_path f
  /\ is_draft (res_meta r) = front_matter_draft f.
Proof.
  intros Hnd Hin Hrun. unfold task_of in Hrun.
  destruct (render_post_worker_ok _ _ _ _ _ _ Hrun)
    as (text & m & body & Hread & Hparse & Hsrc & _ & Hmeta).
  split; [exact Hsrc|].
  unfold read_file in Hread. rewrite (find_source_in _ _ Hnd Hin) in Hread.
  injection Hread as <-.
  rewrite Hmeta, is_draft_content_raw. unfold front_matter_draft.
  now rewrite Hparse.
Qed.

(** After a build without the force flag that completed, every file
    that is not a draft has a cache entry that describes it. *)
Lemma build_ok_entries (bm : Blazemark) (c : content) (sched : schedule)
    (s s' : state) (f : source) :
  NoDup (map src_path (all_sources c)) ->
  build bm c sched false s = (Ok tt, s') ->
  In f (all_sources c) ->
  front_matter_draft f = false ->
  exists e, cache s' !! src_path f = Some e
            /\ e_hash e = compute_hash (src_text f).
Proof.
  intros Hnd Hb Hin Hdraft.
  apply build_cases in Hb as (o1 & s1 & Hsel & Hb).
  destruct o1 as [tasks|e]; [|destruct Hb; discriminate].
  destruct Hb as (o2 & s2 & Hren & Hb).
  destruct o2 as [results|e]; [|destruct Hb; discriminate].
  destruct Hb as (o3 & s3 & Hloop & Hb).
  destruct o3 as [h|e]; [|destruct Hb; discriminate].
  destruct Hb as (o4 & s4 & Hpages & Hb).
  destruct o4 as [u|e]; [|destruct Hb; discriminate].
  apply finish_spec in Hb as (_ & Hc5 & _).
  destruct (keeps_render_pages _ _ _ _ _ _ Hpages) as [Hc4 _].
  rewrite Hc5, Hc4.
  assert (Hmap : Forall has_mapping (discovered c))
    by (eapply select_loop_ok_mapping; exact Hsel).
  destruct (select_tasks_spec bm false (site_meta_of (config bm))
              (discovered c) s Hmap) as (s1' & Hsel' & Hc1 & _).
  rewrite Hsel in Hsel'. injection Hsel' as -> <-.
  destruct (render_all_spec bm c sched
              (map (task_of bm (site_meta_of (config bm)))
                 (List.filter (selected false (cache s)) (discovered c))) s1)
    as (o2' & s2' & Hren' & (Hc2 & _) & _).
  rewrite Hren in Hren'. injection Hren' as <- <-.
  destruct (harvest_loop_cache _ _ _ _ _ _ _ _ Hloop) as (Hkeep & Hnew & Hres).
  assert (Hfresh : forall e, fresh_entry c (src_path f) e ->
                             e_hash e = compute_hash (src_text f)).
  { intros e (g & Hfind & Hhash & _).
    rewrite (find_source_in _ _ Hnd Hin) in Hfind. congruence. }
  assert (Hdisc : In f (discovered c))
    by (eapply Permutation_in; [symmetry; apply discovered_perm | exact Hin]).
  destruct (selected false (cache s) f) eqn:Hselected.
  - assert (Ht : In (task_of bm (site_meta_of (config bm)) f)
                   (map (task_of bm (site_meta_of (config bm)))
                      (List.filter (selected false (cache s)) (discovered c))))
      by (apply in_map, filter_In; auto).
    pose proof (render_all_ok_perm _ _ _ _ _ _ _ Hren) as Hperm.
    assert (Ho : In (snd (render_post_worker c
                            (task_of bm (site_meta_of (config bm)) f)))
                   (map Ok results)).
    { eapply Permutation_in; [symmetry; exact Hperm|].
      apply (in_map (fun t => snd (render_post_worker c t))), Ht. }
    apply in_map_iff in Ho as (r & Hr & Hrin).
    destruct (render_post_worker c (task_of bm (site_meta_of (config bm)) f))
      as [printed o] eqn:Hrun. simpl in Hr. subst o.
    destruct (worker_result_of_file _ _ _ _ _ _ Hnd Hin Hrun) as [Hsrc Hd].
    destruct (Hres h eq_refl r Hrin) as (e & He & Hfe).
    { unfold written. now rewrite Hd, Hdraft. }
    rewrite Hsrc in He, Hfe. eauto.
  - unfold selected in Hselected. rewrite Hdraft in Hselected.
    simpl in Hselected. unfold needs_render in Hselected. simpl in Hselected.
    destruct (cache s !! src_path f) as [e0|] eqn:Hold; [|discriminate].
    apply negb_false_iff, String.eqb_eq in Hselected.
    destruct (Hkeep (src_path f)) as [e He].
    { rewrite Hc2, Hc1, Hold. eauto. }
    exists e. split; [exact He|].
    destruct (Hnew _ _ He) as [Hsame | Hfe]; [|now apply Hfresh].
    rewrite Hc2, Hc1, Hold in Hsame. congruence.
Qed.

(** X10: after a build without the force flag that completed, every
    document of the tree that is not a draft has a cache entry holding
    the hash of its current text, in the cache and in the cache file. *)
Theorem build_records_every_document (cfg : meta) (th : theme)
    (loaded : list Plugin) (fresh : plugin_state) (c : content)
    (sched : schedule) (file : option (gmap string cache_entry))
    (tree : gmap string string) (s1 : state) (f : source) :
  NoDup (map src_path (all_sources c)) ->
  main_build cfg th loaded fresh c sched false file tree = (Ok tt, s1) ->
  In f (all_sources c) ->
  front_matter_draft f = false ->
  exists e, _load_cache (cache_file s1) !! src_path f = Some e
            /\ e_hash e = compute_hash (src_text f).
Proof.
  intros Hnd Hb Hin Hdraft. unfold main_build in Hb.
  pose proof (build_cache_frame _ _ _ _ _ _ _ Hb) as (_ & _ & ->).
  simpl. eapply build_ok_entries; eassumption.
Qed.

(** X11: a build without the force flag that completed, followed by a
    build over the same content, submits no document at all. *)
Theorem rebuild_selects_nothing (cfg : meta) (th : theme)
    (loaded : list Plugin) (fresh : plugin_state) (c : content)
    (sched : schedule) (file : option (gmap string cache_entry))
    (tree : gmap string string) (s1 : state)
    (bm2 : Blazemark) (site_meta2 : meta) (fresh2 : plugin_state)
    (tree2 : gmap string string) :
  NoDup (map src_path (all_sources c)) ->
  main_build cfg th loaded fresh c sched false file tree = (Ok tt, s1) ->
  exists s2,
    select_tasks bm2 false site_meta2 (discovered c)
      (start fresh2 (cache_file s1) tree2) = (Ok [], s2).
Proof.
  intros Hnd Hb. unfold main_build in Hb.
  assert (Hmap : Forall has_mapping (discovered c)).
  { pose proof Hb as Hb'. apply build_cases in Hb' as (o1 & s0 & Hsel & Hrest).
    destruct o1 as [tasks|e]; [|destruct Hrest; discriminate].
    eapply select_loop_ok_mapping. exact Hsel. }
  destruct (select_tasks_spec bm2 false site_meta2 (discovered c)
              (start fresh2 (cache_file s1) tree2) Hmap) as (s2 & Heq & _).
  exists s2. rewrite Heq. do 2 f_equal.
  rewrite filter_all_false; [reflexivity|].
  intros f Hf. simpl.
  pose proof (build_cache_frame _ _ _ _ _ _ _ Hb) as (_ & _ & ->). simpl.
  unfold selected.
  destruct (front_matter_draft f) eqn:Hdraft; [reflexivity|]. simpl.
  assert (Hin : In f (all_sources c)) by now apply discovered_in.
  destruct (build_ok_entries _ _ _ _ _ _ Hnd Hb Hin Hdraft) as (e & He & Hhash).
  unfold needs_render. rewrite He. simpl.
  apply negb_false_iff, String.eqb_eq. exact Hhash.
Qed.

(** Whether a file is among the tasks is what the two tests of the
    loop say of it. *)
Lemma select_tasks_member (bm : Blazemark) (force : bool) (site_meta : meta)
    (files : list source) (s : state) (f : source) :
  Forall has_mapping files ->
  NoDup (map src_path files) ->
  In f files ->
  exists tasks s',
    select_tasks bm force site_meta files s = (Ok tasks, s')
    /\ (In (task_of bm site_meta f) tasks
        <-> selected force (cache s) f = true).
Proof.
  intros Hmap Hnd Hf.
  destruct (select_tasks_spec bm force site_meta files s Hmap)
    as (s' & Heq & _).
  eexists _, s'. split; [exact Heq|]. rewrite in_map_iff. split.
  - intros (g & Htask & Hg). apply filter_In in Hg as [Hg Hsel].
    assert (g = f) as ->; [|assumption].
    apply (same_path_same_file files); auto.
    unfold task_of in Htask. congruence.
  - intros Hsel. exists f. split; [reflexivity|]. apply filter_In. auto.
Qed.

(** X12: after a build without the force flag that completed, a
    document that is still not a draft is submitted by the next build
    exactly when the hash of its text is no longer the hash of the text
    that build saw under its path. *)
Theorem edited_document_is_selected (cfg : meta) (th : theme)
    (loaded : list Plugin) (fresh : plugin_state) (c : content)
    (sched : schedule) (file : option (gmap string cache_entry))
    (tree : gmap string string) (s1 : state) (f : source)
    (bm2 : Blazemark) (site_meta2 : meta) (fresh2 : plugin_state)
    (tree2 : gmap string string) (files2 : list source) (f2 : source) :
  NoDup (map src_path (all_sources c)) ->
  main_build cfg th loaded fresh c sched false file tree = (Ok tt, s1) ->
  In f (all_sources c) ->
  front_matter_draft f = false ->
  Forall has_mapping files2 ->
  NoDup (map src_path files2) ->
  In f2 files2 ->
  src_path f2 = src_path f ->
  front_matter_draft f2 = false ->
  exists tasks s2,
    select_tasks bm2 false site_meta2 files2
      (start fresh2 (cache_file s1) tree2) = (Ok tasks, s2)
    /\ (In (task_of bm2 site_meta2 f2) tasks
        <-> compute_hash (src_text f2) <> compute_hash (src_text f)).
Proof.
  intros Hnd Hb Hin Hdraft Hmap2 Hnd2 Hin2 Hpath Hdraft2.
  assert (Hentry : exists e,
             _load_cache (cache_file s1) !! src_path f = Some e
             /\ e_hash e = compute_hash (src_text f)).
  { unfold main_build in Hb.
    pose proof (build_cache_frame _ _ _ _ _ _ _ Hb) as (_ & _ & ->).
    simpl. eapply build_ok_entries; eassumption. }
  destruct Hentry as (e & He & Hhash).
  destruct (select_tasks_member bm2 false site_meta2 files2
              (start fresh2 (cache_file s1) tree2) f2 Hmap2 Hnd2 Hin2)
    as (tasks & s2 & Heq & Hmem).
  exists tasks, s2. split; [exact Heq|]. rewrite Hmem.
  unfold selected, needs_render. rewrite Hdraft2. simpl.
  rewrite Hpath, He, Hhash.
  destruct (String.eqb_spec (compute_hash (src_text f))
              (compute_hash (src_text f2))) as [Heq' | Hne]; simpl.
  - split; [discriminate | congruence].
  - split; [congruence | reflexivity].
Qed.

End Incremental.

Section IncrementalRuns.
#[local] Existing Instance Site.site_platform.

Lemma two_posts_distinct_paths :
  NoDup (map src_path (all_sources (Sample.site [Sample.doc_a; Sample.doc_b]))).
Proof.
  repeat constructor; simpl; intros Hin;
    repeat (apply elem_of_cons in Hin as [Hin | Hin]; [discriminate|]);
    now apply not_elem_of_nil in Hin.
Qed.

Lemma two_posts_build_ok :
  let c := Sample.site [Sample.doc_a; Sample.doc_b] in
  main_build [] Sample.site_theme [] tt c Sample.in_order false None ∅
  = (Ok tt, snd (Site.site_run Sample.site_theme c Sample.in_order false None ∅)).
Proof.
  simpl. unfold Site.site_run.
  rewrite (surjective_pairing (main_build _ _ _ _ _ _ _ _ _)) at 1.
  f_equal.
Qed.

(** A deleted document: b is built, then removed from the tree; the
    next build leaves its cache entry as it was. *)
Lemma build_never_drops_cache_entries_witness :
  let c1 := Sample.site [Sample.doc_a; Sample.doc_b] in
  let c2 := Sample.site [Sample.doc_a] in
  let r1 := Site.site_run Sample.site_theme c1 Sample.in_order false None ∅ in
  let s := start tt (cache_file (snd r1)) (public (snd r1)) in
  let bm := Site.site_generator Sample.site_theme c2 in
  is_Some (cache s !! "content/b.md")
  /\ cache (snd (build bm c2 Sample.in_order false s)) !! "content/b.md"
     = cache s !! "content/b.md".
Proof.
  split; [vm_compute; eauto|].
  exact (proj2 (build_never_drops_cache_entries
                  (Site.site_generator Sample.site_theme
                     (Sample.site [Sample.doc_a]))
                  (Sample.site [Sample.doc_a]) Sample.in_order false
                  (start tt
                     (cache_file
                        (snd (Site.site_run Sample.site_theme
                                (Sample.site [Sample.doc_a; Sample.doc_b])
                                Sample.in_order false None ∅)))
                     (public
                        (snd (Site.site_run Sample.site_theme
                                (Sample.site [Sample.doc_a; Sample.doc_b])
                                Sample.in_order false None ∅)))))
           "content/b.md" eq_refl).
Defined.

Lemma build_records_every_document_witness :
  let c := Sample.site [Sample.doc_a; Sample.doc_b] in
  let r1 := Site.site_run Sample.site_theme c Sample.in_order false None ∅ in
  exists e,
    _load_cache (cache_file (snd r1)) !! "content/a.md" = Some e
    /\ e_hash e = compute_hash (src_text Sample.doc_a).
Proof.
  refine (build_records_every_document
            [] Sample.site_theme [] tt
            (Sample.site [Sample.doc_a; Sample.doc_b]) Sample.in_order
            None ∅ _ Sample.doc_a _ _ _ eq_refl).
  - exact two_posts_distinct_paths.
  - exact two_posts_build_ok.
  - simpl. now left.
Defined.

Lemma rebuild_selects_nothing_witness :
  let c := Sample.site [Sample.doc_a; Sample.doc_b] in
  let r1 := Site.site_run Sample.site_theme c Sample.in_order false None ∅ in
  exists s2,
    select_tasks (Site.site_generator Sample.site_theme c) false []
      (discovered c) (start tt (cache_file (snd r1)) (public (snd r1)))
    = (Ok [], s2).
Proof.
  refine (rebuild_selects_nothing
            [] Sample.site_theme [] tt
            (Sample.site [Sample.doc_a; Sample.doc_b]) Sample.in_order
            None ∅ _ _ _ _ _ _ _).
  - exact two_posts_distinct_paths.
  - exact two_posts_build_ok.
Defined.

Lemma edited_document_is_selected_witness :
  let c := Sample.site [Sample.doc_a; Sample.doc_b] in
  let r1 := Site.site_run Sample.site_theme c Sample.in_order false None ∅ in
  let files2 := [Site.doc_a_edited; Sample.doc_b] in
  let bm2 := Site.site_generator Sample.site_theme (Sample.site files2) in
  exists tasks s2,
    select_tasks bm2 false [] files2
      (start tt (cache_file (snd r1)) (public (snd r1))) = (Ok tasks, s2)
    /\ (In (task_of bm2 [] Site.doc_a_edited) tasks
        <-> compute_hash (src_text Site.doc_a_edited)
            <> compute_hash (src_text Sample.doc_a)).
Proof.
  refine (edited_document_is_selected
            [] Sample.site_theme [] tt
            (Sample.site [Sample.doc_a; Sample.doc_b]) Sample.in_order
            None ∅ _ Sample.doc_a _ _ _ _
            [Site.doc_a_edited; Sample.doc_b] Site.doc_a_edited
            _ _ _ eq_refl _ _ _ eq_refl eq_refl).
  - exact two_posts_distinct_paths.
  - exact two_posts_build_ok.
  - simpl. now left.
  - repeat constructor; eexists; reflexivity.
  - repeat constructor; simpl; intros Hin;
      repeat (apply elem_of_cons in Hin as [Hin | Hin]; [discriminate|]);
      now apply not_elem_of_nil in Hin.
  - simpl. now left.
Defined.

End IncrementalRuns.

(** ** The output tree *)

Section OutputTree.
Context `{Platform}.

Lemma pages_ret {A : Type} (a : A) : keeps_pages (ret a).
Proof. intros s out s' [= <- <-]. reflexivity. Qed.

Lemma pages_lift {A : Type} (r : res A) : keeps_pages (lift r).
Proof. intros s out s' [= <- <-]. reflexivity. Qed.

Lemma pages_print (l : list log_entry) : keeps_pages (print l).
Proof. intros s out s' [= <- <-]. reflexivity. Qed.

Lemma pages_write_file (p t : string) : keeps_pages (write_file p t).
Proof.
  intros s out s' [= <- <-]. simpl. rewrite dom_insert_L. set_solver.
Qed.

Lemma pages_cache_store (p : string) (e : cache_entry) :
  keeps_pages (cache_store p e).
Proof. intros s out s' [= <- <-]. reflexivity. Qed.

Lemma pages_save_cache : keeps_pages _save_cache.
Proof. intros s out s' [= <- <-]. reflexivity. Qed.

Lemma pages_bind {A B : Type} (m : M A) (k : A -> M B) :
  keeps_pages m -> (forall a, keeps_pages (k a)) -> keeps_pages (bind m k).
Proof.
  intros Hm Hk s out s'. unfold bind.
  destruct (m s) as [[a|e] s1] eqn:Hms.
  - intros Hks. etransitivity; [eapply Hm, Hms | eapply Hk, Hks].
  - intros [= <- <-]. eapply Hm, Hms.
Qed.

Lemma pages_for_each {A B : Type} (l : list A) (body : B -> A -> M B) :
  (forall acc x, In x l -> keeps_pages (body acc x)) ->
  forall acc, keeps_pages (for_each l acc body).
Proof.
  induction l as [|x l IH]; intros Hbody acc; cbn [for_each].
  - apply pages_ret.
  - apply pages_bind; [apply Hbody; now left|].
    intros acc'. apply IH. intros; apply Hbody; now right.
Qed.

Lemma pages_run_after_render (bm : Blazemark) (r : render_result) :
  keeps_pages (run_after_render bm r).
Proof.
  intros s out s'. unfold run_after_render.
  destruct (run_after_render_frame (plugins bm) r (res_html r) s)
    as (html & s1 & -> & _ & _ & Hp).
  intros [= <- <-]. now rewrite Hp.
Qed.

Lemma pages_result_step (bm : Blazemark) (c : content) (force : bool)
    (acc : harvest) (r : render_result) :
  keeps_pages (result_step bm c force acc r).
Proof.
  unfold result_step.
  apply pages_bind; [apply pages_lift | intros slug].
  apply pages_bind; [apply pages_run_after_render | intros html].
  destruct (negb (is_draft (res_meta r)) || force); [|apply pages_ret].
  apply pages_bind; [apply pages_write_file | intros _].
  apply pages_bind; [apply pages_lift | intros mtime].
  apply pages_bind; [apply pages_lift | intros text].
  apply pages_bind; [apply pages_cache_store | intros _].
  repeat (apply pages_bind; [apply pages_lift | intros ?]).
  apply pages_ret.
Qed.

Lemma pages_write_index (bm : Blazemark) (site_meta : meta) (h : harvest) :
  keeps_pages (write_index bm site_meta h).
Proof.
  unfold write_index.
  repeat (apply pages_bind; [apply pages_lift | intros ?]).
  apply pages_write_file.
Qed.

Lemma pages_write_taxonomy get_template (field dir : string)
    (site_meta : meta) (raw : list listing) (names : list scalar) :
  keeps_pages (write_taxonomy get_template field dir site_meta raw names).
Proof.
  unfold write_taxonomy.
  apply pages_bind; [apply pages_lift | intros tpl].
  apply pages_bind.
  - apply pages_for_each. intros acc name _. unfold taxonomy_step.
    repeat (apply pages_bind; [apply pages_lift | intros ?]).
    apply pages_write_file.
  - intros _.
    repeat (apply pages_bind; [apply pages_lift | intros ?]).
    apply pages_write_file.
Qed.

Lemma pages_render_pages (bm : Blazemark) (site_meta : meta) (h : harvest) :
  keeps_pages (render_pages bm site_meta h).
Proof.
  unfold render_pages.
  apply pages_bind.
  { unfold copy_static. apply pages_for_each. intros.
    apply pages_write_file. }
  intros _. apply pages_bind; [apply pages_write_index | intros _].
  apply pages_bind; [apply pages_write_taxonomy | intros _].
  apply pages_write_taxonomy.
Qed.

Lemma pages_finish (bm : Blazemark) (c : content) :
  Forall hook_keeps_pages (plugins bm) -> keeps_pages (finish bm c).
Proof.
  intros Hhooks. unfold finish.
  apply pages_bind; [apply pages_save_cache | intros _].
  apply pages_bind; [apply pages_print | intros _].
  apply pages_for_each. intros [] p Hp s out s'.
  rewrite List.Forall_forall in Hhooks. specialize (Hhooks p Hp).
  unfold build_finished_step.
  specialize (Hhooks (config bm) (cache s) c (plugins_mem s) (public s)).
  destruct (on_build_finished p _ _ _ _ _) as [[w tree] [u|e]];
    intros [= <- <-]; exact Hhooks.
Qed.

Lemma pages_select_tasks (bm : Blazemark) (force : bool) (site_meta : meta)
    (files : list source) :
  keeps_pages (select_tasks bm force site_meta files).
Proof.
  intros s out s' Hsel.
  apply select_tasks_frame in Hsel as (_ & _ & Hp & _). now rewrite Hp.
Qed.

Lemma pages_render_all (bm : Blazemark) (c : content) (sched : schedule)
    (tasks : list task) :
  keeps_pages (render_all bm c sched tasks).
Proof.
  intros s out s' Hren.
  destruct (render_all_spec bm c sched tasks s)
    as (out' & s1 & Heq & (_ & _ & Hp & _) & _).
  rewrite Hren in Heq. injection Heq as <- <-. now rewrite Hp.
Qed.

(** The phases of [build] from the write loop on, as one computation. *)
Lemma build_pages (bm : Blazemark) (c : content) (sched : schedule)
    (force : bool) :
  Forall hook_keeps_pages (plugins bm) ->
  keeps_pages (build bm c sched force).
Proof.
  intros Hhooks s out s' Hb.
  apply build_cases in Hb as (o1 & s1 & Hsel & Hb).
  pose proof (pages_select_tasks _ _ _ _ _ _ _ Hsel) as H1.
  destruct o1 as [tasks|e]; [|destruct Hb as [_ ->]; exact H1].
  destruct Hb as (o2 & s2 & Hren & Hb).
  pose proof (pages_render_all _ _ _ _ _ _ _ Hren) as H2.
  destruct o2 as [results|e]; [|destruct Hb as [_ ->]; set_solver].
  destruct Hb as (o3 & s3 & Hloop & Hb).
  assert (H3 : dom (public s2) ⊆ dom (public s3)).
  { eapply (pages_for_each results (result_step bm c force)); [|exact Hloop].
    intros acc r _. apply pages_result_step. }
  destruct o3 as [h|e]; [|destruct Hb as [_ ->]; set_solver].
  destruct Hb as (o4 & s4 & Hpages & Hb).
  pose proof (pages_render_pages _ _ _ _ _ _ Hpages) as H4.
  destruct o4 as [u|e].
  2:{ destruct Hb as [_ ->]. set_solver. }
  pose proof (pages_finish bm c Hhooks _ _ _ Hb) as H5.
  set_solver.
Qed.

(** X13: as long as no [on_build_finished] hook removes files, [build]
    never removes a file from the output tree, whatever its outcome:
    the page of a document that has since become a draft, or was
    deleted, stays where an earlier build wrote it. *)
Theorem build_never_removes_pages (bm : Blazemark) (c : content)
    (sched : schedule) (force : bool) (s : state) :
  Forall hook_keeps_pages (plugins bm) ->
  dom (public s) ⊆ dom (public (snd (build bm c sched force s))).
Proof.
  intros Hhooks.
  destruct (build bm c sched force s) as [out s'] eqn:Hb. simpl.
  eapply build_pages; eassumption.
Qed.

End OutputTree.

Section Pages.
Context `{Platform}.

Lemma write_file_dom (p t : string) (s s' : state) (out : res unit) :
  write_file p t s = (out, s') -> p ∈ dom (public s').
Proof.
  intros [= <- <-]. simpl. rewrite dom_insert_L. set_solver.
Qed.

Lemma write_index_ok (bm : Blazemark) (site_meta : meta) (h : harvest)
    (s s' : state) (u : unit) :
  write_index bm site_meta h s = (Ok u, s') ->
  path_join OUTPUT_DIR "index.html" ∈ dom (public s').
Proof.
  unfold write_index, bind, lift.
  destruct (index_html (theme_dir bm)) as [tpl|e]; [|discriminate].
  destruct (post_list_of _) as [post_list|e]; [|discriminate].
  destruct (sorted_names (all_tags h)) as [tags|e]; [|discriminate].
  destruct (sorted_names (all_categories h)) as [cats|e]; [|discriminate].
  destruct (tpl _ _ _ _) as [html|e]; [|discriminate].
  apply write_file_dom.
Qed.

Lemma write_taxonomy_ok get_template (field dir : string)
    (site_meta : meta) (raw : list listing) (names : list scalar)
    (s s' : state) (u : unit) :
  write_taxonomy get_template field dir site_meta raw names s = (Ok u, s') ->
  path_join (path_join OUTPUT_DIR dir) "index.html" ∈ dom (public s').
Proof.
  unfold write_taxonomy. unfold bind at 1, lift at 1.
  destruct get_template as [tpl|e]; [|discriminate].
  unfold bind at 1.
  destruct (for_each names tt _ s) as [[u1|e] s1]; [|discriminate].
  unfold bind, lift.
  destruct (sorted_names names) as [sorted_|e]; [|discriminate].
  destruct (tpl _ _ _ _) as [html|e]; [|discriminate].
  apply write_file_dom.
Qed.

Lemma render_pages_ok (bm : Blazemark) (site_meta : meta) (h : harvest)
    (s s' : state) (u : unit) :
  render_pages bm site_meta h s = (Ok u, s') ->
  "public/index.html" ∈ dom (public s')
  /\ "public/tag/index.html" ∈ dom (public s')
  /\ "public/category/index.html" ∈ dom (public s').
Proof.
  unfold render_pages. unfold bind at 1.
  destruct (copy_static bm s) as [[u1|e] s1]; [|discriminate].
  unfold bind at 1.
  destruct (write_index bm site_meta h s1) as [[u2|e] s2] eqn:H2;
    [|discriminate].
  unfold bind at 1.
  destruct (write_taxonomy (tags_html _) _ _ _ _ _ s2) as [[u3|e] s3] eqn:H3;
    [|discriminate].
  intros H4.
  pose proof (write_index_ok _ _ _ _ _ _ H2) as D2.
  pose proof (write_taxonomy_ok _ _ _ _ _ _ _ _ _ H3) as D3.
  pose proof (write_taxonomy_ok _ _ _ _ _ _ _ _ _ H4) as D4.
  pose proof (pages_write_taxonomy _ _ _ _ _ _ _ _ _ H3) as M3.
  pose proof (pages_write_taxonomy _ _ _ _ _ _ _ _ _ H4) as M4.
  change (path_join OUTPUT_DIR "index.html") with "public/index.html" in D2.
  change (path_join (path_join OUTPUT_DIR "tag") "index.html")
    with "public/tag/index.html" in D3.
  change (path_join (path_join OUTPUT_DIR "category") "index.html")
    with "public/category/index.html" in D4.
  set_solver.
Qed.

(** X14: a build that completes has written the home index, the tag
    index and the category index, even when it rendered no document
    (hooks that remove no file assumed). *)
Theorem completed_build_writes_index_pages (bm : Blazemark) (c : content)
    (sched : schedule) (force : bool) (s s' : state) :
  Forall hook_keeps_pages (plugins bm) ->
  build bm c sched force s = (Ok tt, s') ->
  "public/index.html" ∈ dom (public s')
  /\ "public/tag/index.html" ∈ dom (public s')
  /\ "public/category/index.html" ∈ dom (public s').
Proof.
  intros Hhooks Hb.
  apply build_cases in Hb as (o1 & s1 & _ & Hb).
  destruct o1 as [tasks|e]; [|destruct Hb; discriminate].
  destruct Hb as (o2 & s2 & _ & Hb).
  destruct o2 as [results|e]; [|destruct Hb; discriminate].
  destruct Hb as (o3 & s3 & _ & Hb).
  destruct o3 as [h|e]; [|destruct Hb; discriminate].
  destruct Hb as (o4 & s4 & Hpages & Hb).
  destruct o4 as [u|e]; [|destruct Hb; discriminate].
  apply render_pages_ok in Hpages as (D1 & D2 & D3).
  pose proof (pages_finish bm c Hhooks _ _ _ Hb) as M. set_solver.
Qed.

(** One round of the write loop that completes on a result passing the
    draft test has written the page of that result. *)
Lemma result_step_page (bm : Blazemark) (c : content) (force : bool)
    (acc acc' : harvest) (r : render_result) (s s' : state) :
  result_step bm c force acc r s = (Ok acc', s') ->
  written force r = true ->
  exists slug, res_slug r = VScalar (SStr slug)
               /\ page_path slug ∈ dom (public s').
Proof.
  unfold result_step, written.
  unfold bind at 1. unfold lift at 1.
  destruct (as_str (res_slug r)) as [slug|e] eqn:Hslug; [|discriminate].
  assert (Hs : res_slug r = VScalar (SStr slug)).
  { destruct (res_slug r) as [[| | |x| |]|]; try discriminate.
    now injection Hslug as ->. }
  unfold bind at 1.
  destruct (run_after_render bm r s) as [[html|e] s1]; [|discriminate].
  intros Hstep Hw. rewrite Hw in Hstep. revert Hstep.
  unfold bind at 1.
  destruct (write_file _ html s1) as [[u|e] s2] eqn:Hwrite; [|discriminate].
  intros Hrest. exists slug. split; [exact Hs|].
  apply write_file_dom in Hwrite.
  assert (Hk : dom (public s2) ⊆ dom (public s')).
  { revert Hrest.
    match goal with
    | |- ?m s2 = _ -> _ => assert (Hkp : keeps_pages m)
    end.
    { apply pages_bind; [apply pages_lift | intros mtime].
      apply pages_bind; [apply pages_lift | intros text].
      apply pages_bind; [apply pages_cache_store | intros _].
      repeat (apply pages_bind; [apply pages_lift | intros ?]).
      apply pages_ret. }
    intros Hrest. eapply Hkp, Hrest. }
  unfold page_path. set_solver.
Qed.

Lemma harvest_loop_pages (bm : Blazemark) (c : content) (force : bool)
    (results : list render_result) :
  forall (acc h : harvest) (s s' : state),
    for_each results acc (result_step bm c force) s = (Ok h, s') ->
    forall r, In r results -> written force r = true ->
      exists slug, res_slug r = VScalar (SStr slug)
                   /\ page_path slug ∈ dom (public s').
Proof.
  induction results as [|r0 results IH]; intros acc h s s' Hloop r Hin Hw.
  - destruct Hin.
  - cbn [for_each] in Hloop. unfold bind at 1 in Hloop.
    destruct (result_step bm c force acc r0 s) as [[acc1|e] s1] eqn:Hstep;
      [|discriminate].
    destruct Hin as [<- | Hin].
    + destruct (result_step_page _ _ _ _ _ _ _ _ Hstep Hw) as (slug & Hs & Hd).
      exists slug. split; [exact Hs|].
      assert (Hk : dom (public s1) ⊆ dom (public s')).
      { eapply (pages_for_each results (result_step bm c force));
          [|exact Hloop]. intros; apply pages_result_step. }
      set_solver.
    + eapply IH; eassumption.
Qed.

(** X15: after a build without the force flag that completed, every
    document that is not a draft and needed rendering has a string slug
    and a page at [public/<slug>/index.html] (hooks that remove no file
    assumed). *)
Theorem rendered_document_has_page (bm : Blazemark) (c : content)
    (sched : schedule) (s s' : state) (f : source) :
  NoDup (map src_path (all_sources c)) ->
  Forall hook_keeps_pages (plugins bm) ->
  build bm c sched false s = (Ok tt, s') ->
  In f (all_sources c) ->
  front_matter_draft f = false ->
  needs_render false (cache s) f = true ->
  exists slug, slug_of_file f = VScalar (SStr slug)
               /\ page_path slug ∈ dom (public s').
Proof.
  intros Hnd Hhooks Hb Hin Hdraft Hneeds.
  apply build_cases in Hb as (o1 & s1 & Hsel & Hb).
  destruct o1 as [tasks|e]; [|destruct Hb; discriminate].
  destruct Hb as (o2 & s2 & Hren & Hb).
  destruct o2 as [results|e]; [|destruct Hb; discriminate].
  destruct Hb as (o3 & s3 & Hloop & Hb).
  destruct o3 as [h|e]; [|destruct Hb; discriminate].
  destruct Hb as (o4 & s4 & Hpages & Hb).
  destruct o4 as [u|e]; [|destruct Hb; discriminate].
  pose proof (pages_render_pages _ _ _ _ _ _ Hpages) as M4.
  pose proof (pages_finish bm c Hhooks _ _ _ Hb) as M5.
  assert (Hmap : Forall has_mapping (discovered c))
    by (eapply select_loop_ok_mapping; exact Hsel).
  destruct (select_tasks_spec bm false (site_meta_of (config bm))
              (discovered c) s Hmap) as (s1' & Hsel' & _).
  rewrite Hsel in Hsel'. injection Hsel' as -> <-.
  assert (Hdisc : In f (discovered c))
    by (eapply Permutation_in; [symmetry; apply discovered_perm | exact Hin]).
  assert (Ht : In (task_of bm (site_meta_of (config bm)) f)
                 (map (task_of bm (site_meta_of (config bm)))
                    (List.filter (selected false (cache s)) (discovered c)))).
  { apply in_map, filter_In. split; [exact Hdisc|].
    unfold selected. now rewrite Hdraft, Hneeds. }
  pose proof (render_all_ok_perm _ _ _ _ _ _ _ Hren) as Hperm.
  assert (Ho : In (snd (render_post_worker c
                          (task_of bm (site_meta_of (config bm)) f)))
                 (map Ok results)).
  { eapply Permutation_in; [symmetry; exact Hperm|].
    apply (in_map (fun t => snd (render_post_worker c t))), Ht. }
  apply in_map_iff in Ho as (r & Hr & Hrin).
  destruct (render_post_worker c (task_of bm (site_meta_of (config bm)) f))
    as [printed o] eqn:Hrun. simpl in Hr. subst o.
  destruct (worker_result_of_file _ _ _ _ _ _ Hnd Hin Hrun) as [Hsrc Hd].
  destruct (harvest_loop_pages _ _ _ _ _ _ _ _ Hloop r Hrin)
    as (slug & Hslug & Hpage).
  { unfold written. now rewrite Hd, Hdraft. }
  exists slug. split; [|set_solver].
  unfold task_of in Hrun.
  destruct (render_post_worker_ok _ _ _ _ _ _ Hrun)
    as (text & m & body & Hread & Hparse & _ & Hrslug & _).
  unfold read_file in Hread. rewrite (find_source_in _ _ Hnd Hin) in Hread.
  injection Hread as <-.
  unfold slug_of_file. rewrite Hparse. simpl. congruence.
Qed.

End Pages.

Section PagesRuns.
#[local] Existing Instance Site.site_platform.

(** A page written by an earlier build stays when its document is
    removed from the tree. *)
Lemma build_never_removes_pages_witness :
  let c1 := Sample.site [Sample.doc_a; Sample.doc_b] in
  let c2 := Sample.site [Sample.doc_a] in
  let r1 := Site.site_run Sample.site_theme c1 Sample.in_order false None ∅ in
  let s := start tt (cache_file (snd r1)) (public (snd r1)) in
  "public/b/index.html" ∈ dom (public s)
  /\ dom (public s)
     ⊆ dom (public (snd (build (Site.site_generator Sample.site_theme c2) c2
                           Sample.in_order false s))).
Proof.
  split.
  - apply elem_of_dom. vm_compute. eauto.
  - apply (build_never_removes_pages (H := Site.site_platform)). constructor.
Defined.

Lemma completed_build_writes_index_pages_witness :
  let c := Sample.site [] in
  let r := Site.site_run Sample.site_theme c Sample.in_order false None ∅ in
  "public/index.html" ∈ dom (public (snd r))
  /\ "public/tag/index.html" ∈ dom (public (snd r))
  /\ "public/category/index.html" ∈ dom (public (snd r)).
Proof.
  refine (completed_build_writes_index_pages
            (Site.site_generator Sample.site_theme (Sample.site []))
            (Sample.site []) Sample.in_order false Site.site_start _ _ _).
  - constructor.
  - unfold Site.site_run, main_build.
    rewrite (surjective_pairing (build _ _ _ _ _)) at 1. f_equal.
Defined.

Lemma rendered_document_has_page_witness :
  let c := Sample.site [Sample.doc_a; Sample.doc_b] in
  let r := Site.site_run Sample.site_theme c Sample.in_order false None ∅ in
  exists slug, slug_of_file Sample.doc_a = VScalar (SStr slug)
               /\ page_path slug ∈ dom (public (snd r)).
Proof.
  refine (rendered_document_has_page
            (Site.site_generator Sample.site_theme
               (Sample.site [Sample.doc_a; Sample.doc_b]))
            (Sample.site [Sample.doc_a; Sample.doc_b])
            Sample.in_order Site.site_start _ Sample.doc_a _ _ _ _
            eq_refl eq_refl).
  - exact two_posts_distinct_paths.
  - constructor.
  - exact two_posts_build_ok.
  - simpl. now left.
Defined.

End PagesRuns.

Section Taxonomy.
Context `{Platform}.

Lemma scalar_in_str (t : string) (l : list scalar) :
  Py.scalar_in (SStr t) l = true <-> In (SStr t) l.
Proof.
  unfold Py.scalar_in. rewrite existsb_exists. split.
  - intros (y & Hy & Heq). destruct y; try discriminate.
    apply String.eqb_eq in Heq. now subst.
  - intros Hin. exists (SStr t). split; [exact Hin|]. apply String.eqb_refl.
Qed.

Lemma set_add_keeps (s : list scalar) (x y : scalar) :
  In y s -> In y (set_add s x).
Proof.
  intros Hin. unfold set_add. destruct (Py.scalar_in x s); [exact Hin|].
  apply in_or_app. now left.
Qed.

Lemma set_add_str (s : list scalar) (t : string) :
  In (SStr t) (set_add s (SStr t)).
Proof.
  unfold set_add. destruct (Py.scalar_in (SStr t) s) eqn:Hin.
  - now apply scalar_in_str.
  - apply in_or_app. right. now left.
Qed.

Lemma set_update_keeps (xs s : list scalar) (y : scalar) :
  In y s -> In y (set_update s xs).
Proof.
  unfold set_update. revert s.
  induction xs as [|x xs IH]; intros s Hin; simpl; [exact Hin|].
  apply IH, set_add_keeps, Hin.
Qed.

Lemma set_update_str (xs s : list scalar) (t : string) :
  In (SStr t) xs -> In (SStr t) (set_update s xs).
Proof.
  unfold set_update. revert s.
  induction xs as [|x xs IH]; intros s Hin; simpl; [destruct Hin|].
  destruct Hin as [-> | Hin].
  - apply (set_update_keeps xs), set_add_str.
  - apply IH, Hin.
Qed.

(** One round of the write loop only adds names, and adds the string
    names of a result it writes. *)
Lemma result_step_names (bm : Blazemark) (c : content) (force : bool)
    (acc acc' : harvest) (r : render_result) (s s' : state) :
  result_step bm c force acc r s = (Ok acc', s') ->
  (forall x, In x (all_tags acc) -> In x (all_tags acc'))
  /\ (forall x, In x (all_categories acc) -> In x (all_categories acc'))
  /\ (written force r = true ->
      (forall names t,
          declared_names (Py.get_or (res_meta r) "tags" (VList [])) = Ok names ->
          In (SStr t) names -> In (SStr t) (all_tags acc'))
      /\ (forall names t,
          declared_names (Py.get_or (res_meta r) "category" (VList []))
          = Ok names ->
          In (SStr t) names -> In (SStr t) (all_categories acc'))).
Proof.
  unfold result_step, written.
  unfold bind at 1. unfold lift at 1.
  destruct (as_str (res_slug r)) as [slug|e]; [|discriminate].
  unfold bind at 1.
  destruct (run_after_render bm r s) as [[html|e] s1]; [|discriminate].
  destruct (negb (is_draft (res_meta r)) || force).
  - unfold bind at 1.
    destruct (write_file _ html s1) as [[u|e] s2]; [|discriminate].
    unfold bind at 1, lift at 1.
    destruct (stat_mtime c (res_src r)) as [mtime|e]; [|discriminate].
    unfold bind at 1, lift at 1.
    destruct (read_file c (res_src r)) as [text|e]; [|discriminate].
    unfold bind at 1.
    destruct (cache_store _ _ s2) as [[u'|e] s3]; [|discriminate].
    unfold bind at 1, lift at 1.
    destruct (relative_to_output _) as [rel|e]; [|discriminate].
    unfold bind at 1, lift at 1.
    destruct (declared_names (Py.get_or (res_meta r) "tags" (VList [])))
      as [tags|e]; [|discriminate].
    unfold bind at 1, lift at 1.
    destruct (declared_names (Py.get_or (res_meta r) "category" (VList [])))
      as [cats|e]; [|discriminate].
    intros [= <- <-]. simpl. repeat split.
    + intros x. apply set_update_keeps.
    + intros x. apply set_update_keeps.
    + intros names t [= <-]. apply set_update_str.
    + intros names t [= <-]. apply set_update_str.
  - intros [= <- <-]. repeat split; auto; discriminate.
Qed.

Lemma harvest_loop_names (bm : Blazemark) (c : content) (force : bool)
    (results : list render_result) :
  forall (acc h : harvest) (s s' : state),
    for_each results acc (result_step bm c force) s = (Ok h, s') ->
    (forall x, In x (all_tags acc) -> In x (all_tags h))
    /\ (forall x, In x (all_categories acc) -> In x (all_categories h))
    /\ (forall r, In r results -> written force r = true ->
        (forall names t,
            declared_names (Py.get_or (res_meta r) "tags" (VList []))
            = Ok names ->
            In (SStr t) names -> In (SStr t) (all_tags h))
        /\ (forall names t,
            declared_names (Py.get_or (res_meta r) "category" (VList []))
            = Ok names ->
            In (SStr t) names -> In (SStr t) (all_categories h))).
Proof.
  induction results as [|r0 results IH]; intros acc h s s' Hloop.
  - injection Hloop as <- <-. split; [auto|]. split; [auto|]. intros r [].
  - cbn [for_each] in Hloop. unfold bind at 1 in Hloop.
    destruct (result_step bm c force acc r0 s) as [[acc1|e] s1] eqn:Hstep;
      [|discriminate].
    destruct (result_step_names _ _ _ _ _ _ _ _ Hstep) as (T0 & C0 & W0).
    destruct (IH _ _ _ _ Hloop) as (T1 & C1 & W1).
    split; [auto|]. split; [auto|].
    intros r [<- | Hin] Hw.
    + destruct (W0 Hw) as [Wt Wc]. split; intros names t Hn Ht.
      * eapply T1, Wt; eassumption.
      * eapply C1, Wc; eassumption.
    + apply W1; assumption.
Qed.

Lemma pages_taxonomy_step tpl (field dir : string) (site_meta : meta)
    (raw : list listing) (u : unit) (name : scalar) :
  keeps_pages (taxonomy_step tpl field dir site_meta raw u name).
Proof.
  unfold taxonomy_step.
  repeat (apply pages_bind; [apply pages_lift | intros ?]).
  apply pages_write_file.
Qed.

(** The loop over the names that completes has written a page for each
    of them, and each of them is a string. *)
Lemma taxonomy_loop_pages tpl (field dir : string) (site_meta : meta)
    (raw : list listing) (names : list scalar) :
  forall (s s' : state) (u u' : unit),
    for_each names u (taxonomy_step tpl field dir site_meta raw) s
    = (Ok u', s') ->
    forall x, In x names ->
      exists seg, x = SStr seg /\ taxonomy_path dir seg ∈ dom (public s').
Proof.
  induction names as [|n names IH]; intros s s' u u' Hloop x Hin.
  - destruct Hin.
  - cbn [for_each] in Hloop. unfold bind at 1 in Hloop.
    destruct (taxonomy_step tpl field dir site_meta raw u n s)
      as [[u1|e] s1] eqn:Hstep; [|discriminate].
    destruct Hin as [<- | Hin]; [|eapply IH; eassumption].
    assert (Hk : dom (public s1) ⊆ dom (public s')).
    { eapply (pages_for_each names
                (taxonomy_step tpl field dir site_meta raw));
        [|exact Hloop]. intros; apply pages_taxonomy_step. }
    revert Hstep. unfold taxonomy_step.
    unfold bind at 1, lift at 1.
    destruct (posts_for field n raw) as [members|e]; [|discriminate].
    unfold bind at 1, lift at 1.
    destruct (as_str (VScalar n)) as [seg|e] eqn:Hseg; [|discriminate].
    unfold bind at 1, lift at 1.
    destruct (tpl _ _ _ _) as [html|e]; [|discriminate].
    intros Hw. apply write_file_dom in Hw.
    exists seg. split; [|set_solver].
    destruct n; try discriminate. now injection Hseg as ->.
Qed.

Lemma write_taxonomy_pages get_template (field dir : string)
    (site_meta : meta) (raw : list listing) (names : list scalar)
    (s s' : state) (u : unit) :
  write_taxonomy get_template field dir site_meta raw names s = (Ok u, s') ->
  forall x, In x names ->
    exists seg, x = SStr seg /\ taxonomy_path dir seg ∈ dom (public s').
Proof.
  unfold write_taxonomy. unfold bind at 1, lift at 1.
  destruct get_template as [tpl|e]; [|discriminate].
  unfold bind at 1.
  destruct (for_each names tt _ s) as [[u1|e] s1] eqn:Hloop; [|discriminate].
  intros Hrest x Hin.
  destruct (taxonomy_loop_pages _ _ _ _ _ _ _ _ _ _ Hloop x Hin)
    as (seg & Hx & Hd).
  exists seg. split; [exact Hx|].
  assert (Hk : dom (public s1) ⊆ dom (public s')).
  { revert Hrest.
    match goal with
    | |- ?m s1 = _ -> _ => assert (Hkp : keeps_pages m)
    end.
    { repeat (apply pages_bind; [apply pages_lift | intros ?]).
      apply pages_write_file. }
    intros Hrest. eapply Hkp, Hrest. }
  set_solver.
Qed.

Lemma render_pages_names (bm : Blazemark) (site_meta : meta) (h : harvest)
    (s s' : state) (u : unit) :
  render_pages bm site_meta h s = (Ok u, s') ->
  (forall t, In (SStr t) (all_tags h) ->
             taxonomy_path "tag" t ∈ dom (public s'))
  /\ (forall t, In (SStr t) (all_categories h) ->
                taxonomy_path "category" t ∈ dom (public s')).
Proof.
  unfold render_pages. unfold bind at 1.
  destruct (copy_static bm s) as [[u1|e] s1]; [|discriminate].
  unfold bind at 1.
  destruct (write_index bm site_meta h s1) as [[u2|e] s2]; [|discriminate].
  unfold bind at 1.
  destruct (write_taxonomy (tags_html _) _ _ _ _ _ s2) as [[u3|e] s3] eqn:H3;
    [|discriminate].
  intros H4.
  pose proof (pages_write_taxonomy _ _ _ _ _ _ _ _ _ H4) as M4.
  split; intros t Hin.
  - destruct (write_taxonomy_pages _ _ _ _ _ _ _ _ _ H3 _ Hin)
      as (seg & [= <-] & Hd). set_solver.
  - destruct (write_taxonomy_pages _ _ _ _ _ _ _ _ _ H4 _ Hin)
      as (seg & [= <-] & Hd). exact Hd.
Qed.

(** X16: after a build without the force flag that completed, every
    string a rendered document that is not a draft declares under [tags]
    (as the field itself or as an element of its list) has a page
    [public/tag/<name>/index.html], and every string it declares under
    [category] a page [public/category/<name>/index.html] (hooks that
    remove no file assumed). *)
Theorem declared_name_has_page (bm : Blazemark) (c : content)
    (sched : schedule) (s s' : state) (f : source) (m : meta) :
  NoDup (map src_path (all_sources c)) ->
  Forall hook_keeps_pages (plugins bm) ->
  build bm c sched false s = (Ok tt, s') ->
  In f (all_sources c) ->
  fst (fst (parse_front_matter (src_text f))) = PMap m ->
  is_draft m = false ->
  needs_render false (cache s) f = true ->
  (forall names t,
      declared_names (Py.get_or m "tags" (VList [])) = Ok names ->
      In (SStr t) names -> taxonomy_path "tag" t ∈ dom (public s'))
  /\ (forall names t,
      declared_names (Py.get_or m "category" (VList [])) = Ok names ->
      In (SStr t) names -> taxonomy_path "category" t ∈ dom (public s')).
Proof.
  intros Hnd Hhooks Hb Hin Hm Hdraft Hneeds.
  assert (Hfd : front_matter_draft f = false)
    by (unfold front_matter_draft; now rewrite Hm).
  apply build_cases in Hb as (o1 & s1 & Hsel & Hb).
  destruct o1 as [tasks|e]; [|destruct Hb; discriminate].
  destruct Hb as (o2 & s2 & Hren & Hb).
  destruct o2 as [results|e]; [|destruct Hb; discriminate].
  destruct Hb as (o3 & s3 & Hloop & Hb).
  destruct o3 as [h|e]; [|destruct Hb; discriminate].
  destruct Hb as (o4 & s4 & Hpages & Hb).
  destruct o4 as [u|e]; [|destruct Hb; discriminate].
  pose proof (pages_finish bm c Hhooks _ _ _ Hb) as M5.
  assert (Hmap : Forall has_mapping (discovered c))
    by (eapply select_loop_ok_mapping; exact Hsel).
  destruct (select_tasks_spec bm false (site_meta_of (config bm))
              (discovered c) s Hmap) as (s1' & Hsel' & _).
  rewrite Hsel in Hsel'. injection Hsel' as -> <-.
  assert (Hdisc : In f (discovered c))
    by (eapply Permutation_in; [symmetry; apply discovered_perm | exact Hin]).
  assert (Ht : In (task_of bm (site_meta_of (config bm)) f)
                 (map (task_of bm (site_meta_of (config bm)))
                    (List.filter (selected false (cache s)) (discovered c)))).
  { apply in_map, filter_In. split; [exact Hdisc|].
    unfold selected. now rewrite Hfd, Hneeds. }
  pose proof (render_all_ok_perm _ _ _ _ _ _ _ Hren) as Hperm.
  assert (Ho : In (snd (render_post_worker c
                          (task_of bm (site_meta_of (config bm)) f)))
                 (map Ok results)).
  { eapply Permutation_in; [symmetry; exact Hperm|].
    apply (in_map (fun t => snd (render_post_worker c t))), Ht. }
  apply in_map_iff in Ho as (r & Hr & Hrin).
  destruct (render_post_worker c (task_of bm (site_meta_of (config bm)) f))
    as [printed o] eqn:Hrun. simpl in Hr. subst o.
  destruct (worker_result_of_file _ _ _ _ _ _ Hnd Hin Hrun) as [Hsrc Hd].
  unfold task_of in Hrun.
  destruct (render_post_worker_ok _ _ _ _ _ _ Hrun)
    as (text & m' & body & Hread & Hparse & _ & _ & Hmeta).
  unfold read_file in Hread. rewrite (find_source_in _ _ Hnd Hin) in Hread.
  injection Hread as <-.
  rewrite Hparse in Hm. simpl in Hm. injection Hm as ->.
  assert (Hget : forall k, k <> "content_raw" ->
                           Py.get_or (res_meta r) k (VList [])
                           = Py.get_or m k (VList [])).
  { intros k Hk. unfold Py.get_or. rewrite Hmeta, get_set_other; congruence. }
  destruct (harvest_loop_names _ _ _ _ _ _ _ _ Hloop) as (_ & _ & Hw).
  destruct (Hw r Hrin) as [Wt Wc].
  { unfold written. now rewrite Hd, Hfd. }
  destruct (render_pages_names _ _ _ _ _ _ Hpages) as [Pt Pc].
  split; intros names t Hn Ht'.
  - rewrite <- (Hget "tags") in Hn by discriminate.
    eapply elem_of_weaken; [exact (Pt t (Wt names t Hn Ht')) | exact M5].
  - rewrite <- (Hget "category") in Hn by discriminate.
    eapply elem_of_weaken; [exact (Pc t (Wc names t Hn Ht')) | exact M5].
Qed.

End Taxonomy.

Section TaxonomyRuns.
#[local] Existing Instance Site.site_platform.

Lemma declared_name_has_page_witness :
  let c := Sample.site [Site.doc_tagged] in
  let r := Site.site_run Sample.site_theme c Sample.in_order false None ∅ in
  taxonomy_path "tag" "web" ∈ dom (public (snd r))
  /\ taxonomy_path "category" "notes" ∈ dom (public (snd r)).
Proof.
  cbv zeta.
  destruct (declared_name_has_page
              (Site.site_generator Sample.site_theme (Sample.site [Site.doc_tagged]))
              (Sample.site [Site.doc_tagged]) Sample.in_order
              Site.site_start
              (snd (Site.site_run Sample.site_theme (Sample.site [Site.doc_tagged])
                      Sample.in_order false None ∅))
              Site.doc_tagged
              [("tags", VList [SStr "py"; SStr "web"]);
               ("category", VScalar (SStr "notes"))])
    as [Ht Hc].
  - apply NoDup_ListNoDup. vm_compute. repeat constructor; simpl; tauto.
  - constructor.
  - unfold Site.site_run, main_build.
    rewrite (surjective_pairing (build _ _ _ _ _)) at 1. f_equal.
  - simpl. now left.
  - reflexivity.
  - reflexivity.
  - reflexivity.
  - split.
    + apply (Ht [SStr "py"; SStr "web"] "web"); [reflexivity|simpl; tauto].
    + apply (Hc [SStr "notes"] "notes"); [reflexivity|simpl; tauto].
Defined.

End TaxonomyRuns.

Section Clean.
Context `{Platform}.

(** X17: [clean] empties the output tree and removes the cache file, so
    that the next run starts with an empty cache and its build, even
    without the force flag, submits every document that is not a draft
    (front matters that are mappings assumed: any other aborts the
    build). *)
Theorem clean_then_build_selects_every_document (bm : Blazemark)
    (c : content) (fresh : plugin_state) (s : state) :
  Forall has_mapping (discovered c) ->
  let s0 := snd (clean s) in
  public s0 = ∅
  /\ fst (select_tasks bm false (site_meta_of (config bm)) (discovered c)
            (start fresh (cache_file s0) (public s0)))
     = Ok (map (task_of bm (site_meta_of (config bm)))
             (List.filter (fun f => negb (front_matter_draft f))
                (discovered c))).
Proof.
  intros Hmap. simpl. split; [reflexivity|].
  destruct (select_tasks_spec bm false (site_meta_of (config bm))
              (discovered c) (start fresh None ∅) Hmap) as (s1 & -> & _).
  simpl. do 2 f_equal. apply List.filter_ext. intros f.
  unfold selected, needs_render. simpl. rewrite lookup_empty.
  now rewrite !andb_true_r.
Qed.

End Clean.

Section GetPosts.
Context `{Platform}.

Lemma get_posts_step_missing (c : content) (include_drafts : bool)
    (posts : list post_entry) (p : string) (e : cache_entry) (s : state) :
  find_source (all_sources c) p = None ->
  get_posts_step c include_drafts posts (p, e) s
  = (Raise (LibError "FileNotFoundError"), s).
Proof.
  intros Hgone. unfold get_posts_step, read_file. now rewrite Hgone.
Qed.

Lemma get_posts_loop_missing (c : content) (include_drafts : bool)
    (items : list (string * cache_entry)) (p : string) (e : cache_entry) :
  In (p, e) items ->
  find_source (all_sources c) p = None ->
  forall (acc : list post_entry) (s : state),
    exists err,
      fst (for_each items acc (get_posts_step c include_drafts) s) = Raise err.
Proof.
  intros Hin Hgone.
  induction items as [|it items IH]; intros acc s; [destruct Hin|].
  cbn [for_each]. unfold bind at 1.
  destruct Hin as [-> | Hin].
  - rewrite get_posts_step_missing by exact Hgone. simpl. eauto.
  - destruct (get_posts_step c include_drafts acc it s) as [[acc1|err] s1].
    + apply IH, Hin.
    + simpl. eauto.
Qed.

(** X18: [get_posts] raises as soon as one entry of the cache names a
    path under which there is no file: it lists nothing at all, whatever
    the other entries are and with or without the drafts. *)
Theorem get_posts_raises_without_source (c : content)
    (items : list (string * cache_entry)) (include_drafts : bool)
    (p : string) (e : cache_entry) (s : state) :
  In (p, e) items ->
  find_source (all_sources c) p = None ->
  exists err, fst (get_posts c items include_drafts s) = Raise err.
Proof.
  intros Hin Hgone. unfold get_posts.
  eapply get_posts_loop_missing; eassumption.
Qed.

(** X19: a document that was rendered once and then deleted breaks
    [get_posts] for good: no build, forced or not, completed or not,
    removes its entry from the cache, so [get_posts] raises after every
    later build, whatever order the cache is listed in. *)
Theorem deleted_document_breaks_get_posts (bm : Blazemark) (c : content)
    (sched : schedule) (force include_drafts : bool) (s s1 : state)
    (p : string) (items : list (string * cache_entry)) :
  is_Some (cache s !! p) ->
  find_source (all_sources c) p = None ->
  let s' := snd (build bm c sched force s) in
  (forall q e, cache s' !! q = Some e -> In (q, e) items) ->
  exists err, fst (get_posts c items include_drafts s1) = Raise err.
Proof.
  intros Hp Hgone s' Hitems.
  destruct (build bm c sched force s) as [out s2] eqn:Hb.
  apply build_cache_frame in Hb as (Hkeep & _ & _).
  destruct (Hkeep p Hp) as [e He].
  unfold get_posts.
  eapply get_posts_loop_missing; [apply (Hitems p e), He | exact Hgone].
Qed.

(** The entries of the cache, listed in some order. *)
Lemma map_to_list_lists (posts : gmap string cache_entry) (q : string)
    (e : cache_entry) :
  posts !! q = Some e -> In (q, e) (map_to_list posts).
Proof.
  intros Hq. now apply list_elem_of_In, elem_of_map_to_list.
Qed.

Lemma map_to_list_listed (posts : gmap string cache_entry) (q : string)
    (e : cache_entry) :
  In (q, e) (map_to_list posts) -> posts !! q = Some e.
Proof.
  intros Hq. now apply elem_of_map_to_list, list_elem_of_In.
Qed.

(** One round of the loop of [get_posts] on an entry it can list. *)
Lemma get_posts_step_listable (c : content) (include_drafts : bool)
    (posts : list post_entry) (p : string) (e : cache_entry)
    (m : meta) (rel : string) (s : state) :
  listable c p e m rel ->
  fst (get_posts_step c include_drafts posts (p, e) s)
  = Ok (if is_draft m && negb include_drafts then posts
        else posts ++ [post_entry_of m ("/" +:+ rel)]).
Proof.
  intros (f & Hfind & Hm & Hrel).
  unfold get_posts_step, read_file. rewrite Hfind.
  unfold bind at 1, lift at 1.
  destruct (parse_front_matter (src_text f)) as [[o body] printed].
  simpl in Hm. subst o.
  unfold bind at 1, print at 1. unfold bind at 1, lift at 1. simpl.
  destruct (is_draft m && negb include_drafts); [reflexivity|].
  unfold bind, lift. now rewrite Hrel.
Qed.

Lemma get_posts_loop_listable (c : content) (include_drafts : bool)
    (items : list (string * cache_entry)) :
  Forall (fun it => exists m rel, listable c (fst it) (snd it) m rel
                                  /\ is_draft m = false) items ->
  forall (acc : list post_entry) (s : state),
    exists posts,
      fst (for_each items acc (get_posts_step c include_drafts) s)
      = Ok (acc ++ posts)
      /\ Forall2 (fun it post =>
                    exists m rel, listable c (fst it) (snd it) m rel
                                  /\ is_draft m = false
                                  /\ post = post_entry_of m ("/" +:+ rel))
           items posts.
Proof.
  induction 1 as [|[p e] items (m & rel & Hl & Hd) _ IH]; intros acc s.
  - exists []. simpl. rewrite app_nil_r. split; [reflexivity | constructor].
  - cbn [for_each]. unfold bind at 1.
    pose proof (get_posts_step_listable c include_drafts acc p e m rel s Hl)
      as Hstep.
    destruct (get_posts_step c include_drafts acc (p, e) s) as [o s1].
    simpl in Hstep. subst o. rewrite Hd. simpl.
    destruct (IH (acc ++ [post_entry_of m ("/" +:+ rel)]) s1)
      as (posts & Heq & Hall).
    exists (post_entry_of m ("/" +:+ rel) :: posts). split.
    + rewrite Heq. now rewrite <- app_assoc.
    + constructor; [|exact Hall]. exists m, rel. auto.
Qed.

(** The entry a completed round of the write loop stores for the result
    of a worker can be listed, and belongs to a document that is not a
    draft unless the build is forced. *)
Lemma result_step_listable (bm : Blazemark) (c : content) (force : bool)
    (acc acc' : harvest) (r : render_result) (s s' : state)
    (th : theme) (site_meta : meta) (printed : list log_entry) :
  render_post_worker c (res_src r, th, site_meta) = (printed, Ok r) ->
  result_step bm c force acc r s = (Ok acc', s') ->
  cache s' = cache s
  \/ exists e m rel,
       listable c (res_src r) e m rel
       /\ (force = false -> is_draft m = false)
       /\ cache s' = <[res_src r := e]> (cache s).
Proof.
  intros Hrun.
  destruct (render_post_worker_ok _ _ _ _ _ _ Hrun)
    as (text & m & body & Hread & Hparse & _ & _ & Hmeta).
  unfold read_file in Hread.
  destruct (find_source (all_sources c) (res_src r)) as [f|] eqn:Hfind;
    [|discriminate].
  injection Hread as <-.
  unfold result_step, run_after_render.
  unfold bind at 1. unfold lift at 1.
  destruct (as_str (res_slug r)) as [slug|e]; [|discriminate].
  unfold bind at 1.
  destruct (run_after_render_frame (plugins bm) r (res_html r) s)
    as (html & s1 & -> & Hc & Hf & Hp).
  destruct (negb (is_draft (res_meta r)) || force) eqn:Hw.
  2:{ intros [= <- <-]. now left. }
  unfold bind at 1, write_file at 1.
  unfold bind at 1, lift at 1.
  destruct (stat_mtime c (res_src r)) as [mtime|e]; [|discriminate].
  unfold bind at 1, lift at 1.
  unfold read_file. rewrite Hfind.
  unfold bind at 1, cache_store at 1.
  unfold bind at 1, lift at 1.
  destruct (relative_to_output _) as [rel|e] eqn:Hrel; [|discriminate].
  unfold bind at 1, lift at 1.
  destruct (declared_names (Py.get_or (res_meta r) "tags" _)) as [tags|e];
    [|discriminate].
  unfold bind at 1, lift at 1.
  destruct (declared_names (Py.get_or (res_meta r) "category" _))
    as [cats|e]; [|discriminate].
  unfold ret. intros [= <- <-]. simpl. rewrite Hc. right.
  eexists _, m, rel. split; [|split; [|reflexivity]].
  - exists f. split; [exact Hfind|]. split; [now rewrite Hparse|].
    exact Hrel.
  - intros ->. rewrite Hmeta, is_draft_content_raw in Hw.
    rewrite orb_false_r in Hw. now apply negb_true_iff in Hw.
Qed.

Lemma harvest_loop_listable (bm : Blazemark) (c : content) (force : bool)
    (results : list render_result) :
  (forall r, In r results ->
     exists th site_meta printed,
       render_post_worker c (res_src r, th, site_meta) = (printed, Ok r)) ->
  forall (acc h : harvest) (s s' : state),
    for_each results acc (result_step bm c force) s = (Ok h, s') ->
    forall p e, cache s' !! p = Some e ->
      cache s !! p = Some e
      \/ exists m rel, listable c p e m rel
                       /\ (force = false -> is_draft m = false).
Proof.
  induction results as [|r results IH]; intros Hres acc h s s' Hloop p e Hp.
  - injection Hloop as <- <-. now left.
  - cbn [for_each] in Hloop. unfold bind at 1 in Hloop.
    destruct (result_step bm c force acc r s) as [[acc1|e1] s1] eqn:Hstep;
      [|discriminate].
    destruct (Hres r (or_introl eq_refl)) as (th & sm & printed & Hrun).
    destruct (IH (fun r' Hr' => Hres r' (or_intror Hr')) _ _ _ _ Hloop p e Hp)
      as [Hold | Hnew]; [|now right].
    destruct (result_step_listable _ _ _ _ _ _ _ _ _ _ _ Hrun Hstep)
      as [Heq | (e2 & m & rel & Hl & Hd & Heq)]; rewrite Heq in Hold;
      [now left|].
    destruct (decide (res_src r = p)) as [<- | Hne].
    + rewrite lookup_insert_eq in Hold. injection Hold as <-. right. eauto.
    + rewrite lookup_insert_ne in Hold by assumption. now left.
Qed.

(** After a build that completed, an entry of the cache is as it was
    before or can be listed. *)
Lemma build_ok_listable (bm : Blazemark) (c : content) (sched : schedule)
    (force : bool) (s s' : state) :
  build bm c sched force s = (Ok tt, s') ->
  forall p e, cache s' !! p = Some e ->
    cache s !! p = Some e
    \/ exists m rel, listable c p e m rel
                     /\ (force = false -> is_draft m = false).
Proof.
  intros Hb.
  apply build_cases in Hb as (o1 & s1 & Hsel & Hb).
  destruct (select_tasks_frame _ _ _ _ _ _ _ Hsel) as (Hc1 & _).
  destruct o1 as [tasks|e]; [|destruct Hb; discriminate].
  destruct Hb as (o2 & s2 & Hren & Hb).
  destruct (render_all_spec bm c sched tasks s1)
    as (o2' & s2' & Hren' & (Hc2 & _) & _ & Hworkers).
  rewrite Hren in Hren'. injection Hren' as <- <-.
  destruct o2 as [results|e]; [|destruct Hb; discriminate].
  destruct Hb as (o3 & s3 & Hloop & Hb).
  destruct o3 as [h|e]; [|destruct Hb; discriminate].
  destruct Hb as (o4 & s4 & Hpages & Hb).
  destruct o4 as [u|e]; [|destruct Hb; discriminate].
  apply finish_spec in Hb as (_ & Hc5 & _).
  destruct (keeps_render_pages _ _ _ _ _ _ Hpages) as [Hc4 _].
  intros p e. rewrite Hc5, Hc4, <- Hc1, <- Hc2.
  eapply harvest_loop_listable; [|exact Hloop].
  intros r Hr.
  destruct (Hworkers results eq_refl r Hr) as ([[src th] sm] & printed & _ & Hrun).
  destruct (render_post_worker_ok _ _ _ _ _ _ Hrun)
    as (_ & _ & _ & _ & _ & Hsrc & _).
  exists th, sm, printed. now rewrite Hsrc.
Qed.

(** X20: on the cache a first build without the force flag leaves (one
    that started from an empty cache and completed), [get_posts]
    succeeds, with or without the drafts, and returns one post for each
    entry, in the order of the entries: the title, date, category, tags
    and [content_raw] of the front matter of the file under the entry's
    path, none of them a draft, with the URL of the entry's output path.
    Every document of the tree that is not a draft is among them. *)
Theorem get_posts_lists_rendered_documents (bm : Blazemark) (c : content)
    (sched : schedule) (include_drafts : bool) (s s' s1 : state)
    (items : list (string * cache_entry)) :
  NoDup (map src_path (all_sources c)) ->
  cache s = ∅ ->
  build bm c sched false s = (Ok tt, s') ->
  (forall q e, In (q, e) items <-> cache s' !! q = Some e) ->
  exists posts,
    fst (get_posts c items include_drafts s1) = Ok posts
    /\ Forall2 (fun it post =>
                  exists m rel, listable c (fst it) (snd it) m rel
                                /\ is_draft m = false
                                /\ post = post_entry_of m ("/" +:+ rel))
         items posts
    /\ forall f, In f (all_sources c) -> front_matter_draft f = false ->
                 exists e, In (src_path f, e) items.
Proof.
  intros Hnd Hempty Hb Hitems.
  assert (Hall : Forall (fun it => exists m rel,
                             listable c (fst it) (snd it) m rel
                             /\ is_draft m = false) items).
  { apply List.Forall_forall. intros [q e] Hin. apply Hitems in Hin.
    destruct (build_ok_listable _ _ _ _ _ _ Hb q e Hin)
      as [Hold | (m & rel & Hl & Hd)].
    - rewrite Hempty, lookup_empty in Hold. discriminate.
    - exists m, rel. auto. }
  destruct (get_posts_loop_listable c include_drafts items Hall [] s1)
    as (posts & Heq & Hposts).
  exists posts. split; [exact Heq|]. split; [exact Hposts|].
  intros f Hin Hdraft.
  destruct (build_ok_entries _ _ _ _ _ _ Hnd Hb Hin Hdraft) as (e & He & _).
  exists e. now apply Hitems.
Qed.

End GetPosts.

Section GetPostsRuns.
#[local] Existing Instance Site.site_platform.

Lemma clean_then_build_selects_every_document_witness :
  let c := Sample.site [Sample.doc_a; Sample.doc_draft] in
  let bm := Site.site_generator Sample.site_theme c in
  let s := snd (Site.site_run Sample.site_theme c Sample.in_order false None ∅) in
  let s0 := snd (clean s) in
  public s0 = ∅
  /\ fst (select_tasks bm false (site_meta_of (config bm)) (discovered c)
            (start tt (cache_file s0) (public s0)))
     = Ok (map (task_of bm (site_meta_of (config bm)))
             (List.filter (fun f => negb (front_matter_draft f))
                (discovered c))).
Proof.
  cbv zeta. apply clean_then_build_selects_every_document.
  repeat constructor; eexists; reflexivity.
Defined.

Lemma get_posts_raises_without_source_witness :
  exists err,
    fst (get_posts (Sample.site [Sample.doc_a])
           [("content/a.md",
             {| e_mtime := 100; e_hash := "h"; e_output := "public/a/index.html" |});
            ("content/b.md",
             {| e_mtime := 101; e_hash := "k"; e_output := "public/b/index.html" |})]
           false Site.site_start)
    = Raise err.
Proof.
  eapply get_posts_raises_without_source; [right; left; reflexivity|].
  reflexivity.
Defined.

(** b is built, then removed from the tree; after the next build
    [get_posts] raises. *)
Lemma deleted_document_breaks_get_posts_witness :
  let c1 := Sample.site [Sample.doc_a; Sample.doc_b] in
  let c2 := Sample.site [Sample.doc_a] in
  let r1 := Site.site_run Sample.site_theme c1 Sample.in_order false None ∅ in
  let s := start tt (cache_file (snd r1)) (public (snd r1)) in
  let s' := snd (build (Site.site_generator Sample.site_theme c2) c2
                   Sample.in_order false s) in
  exists err,
    fst (get_posts c2 (map_to_list (cache s')) false s') = Raise err.
Proof.
  cbv zeta.
  refine (deleted_document_breaks_get_posts
            (Site.site_generator Sample.site_theme (Sample.site [Sample.doc_a]))
            (Sample.site [Sample.doc_a]) Sample.in_order false false
            (start tt
               (cache_file
                  (snd (Site.site_run Sample.site_theme
                          (Sample.site [Sample.doc_a; Sample.doc_b])
                          Sample.in_order false None ∅)))
               (public
                  (snd (Site.site_run Sample.site_theme
                          (Sample.site [Sample.doc_a; Sample.doc_b])
                          Sample.in_order false None ∅))))
            _ "content/b.md" _ _ _ _).
  - vm_compute. eauto.
  - reflexivity.
  - intros q e. apply map_to_list_lists.
Defined.

Lemma get_posts_lists_rendered_documents_witness :
  let c := Sample.site [Sample.doc_a; Sample.doc_b] in
  let s' := snd (Site.site_run Sample.site_theme c Sample.in_order false None ∅) in
  let items := map_to_list (cache s') in
  exists posts,
    fst (get_posts c items false s') = Ok posts
    /\ Forall2 (fun it post =>
                  exists m rel, listable c (fst it) (snd it) m rel
                                /\ is_draft m = false
                                /\ post = post_entry_of m ("/" +:+ rel))
         items posts
    /\ forall f, In f (all_sources c) -> front_matter_draft f = false ->
                 exists e, In (src_path f, e) items.
Proof.
  cbv zeta.
  eapply (get_posts_lists_rendered_documents
            (Site.site_generator Sample.site_theme
               (Sample.site [Sample.doc_a; Sample.doc_b]))
            (Sample.site [Sample.doc_a; Sample.doc_b]) Sample.in_order
            false Site.site_start).
  - exact two_posts_distinct_paths.
  - reflexivity.
  - exact two_posts_build_ok.
  - intros q e. split; [apply map_to_list_listed | apply map_to_list_lists].
Defined.

End GetPostsRuns.

Section IllTyped.
Context `{Platform}.

Lemma harvest_loop_raises (bm : Blazemark) (c : content) (force : bool)
    (results : list render_result) (r : render_result) :
  In r results ->
  (forall acc s, exists e, fst (result_step bm c force acc r s) = Raise e) ->
  forall (acc : harvest) (s : state),
    exists e, fst (for_each results acc (result_step bm c force) s) = Raise e.
Proof.
  intros Hin Hr.
  induction results as [|r0 results IH]; intros acc s; [destruct Hin|].
  cbn [for_each]. unfold bind at 1.
  destruct Hin as [-> | Hin].
  - destruct (Hr acc s) as [e He].
    destruct (result_step bm c force acc r s) as [o s1]. simpl in He.
    subst o. simpl. eauto.
  - destruct (result_step bm c force acc r0 s) as [[acc1|e] s1].
    + apply IH, Hin.
    + simpl. eauto.
Qed.

(** A round of the write loop on a result it writes raises when the slug
    is not a string or a taxonomy field is a scalar that is not one. *)
Lemma result_step_ill_typed (bm : Blazemark) (c : content) (force : bool)
    (r : render_result) :
  written force r = true ->
  as_str (res_slug r) = Raise TypeError
  \/ declared_names (Py.get_or (res_meta r) "tags" (VList []))
     = Raise TypeError
  \/ declared_names (Py.get_or (res_meta r) "category" (VList []))
     = Raise TypeError ->
  forall acc s, exists e, fst (result_step bm c force acc r s) = Raise e.
Proof.
  unfold written. intros Hw Hbad acc s. unfold result_step.
  unfold bind at 1. unfold lift at 1.
  destruct (as_str (res_slug r)) as [slug|e] eqn:Hslug; [|simpl; eauto].
  destruct Hbad as [Hbad | Hbad]; [discriminate|].
  unfold bind at 1.
  destruct (run_after_render bm r s) as [[html|e] s1]; [|simpl; eauto].
  rewrite Hw.
  unfold bind at 1, write_file at 1.
  unfold bind at 1, lift at 1.
  destruct (stat_mtime c (res_src r)) as [mtime|e]; [|simpl; eauto].
  unfold bind at 1, lift at 1.
  destruct (read_file c (res_src r)) as [text|e]; [|simpl; eauto].
  unfold bind at 1, cache_store at 1.
  unfold bind at 1, lift at 1.
  destruct (relative_to_output _) as [rel|e]; [|simpl; eauto].
  unfold bind at 1, lift at 1.
  destruct (declared_names (Py.get_or (res_meta r) "tags" _)) as [tags|e];
    [|simpl; eauto].
  destruct Hbad as [Hbad | Hbad]; [discriminate|].
  unfold bind at 1, lift at 1. rewrite Hbad. simpl. eauto.
Qed.

(** X21: one document with ill-typed metadata aborts the whole build.
    When a document that is selected for rendering has a slug that is
    not a string (a number, a date), or a [tags] or [category] field that
    is a scalar other than a string, [build] raises, whatever the other
    documents are, and the cache file is not rewritten. *)
Theorem ill_typed_metadata_aborts_build (bm : Blazemark) (c : content)
    (sched : schedule) (force : bool) (s : state) (f : source) (m : meta) :
  NoDup (map src_path (all_sources c)) ->
  In f (all_sources c) ->
  fst (fst (parse_front_matter (src_text f))) = PMap m ->
  is_draft m && negb force = false ->
  needs_render force (cache s) f = true ->
  as_str (resolve_slug m (src_path f)) = Raise TypeError
  \/ declared_names (Py.get_or m "tags" (VList [])) = Raise TypeError
  \/ declared_names (Py.get_or m "category" (VList [])) = Raise TypeError ->
  (exists e, fst (build bm c sched force s) = Raise e)
  /\ cache_file (snd (build bm c sched force s)) = cache_file s.
Proof.
  intros Hnd Hin Hm Hdraft Hneeds Hbad.
  assert (Hfd : front_matter_draft f = is_draft m)
    by (unfold front_matter_draft; now rewrite Hm).
  destruct (build bm c sched force s) as [out s'] eqn:Hb. simpl.
  assert (Hout : exists e, out = Raise e).
  { apply build_cases in Hb as (o1 & s1 & Hsel & Hb).
    destruct o1 as [tasks|e]; [|destruct Hb; eauto].
    destruct Hb as (o2 & s2 & Hren & Hb).
    destruct o2 as [results|e]; [|destruct Hb; eauto].
    destruct Hb as (o3 & s3 & Hloop & Hb).
    assert (Hmap : Forall has_mapping (discovered c))
      by (eapply select_loop_ok_mapping; exact Hsel).
    destruct (select_tasks_spec bm force (site_meta_of (config bm))
                (discovered c) s Hmap) as (s1' & Hsel' & _).
    rewrite Hsel in Hsel'. injection Hsel' as -> <-.
    assert (Hdisc : In f (discovered c))
      by (eapply Permutation_in; [symmetry; apply discovered_perm | exact Hin]).
    assert (Ht : In (task_of bm (site_meta_of (config bm)) f)
                   (map (task_of bm (site_meta_of (config bm)))
                      (List.filter (selected force (cache s)) (discovered c)))).
    { apply in_map, filter_In. split; [exact Hdisc|].
      unfold selected. now rewrite Hfd, Hdraft, Hneeds. }
    pose proof (render_all_ok_perm _ _ _ _ _ _ _ Hren) as Hperm.
    assert (Ho : In (snd (render_post_worker c
                            (task_of bm (site_meta_of (config bm)) f)))
                   (map Ok results)).
    { eapply Permutation_in; [symmetry; exact Hperm|].
      apply (in_map (fun t => snd (render_post_worker c t))), Ht. }
    apply in_map_iff in Ho as (r & Hr & Hrin).
    destruct (render_post_worker c (task_of bm (site_meta_of (config bm)) f))
      as [printed o] eqn:Hrun. simpl in Hr. subst o.
    destruct (worker_result_of_file _ _ _ _ _ _ Hnd Hin Hrun) as [Hsrc Hd].
    unfold task_of in Hrun.
    destruct (render_post_worker_ok _ _ _ _ _ _ Hrun)
      as (text & m' & body & Hread & Hparse & _ & Hslug & Hmeta).
    unfold read_file in Hread. rewrite (find_source_in _ _ Hnd Hin) in Hread.
    injection Hread as <-.
    rewrite Hparse in Hm. simpl in Hm. injection Hm as ->.
    assert (Hget : forall k, k <> "content_raw" ->
                             Py.get_or (res_meta r) k (VList [])
                             = Py.get_or m k (VList [])).
    { intros k Hk. unfold Py.get_or. rewrite Hmeta, get_set_other; congruence. }
    assert (Hw : written force r = true).
    { unfold written. rewrite Hd, Hfd.
      destruct (is_draft m), force; simpl in *; congruence. }
    assert (Hbad' : as_str (res_slug r) = Raise TypeError
                    \/ declared_names (Py.get_or (res_meta r) "tags" (VList []))
                       = Raise TypeError
                    \/ declared_names
                         (Py.get_or (res_meta r) "category" (VList []))
                       = Raise TypeError).
    { rewrite Hslug, (Hget "tags"), (Hget "category") by discriminate.
      exact Hbad. }
    destruct (harvest_loop_raises bm c force results r Hrin
                (result_step_ill_typed bm c force r Hw Hbad')
                {| raw_post_list := []; all_tags := []; all_categories := [] |}
                s2) as [e He].
    rewrite Hloop in He. simpl in He. subst o3. destruct Hb. eauto. }
  split; [exact Hout|].
  destruct Hout as [e ->].
  now apply build_cache_frame in Hb as (_ & _ & Hfile).
Qed.

End IllTyped.

Section IllTypedRuns.
#[local] Existing Instance Site.site_platform.

Lemma ill_typed_metadata_aborts_build_witness :
  let c := Sample.site [Sample.doc_a; Site.doc_numeric_slug] in
  let r := build (Site.site_generator Sample.site_theme c) c Sample.in_order false
             Site.site_start in
  (exists e, fst r = Raise e) /\ cache_file (snd r) = None.
Proof.
  cbv zeta.
  refine (ill_typed_metadata_aborts_build
            (Site.site_generator Sample.site_theme
               (Sample.site [Sample.doc_a; Site.doc_numeric_slug]))
            (Sample.site [Sample.doc_a; Site.doc_numeric_slug])
            Sample.in_order false Site.site_start Site.doc_numeric_slug
            [("slug", VScalar (SInt 7))] _ _ _ _ _ _).
  - repeat constructor; simpl; intros Hin;
      repeat (apply elem_of_cons in Hin as [Hin | Hin]; [discriminate|]);
      now apply not_elem_of_nil in Hin.
  - simpl. tauto.
  - reflexivity.
  - reflexivity.
  - reflexivity.
  - left. reflexivity.
Defined.

End IllTypedRuns.
